(** * dayblazer-calendar: calendar manager and day/event classes

    A shallow embedding of the calendar manager (date utilities, grid
    builder) and of the [CalendarDay] / [CalendarEvent] classes, with the
    properties of the specification stated and proved on it.

    JavaScript numbers are modelled as unbounded integers plus [NaN]; the
    built-in [Date] follows the abstract operations of ECMA-262 (section
    "Date Objects"), read in local civil time (zone offset zero). The
    constructor of [JSDate] leaves out the clipping of the time value to
    +-8.64e15 ms; [Clipped] has the date utilities with it. Strings are
    sequences of code units below 256. *)

From Stdlib Require Import ZArith Lia List String Ascii Bool DecimalString DecimalZ.
From Stdlib Require Import Sorted Permutation.
From stdpp Require Import base option list gmap strings.

Local Open Scope string_scope.
Local Open Scope Z_scope.

(** ** JavaScript values *)

(** A number: an integer or [NaN]. *)
Inductive num : Type :=
  | NaN
  | Num (z : Z).

(** The values an externally supplied field may hold. *)
Inductive value : Type :=
  | VUndefined
  | VNull
  | VBool (b : bool)
  | VNum (n : num)
  | VStr (s : string).

#[global] Instance num_eq_dec : EqDecision num.
Proof. solve_decision. Defined.

#[global] Instance value_eq_dec : EqDecision value.
Proof. solve_decision. Defined.

Definition num_add (a : num) (k : Z) : num :=
  match a with
  | NaN => NaN
  | Num z => Num (z + k)
  end.

(** [a < b] on numbers: false as soon as one side is [NaN]. *)
Definition num_ltb (a b : num) : bool :=
  match a, b with
  | Num x, Num y => x <? y
  | _, _ => false
  end.

(** Strict equality [===]: same type and same value; [NaN] equals nothing. *)
Definition strict_eqb (a b : value) : bool :=
  match a, b with
  | VUndefined, VUndefined => true
  | VNull, VNull => true
  | VBool x, VBool y => Bool.eqb x y
  | VNum (Num x), VNum (Num y) => x =? y
  | VStr x, VStr y => String.eqb x y
  | _, _ => false
  end.

(** [Number.prototype.toString] on an integer or [NaN]. *)
Definition numToString (n : num) : string :=
  match n with
  | NaN => "NaN"
  | Num z => NilZero.string_of_int (Z.to_int z)
  end.

(** ** The built-in Date (ECMA-262 abstract operations) *)

Module JSDate.

Definition msPerDay : Z := 86400000.

Definition Day (t : Z) : Z := t / msPerDay.
Definition TimeWithinDay (t : Z) : Z := t mod msPerDay.

Definition InLeapYear (y : Z) : bool :=
  ((y mod 4 =? 0) && negb (y mod 100 =? 0)) || (y mod 400 =? 0).

Definition DaysInYear (y : Z) : Z := if InLeapYear y then 366 else 365.

Definition DayFromYear (y : Z) : Z :=
  365 * (y - 1970) + (y - 1969) / 4 - (y - 1901) / 100 + (y - 1601) / 400.

(** The largest [y] with [DayFromYear y <= d]: a lower estimate from the
    400-year cycle (146097 days, counted from 1 January of year 0, which
    is day -719528), corrected by at most one year. *)
Definition YearFromDay (d : Z) : Z :=
  let n := d + 719528 in
  let y0 := 400 * (n / 146097) + (n mod 146097) / 366 in
  if DayFromYear (y0 + 1) <=? d then y0 + 1 else y0.

Definition YearFromTime (t : Z) : Z := YearFromDay (Day t).

Definition DayWithinYear (t : Z) : Z := Day t - DayFromYear (YearFromTime t).

Definition leapDays (t : Z) : Z :=
  if InLeapYear (YearFromTime t) then 1 else 0.

(** Days of the year that precede month [mn] (0 = January); [L] is 1 in
    a leap year and 0 otherwise. *)
Definition DaysBeforeMonth (mn L : Z) : Z :=
  match mn with
  | 0 => 0
  | 1 => 31
  | 2 => 59 + L
  | 3 => 90 + L
  | 4 => 120 + L
  | 5 => 151 + L
  | 6 => 181 + L
  | 7 => 212 + L
  | 8 => 243 + L
  | 9 => 273 + L
  | 10 => 304 + L
  | _ => 334 + L
  end.

Definition MonthFromTime (t : Z) : Z :=
  let d := DayWithinYear t in
  let L := leapDays t in
  if d <? 31 then 0
  else if d <? 59 + L then 1
  else if d <? 90 + L then 2
  else if d <? 120 + L then 3
  else if d <? 151 + L then 4
  else if d <? 181 + L then 5
  else if d <? 212 + L then 6
  else if d <? 243 + L then 7
  else if d <? 273 + L then 8
  else if d <? 304 + L then 9
  else if d <? 334 + L then 10
  else 11.

Definition DateFromTime (t : Z) : Z :=
  DayWithinYear t - DaysBeforeMonth (MonthFromTime t) (leapDays t) + 1.

(** 0 = Sunday, 1 = Monday, ..., 6 = Saturday. *)
Definition WeekDay (t : Z) : Z := (Day t + 4) mod 7.

Definition MakeDay (year month date : Z) : Z :=
  let ym := year + month / 12 in
  let mn := month mod 12 in
  DayFromYear ym + DaysBeforeMonth mn (if InLeapYear ym then 1 else 0)
  + date - 1.

Definition MakeDate (day time : Z) : Z := day * msPerDay + time.

(** A Date object: its time value, or the invalid date (time value
    [NaN]). *)
Inductive Date : Type :=
  | InvalidDate
  | DateAt (tv : Z).

(** [new Date(year, month, date)]: a year from 0 to 99 stands for
    1900 + year; the time of day is midnight. *)
Definition newDate (year month date : num) : Date :=
  match year, month, date with
  | Num y, Num m, Num dt =>
      let yr := if (0 <=? y) && (y <=? 99) then 1900 + y else y in
      DateAt (MakeDate (MakeDay yr m dt) 0)
  | _, _, _ => InvalidDate
  end.

Definition getFullYear (d : Date) : num :=
  match d with
  | InvalidDate => NaN
  | DateAt t => Num (YearFromTime t)
  end.

Definition getMonth (d : Date) : num :=
  match d with
  | InvalidDate => NaN
  | DateAt t => Num (MonthFromTime t)
  end.

Definition getDate (d : Date) : num :=
  match d with
  | InvalidDate => NaN
  | DateAt t => Num (DateFromTime t)
  end.

(** [d.setMonth(month)]: same year, day of the month and time of day,
    new month; a day of the month the new month does not have carries
    over into the following month. Returns the updated date. *)
Definition setMonth (d : Date) (month : num) : Date :=
  match d, month with
  | DateAt t, Num m =>
      DateAt (MakeDate (MakeDay (YearFromTime t) m (DateFromTime t))
                       (TimeWithinDay t))
  | _, _ => InvalidDate
  end.

Definition weekDayName (w : Z) : string :=
  match w with
  | 0 => "Sun"
  | 1 => "Mon"
  | 2 => "Tue"
  | 3 => "Wed"
  | 4 => "Thu"
  | 5 => "Fri"
  | _ => "Sat"
  end.

(** [d.toString().split(" ")[0]]: the text of a date starts with the
    three-letter weekday name, that of the invalid date is
    "Invalid Date". *)
Definition toString_firstWord (d : Date) : string :=
  match d with
  | InvalidDate => "Invalid"
  | DateAt t => weekDayName (WeekDay t)
  end.

End JSDate.

Import JSDate.

(** ** Calendar manager: date utilities *)

(** [getDaysInMonth]: day 0 of the following month. *)
Definition getDaysInMonth (date : Date) : num :=
  getDate (newDate (getFullYear date) (num_add (getMonth date) 1) (Num 0)).

(** The object returned by [getFirstWeekDayInMonth]. The seven weekday
    cases of the source set the property [weekday]; its default case sets
    [weekDay] instead, so both properties appear here, absent ([None]) when
    the object literal does not define them. *)
Record FirstWeekDay : Type := mkFirstWeekDay {
  weekday : option string;
  weekDay : option string;
  index : Z
}.

Definition getFirstWeekDayInMonth (selectedDate : Date) : FirstWeekDay :=
  let month := getMonth selectedDate in
  let year := getFullYear selectedDate in
  let firstDayDate := newDate year month (Num 1) in
  let firstDayDateSlice := toString_firstWord firstDayDate in
  if String.eqb firstDayDateSlice "Mon" then mkFirstWeekDay (Some "Monday") None 0
  else if String.eqb firstDayDateSlice "Tue" then mkFirstWeekDay (Some "Tuesday") None 1
  else if String.eqb firstDayDateSlice "Wed" then mkFirstWeekDay (Some "Wednesday") None 2
  else if String.eqb firstDayDateSlice "Thu" then mkFirstWeekDay (Some "Thursday") None 3
  else if String.eqb firstDayDateSlice "Fri" then mkFirstWeekDay (Some "Friday") None 4
  else if String.eqb firstDayDateSlice "Sat" then mkFirstWeekDay (Some "Saturday") None 5
  else if String.eqb firstDayDateSlice "Sun" then mkFirstWeekDay (Some "Sunday") None 6
  else mkFirstWeekDay None (Some "UNDEFINED") 0.

(** [getDateString]: a one-character day or month gets a leading "0". *)
Definition getDateString (day month year : num) : string :=
  let day := if (String.length (numToString day) =? 1)%nat
             then "0" ++ numToString day else numToString day in
  let month := if (String.length (numToString month) =? 1)%nat
               then "0" ++ numToString month else numToString month in
  day ++ "-" ++ month ++ "-" ++ numToString year.

(** ** Calendar manager: the grid *)

(** A day div as [createDayDiv] builds it: its class list, the day number
    handed to its label, and [dataset.date] once it is set. *)
Record DayDiv : Type := mkDayDiv {
  classList : list string;
  dayNumber : Z;
  dataset_date : option string
}.

(** [classList.add(token)]: a token already present is not repeated. *)
Definition classList_add (token : string) (classes : list string) : list string :=
  if bool_decide (token ∈ classes) then classes else (classes ++ [token])%list.

Definition createDayDiv (type : string) (day : Z) : DayDiv :=
  mkDayDiv (classList_add type ["monthView_day"]) day None.

Definition set_dataset_date (div : DayDiv) (dateString : string) : DayDiv :=
  mkDayDiv (classList div) (dayNumber div) (Some dateString).

Definition add_class (token : string) (div : DayDiv) : DayDiv :=
  mkDayDiv (classList_add token (classList div)) (dayNumber div) (dataset_date div).

(** The globals [createCalendarGrid] reads without defining them; the
    sources at hand do not define them either, so they are parameters. *)
Record Globals : Type := mkGlobals {
  daysInCurrentMonth : Z;
  nextMonth : Date
}.

(** The body the three loops of [createCalendarGrid] share: the date
    string of day [day] in the month and year of [month], and a new div of
    class [type] that carries it in [dataset.date]. *)
Definition newDayDiv (type : string) (day : Z) (month : Date) : DayDiv :=
  let currentDateString :=
    getDateString (Num day) (num_add (getMonth month) 1) (getFullYear month) in
  let newDiv := createDayDiv type day in
  set_dataset_date newDiv currentDateString.

(** [createCalendarGrid]. [now] is the time value [new Date()] reads from
    the clock; [container] is the list of children of the container
    element, and the result is that list after the call. The result is
    [None] when the call throws a TypeError: [getDateString] calling
    [toString] on the [undefined] it gets for [remainder[i]] past the end
    of [remainder], or [classList] read from the [undefined] that
    [container.children[k]] yields for an index [k] that is no child. *)
Definition createCalendarGrid (now : Z) (g : Globals) (selectedDate : Date)
    (container : list DayDiv) (gridItemAmount : Z) : option (list DayDiv) :=
  let previousMonth := DateAt now in
  let previousMonth := setMonth previousMonth (num_add (getMonth selectedDate) (-1)) in
  let firstDay := getFirstWeekDayInMonth selectedDate in
  let daysInPreviousMonth := getDaysInMonth previousMonth in
  let remainder :=
    match daysInPreviousMonth with
    | NaN => []
    | Num n => seqZ 1 n
    end in
  let remainder :=
    drop (Z.to_nat (Z.max (Z.of_nat (length remainder) - index firstDay) 0)) remainder in
  previous ← mapM (fun i : nat =>
      day ← remainder !! i; Some (newDayDiv "previous" day previousMonth))
    (seq 0 (Z.to_nat (index firstDay)));
  let container := (container ++ previous)%list in
  let container := (container ++
    fmap (fun i : Z => newDayDiv "current" (i + 1) selectedDate)
         (seqZ 0 (daysInCurrentMonth g)))%list in
  let daysRemaining := gridItemAmount - Z.of_nat (length container) in
  let container := (container ++
    fmap (fun i : Z => newDayDiv "next" (i + 1) (nextMonth g))
         (seqZ 0 daysRemaining))%list in
  match num_add (num_add (getDate selectedDate) (index firstDay)) (-1) with
  | NaN => None
  | Num k =>
      if (0 <=? k) && (k <? Z.of_nat (length container))
      then Some (alter (add_class "today") (Z.to_nat k) container)
      else None
  end.

(** The capacity [initCalendar] asks for. *)
Definition maxGridItems (selectedDate : Date) : Z :=
  let firstDayOfSelectedMonth := getFirstWeekDayInMonth selectedDate in
  if 5 <=? index firstDayOfSelectedMonth then 42 else 35.

(** [initCalendar], up to and including its call of [createCalendarGrid]
    (what follows renders event previews into the grid). *)
Definition initCalendar (now : Z) (g : Globals) (selectedDate : Date)
    (container : list DayDiv) : option (list DayDiv) :=
  createCalendarGrid now g selectedDate container (maxGridItems selectedDate).

(** ** String helpers of the day model *)

(** White space and line terminators, among the code units below 256. *)
Definition isWhiteSpace (c : ascii) : bool :=
  let n := nat_of_ascii c in
  ((n =? 9) || (n =? 10) || (n =? 11) || (n =? 12) || (n =? 13)
   || (n =? 32) || (n =? 160))%nat.

Fixpoint trimStart (s : string) : string :=
  match s with
  | EmptyString => EmptyString
  | String c s' => if isWhiteSpace c then trimStart s' else s
  end.

Definition reverse_string (s : string) : string :=
  string_of_list_ascii (rev (list_ascii_of_string s)).

Definition trimEnd (s : string) : string :=
  reverse_string (trimStart (reverse_string s)).

Definition trim (s : string) : string := trimEnd (trimStart s).

(** [s.slice(0, 2)]. *)
Definition slice_0_2 (s : string) : string := substring 0 2 s.

Definition digitValue (c : ascii) : option Z :=
  let n := Z.of_nat (nat_of_ascii c) in
  if (48 <=? n) && (n <=? 57) then Some (n - 48)
  else if (97 <=? n) && (n <=? 122) then Some (n - 87)
  else if (65 <=? n) && (n <=? 90) then Some (n - 55)
  else None.

(** The value of the longest prefix of [s] made of digits of radix [R];
    [acc] is [None] as long as no digit was read. *)
Fixpoint parseDigits (R : Z) (s : string) (acc : option Z) : option Z :=
  match s with
  | EmptyString => acc
  | String c s' =>
      match digitValue c with
      | Some v =>
          if v <? R then parseDigits R s' (Some (default 0 acc * R + v)) else acc
      | None => acc
      end
  end.

(** [parseInt(s)] without a radix: leading white space, a sign, a "0x"
    prefix for radix 16, then digits; [NaN] when there is no digit. *)
Definition parseInt (s : string) : num :=
  let s := trimStart s in
  let '(sign, s) :=
    match s with
    | String "-" s' => (-1, s')
    | String "+" s' => (1, s')
    | _ => (1, s)
    end in
  let '(R, s) :=
    match s with
    | String "0" (String "x" s') => (16, s')
    | String "0" (String "X" s') => (16, s')
    | _ => (10, s)
    end in
  match parseDigits R s None with
  | None => NaN
  | Some v => Num (sign * v)
  end.

(** Template-literal conversion of a value to text. *)
Definition valueToString (v : value) : string :=
  match v with
  | VUndefined => "undefined"
  | VNull => "null"
  | VBool true => "true"
  | VBool false => "false"
  | VNum n => numToString n
  | VStr s => s
  end.

(** ** The event class *)

Module CalendarEvent.

(** An event object. [date] and [startTime] are the strings the day model
    calls [toString], [trim] and [slice] on; the other fields are copied
    from the external data without a check, whatever they hold. *)
Record t : Type := mk {
  id : value;
  name : value;
  description : value;
  date : string;
  startTime : string;
  endTime : value;
  type : value;
  difficulty : value;
  finished : value
}.

(** [new CalendarEvent(eventData)]: every field is copied. *)
Definition constructor (eventData : t) : t :=
  mk (id eventData) (name eventData) (description eventData) (date eventData)
     (startTime eventData) (endTime eventData) (type eventData)
     (difficulty eventData) (finished eventData).

(** What a call of [updateEventInfo] leaves behind: the event after the
    call, the line written with [console.log], and the value returned. *)
Record updated : Type := mkUpdated {
  this_after : t;
  logged : string;
  returned : value
}.

(** [updateEventInfo(eventData)], assignment by assignment. *)
Definition updateEventInfo (this : t) (eventData : t) : updated :=
  let this := mk (id this) (name eventData) (description this) (date this)
                 (startTime this) (endTime this) (type this) (difficulty this)
                 (finished this) in
  let this := mk (id this) (name this) (description eventData) (date this)
                 (startTime this) (endTime this) (type this) (difficulty this)
                 (finished this) in
  let this := mk (id this) (name this) (description this) (date eventData)
                 (startTime this) (endTime this) (type this) (difficulty this)
                 (finished this) in
  let this := mk (id this) (name this) (description this) (date this)
                 (startTime eventData) (endTime this) (type this) (difficulty this)
                 (finished this) in
  let this := mk (id this) (name this) (description this) (date this)
                 (startTime this) (endTime eventData) (type this) (difficulty this)
                 (finished this) in
  let this := mk (id this) (name this) (description this) (date this)
                 (startTime this) (endTime this) (type eventData) (difficulty this)
                 (finished this) in
  let this := mk (id this) (name this) (description this) (date this)
                 (startTime this) (endTime this) (type this) (difficulty this)
                 (finished eventData) in
  mkUpdated this ("Updated CalendarEvent: " ++ valueToString (id this)) VUndefined.

End CalendarEvent.

(** ** The day class *)

(** Arrays are objects: the store maps a reference to the elements of the
    array it denotes. *)
Abbreviation loc := positive.
Abbreviation store := (gmap positive (list CalendarEvent.t)).

(** A new array holding [elements], as [filter] returns one. *)
Definition alloc (elements : list CalendarEvent.t) (h : store) : loc * store :=
  let l := fresh (dom h) in (l, <[l := elements]> h).

(** Insertion of [x] in front of the first element it does not come after
    ([comparefn x y > 0] says that [x] comes after [y]). *)
Fixpoint sort_insert {A : Type} (comparefn : A -> A -> Z) (x : A) (l : list A) : list A :=
  match l with
  | [] => [x]
  | y :: l' =>
      if 0 <? comparefn x y then y :: sort_insert comparefn x l'
      else x :: y :: l'
  end.

(** The order [Array.prototype.sort] produces: the stable sort. For a
    consistent comparison function every conforming engine returns this
    list; otherwise the language leaves the order to the engine. *)
Fixpoint sorted_by {A : Type} (comparefn : A -> A -> Z) (l : list A) : list A :=
  match l with
  | [] => []
  | x :: l' => sort_insert comparefn x (sorted_by comparefn l')
  end.

(** [array.sort(comparefn)]: sorts the array in place and returns the same
    reference. *)
Definition array_sort (comparefn : CalendarEvent.t -> CalendarEvent.t -> Z)
    (array : loc) (h : store) : loc * store :=
  (array, alter (sorted_by comparefn) array h).

Module CalendarDay.

Record t : Type := mk {
  date : string;
  eventList : option loc
}.

(** The filter callback of [refreshEventList]. *)
Definition matches (this : t) (obj : CalendarEvent.t) : bool :=
  String.eqb (trim (CalendarEvent.date obj)) (trim (date this)).

(** The hour the comparison function reads from an event. *)
Definition time (a : CalendarEvent.t) : num :=
  parseInt (slice_0_2 (CalendarEvent.startTime a)).

(** The comparison function of [refreshEventList]. *)
Definition compare_startTime (a b : CalendarEvent.t) : Z :=
  let timeA := time a in
  let timeB := time b in
  if num_ltb timeA timeB then -1
  else if num_ltb timeB timeA then 1
  else 0.

(** [refreshEventList()]; [globalEventList] is the reference held by the
    global variable of that name. [None] stands for a global that refers
    to no array. *)
Definition refreshEventList (globalEventList : loc) (h : store) (this : t)
    : option (store * t) :=
  events ← h !! globalEventList;
  let '(matchingEvents, h) := alloc (List.filter (matches this) events) h in
  let '(sortedEvents, h) := array_sort compare_startTime matchingEvents h in
  Some (h, mk (date this) (Some sortedEvents)).

(** [new CalendarDay(dateString)]. *)
Definition constructor (globalEventList : loc) (h : store) (dateString : string)
    : option (store * t) :=
  let this := mk dateString None in
  refreshEventList globalEventList h this.

(** The events a day shows: the elements of the array [eventList] refers
    to. *)
Definition view (h : store) (this : t) : option (list CalendarEvent.t) :=
  l ← eventList this; h !! l.

Record Summary : Type := mkSummary {
  earnedXP : Z;
  totalXP : Z;
  finishedTasks : Z;
  totalTasks : Z;
  totalEvents : Z
}.

(** One turn of the loop of [calculateSummary] on the event [obj]. *)
Definition summary_step (acc : Summary) (obj : CalendarEvent.t) : Summary :=
  let '(mkSummary earnedXP totalXP finishedTasks totalTasks totalEvents) := acc in
  if strict_eqb (CalendarEvent.type obj) (VStr "event") then
    mkSummary earnedXP totalXP finishedTasks totalTasks (totalEvents + 1)
  else if strict_eqb (CalendarEvent.type obj) (VStr "reminder") then
    acc
  else
    let totalTasks :=
      if strict_eqb (CalendarEvent.type obj) (VStr "task") then totalTasks + 1
      else totalTasks in
    let '(XP, totalXP) :=
      if strict_eqb (CalendarEvent.difficulty obj) (VNum (Num 1)) then (150, totalXP + 150)
      else if strict_eqb (CalendarEvent.difficulty obj) (VNum (Num 2)) then (400, totalXP + 400)
      else if strict_eqb (CalendarEvent.difficulty obj) (VNum (Num 3)) then (750, totalXP + 750)
      else (0, totalXP) in
    if strict_eqb (CalendarEvent.finished obj) (VBool true) then
      mkSummary (earnedXP + XP) totalXP (finishedTasks + 1) totalTasks totalEvents
    else
      mkSummary earnedXP totalXP finishedTasks totalTasks totalEvents.

(** [calculateSummary()] on the elements of [this.eventList]. *)
Definition calculateSummary (eventList : list CalendarEvent.t) : Summary :=
  fold_left summary_step eventList (mkSummary 0 0 0 0 0).

End CalendarDay.

(** ** The rules of the specification, in its words *)

Module SpecRules.

Import CalendarDay.

(** The fixed difficulty table. *)
Definition xp_of_difficulty (d : value) : Z :=
  match d with
  | VNum (Num 1) => 150
  | VNum (Num 2) => 400
  | VNum (Num 3) => 750
  | _ => 0
  end.

Definition is_finished (obj : CalendarEvent.t) : bool :=
  match CalendarEvent.finished obj with
  | VBool true => true
  | _ => false
  end.

(** What one item of the view contributes, by its type; the rules speak of
    the three types only. *)
Definition rule_step (acc : Summary) (obj : CalendarEvent.t) : Summary :=
  match CalendarEvent.type obj with
  | VStr "event" =>
      mkSummary (earnedXP acc) (totalXP acc) (finishedTasks acc) (totalTasks acc)
                (totalEvents acc + 1)
  | VStr "reminder" => acc
  | VStr "task" =>
      let xp := xp_of_difficulty (CalendarEvent.difficulty obj) in
      if is_finished obj then
        mkSummary (earnedXP acc + xp) (totalXP acc + xp) (finishedTasks acc + 1)
                  (totalTasks acc + 1) (totalEvents acc)
      else
        mkSummary (earnedXP acc) (totalXP acc + xp) (finishedTasks acc)
                  (totalTasks acc + 1) (totalEvents acc)
  | _ => acc
  end.

Definition known_type (obj : CalendarEvent.t) : Prop :=
  CalendarEvent.type obj = VStr "task" \/
  CalendarEvent.type obj = VStr "event" \/
  CalendarEvent.type obj = VStr "reminder".

Definition malformed_type (obj : CalendarEvent.t) : Prop := ~ known_type obj.

Definition malformed_difficulty (obj : CalendarEvent.t) : Prop :=
  CalendarEvent.difficulty obj <> VNum (Num 1) /\
  CalendarEvent.difficulty obj <> VNum (Num 2) /\
  CalendarEvent.difficulty obj <> VNum (Num 3).

(** The event adds nothing to [earnedXP] or [totalXP], whatever the sums
    were before it. *)
Definition adds_no_XP (obj : CalendarEvent.t) : Prop :=
  forall acc,
    earnedXP (summary_step acc obj) = earnedXP acc /\
    totalXP (summary_step acc obj) = totalXP acc.

End SpecRules.

(** ** Notions the statements use *)

(** 1 for a leap year, 0 otherwise. *)
Definition leap (y : Z) : Z := if InLeapYear y then 1 else 0.

(** Days of the year that precede the month after [mn]. *)
Definition DaysBeforeNext (mn L : Z) : Z :=
  if mn =? 11 then 365 + L else DaysBeforeMonth (mn + 1) L.

(** The length of month [mn] (0 = January). *)
Definition DaysInMonth (mn L : Z) : Z := DaysBeforeNext mn L - DaysBeforeMonth mn L.

(** The name of weekday [w], 0 = Sunday. *)
Definition weekdayFullName (w : Z) : string :=
  match w with
  | 0 => "Sunday"
  | 1 => "Monday"
  | 2 => "Tuesday"
  | 3 => "Wednesday"
  | 4 => "Thursday"
  | 5 => "Friday"
  | _ => "Saturday"
  end.

(** A day div as [createDayDiv] leaves it. *)
Definition plain (type : string) (div : DayDiv) : Prop :=
  classList div = ["monthView_day"; type].

(** The start time of the event begins with an hour [parseInt] reads. *)
Definition has_hour (obj : CalendarEvent.t) : Prop := CalendarDay.time obj <> NaN.

Definition hour (obj : CalendarEvent.t) : Z :=
  match CalendarDay.time obj with
  | Num z => z
  | NaN => 0
  end.

(** [a] is not after [b]: both start times begin with an hour, and that of
    [a] is at most that of [b]. *)
Definition hour_le (a b : CalendarEvent.t) : Prop :=
  exists x y, CalendarDay.time a = Num x /\ CalendarDay.time b = Num y /\ x <= y.

(** The date of the event equals the date of the day, both trimmed. *)
Definition same_date (this : CalendarDay.t) (obj : CalendarEvent.t) : Prop :=
  trim (CalendarEvent.date obj) = trim (CalendarDay.date this).

#[global] Instance same_date_dec this obj : Decision (same_date this obj).
Proof. unfold same_date. apply _. Defined.

(** ** Sample data *)

Definition ymd (y m d : Z) : Date := newDate (Num y) (Num (m - 1)) (Num d).

(** 31 May 2024, noon. *)
Definition may31_2024 : Z := MakeDate (MakeDay 2024 4 31) 43200000.

(** 10 May 2024 and 15 March 2023, midnight. *)
Definition may10_2024 : Z := MakeDate (MakeDay 2024 4 10) 0.
Definition march15_2023 : Z := MakeDate (MakeDay 2023 2 15) 0.

(** The globals as they stand in May 2024. *)
Definition globals_may2024 : Globals := mkGlobals 31 (ymd 2024 6 1).

(** The globals as they stand for March 2023. *)
Definition globals_march2023 : Globals := mkGlobals 31 (ymd 2023 4 1).

Definition task (d : Z) (fin : bool) : CalendarEvent.t :=
  CalendarEvent.mk (VNum (Num d)) (VStr "task") (VStr "to do") "01-01-2024" "09:00"
    (VStr "10:00") (VStr "task") (VNum (Num d)) (VBool fin).

Definition reminder : CalendarEvent.t :=
  CalendarEvent.mk (VNum (Num 5)) (VStr "call") (VStr "call back") "01-01-2024" "11:00"
    (VStr "11:05") (VStr "reminder") (VNum (Num 3)) (VBool true).

(** An event of a type the application does not know. *)
Definition meeting : CalendarEvent.t :=
  CalendarEvent.mk (VNum (Num 7)) (VStr "meeting") (VStr "weekly") "01-01-2024" "09:00"
    (VStr "10:00") (VStr "meeting") (VNum (Num 2)) (VBool true).

(** A task whose difficulty is the text "2", not the number. *)
Definition odd_task : CalendarEvent.t :=
  CalendarEvent.mk (VNum (Num 8)) (VStr "odd") (VStr "odd") "01-01-2024" "09:00"
    (VStr "10:00") (VStr "task") (VStr "2") (VBool true).

Definition run_before : CalendarEvent.t :=
  CalendarEvent.mk (VNum (Num 1)) (VStr "Run") (VStr "5 km") "01-01-2024" "09:00"
    (VStr "10:00") (VStr "task") (VNum (Num 1)) (VBool false).

Definition run_update : CalendarEvent.t :=
  CalendarEvent.mk (VNum (Num 99)) (VStr "Long run") (VStr "15 km") "02-01-2024" "07:00"
    (VStr "09:00") (VStr "task") (VNum (Num 3)) (VBool true).

Definition appointment (n : Z) (date startTime : string) : CalendarEvent.t :=
  CalendarEvent.mk (VNum (Num n)) (VStr "appointment") (VStr "see notes") date startTime
    (VStr "23:00") (VStr "event") VUndefined (VBool false).

Definition sample_collection : list CalendarEvent.t :=
  [appointment 1 "01-01-2024" "14:30"; appointment 2 " 01-01-2024 " "09:00";
   appointment 4 "02-01-2024" "08:00"; appointment 3 "01-01-2024" "09:45"].

Definition sample_store : store := {[ 1%positive := sample_collection ]}.

Definition new_year : CalendarDay.t := CalendarDay.mk "01-01-2024" None.

(** ** Tactics *)

Ltac floor_lia := Z.div_mod_to_equations; lia.

Ltac month_cases :=
  repeat match goal with
  | |- context [Z.ltb ?a ?b] => destruct (Z.ltb_spec a b)
  end.

Ltac month_norm :=
  repeat match goal with
  | |- context [DaysBeforeMonth (?a + ?b) ?L] =>
      let v := eval vm_compute in (a + b) in change (a + b) with v
  | |- context [DaysBeforeMonth (?a - ?b) ?L] =>
      let v := eval vm_compute in (a - b) in change (a - b) with v
  | H : context [DaysBeforeMonth (?a + ?b) ?L] |- _ =>
      let v := eval vm_compute in (a + b) in change (a + b) with v in H
  | H : context [DaysBeforeMonth (?a - ?b) ?L] |- _ =>
      let v := eval vm_compute in (a - b) in change (a - b) with v in H
  end;
  cbn [DaysBeforeMonth Z.eqb Pos.eqb] in *.

Ltac month_lia := cbn; month_norm; lia.

Ltac twelve mn :=
  let H := fresh in
  assert (H : mn = 0 \/ mn = 1 \/ mn = 2 \/ mn = 3 \/ mn = 4 \/ mn = 5 \/ mn = 6
              \/ mn = 7 \/ mn = 8 \/ mn = 9 \/ mn = 10 \/ mn = 11) by lia;
  repeat (destruct H as [H | H]); subst mn; month_norm.

(** ** The view of a day, in the words of the specification *)

(** White space: tab, line feed, vertical tab, form feed, carriage return,
    space and no-break space. *)
Definition blank (c : ascii) : bool :=
  existsb (Nat.eqb (nat_of_ascii c)) [9; 10; 11; 12; 13; 32; 160]%nat.

(** The decimal digit a character stands for: "0" to "9" have the codes 48
    to 57. *)
Definition decimal_digit (c : ascii) : option Z :=
  let code := Z.of_nat (nat_of_ascii c) in
  if (48 <=? code) && (code <=? 57) then Some (code - 48) else None.

(** The integer the first two characters of a start time read as: two
    decimal digits, or one digit with something else after it or with a
    blank or a sign before it; a lone "0x" starts a number that does not
    follow. [None] when they read as no integer. *)
Definition hour_prefix (startTime : string) : option Z :=
  match startTime with
  | EmptyString => None
  | String a EmptyString => decimal_digit a
  | String a (String b _) =>
      match decimal_digit a, decimal_digit b with
      | Some x, Some y => Some (10 * x + y)
      | Some x, None =>
          if (x =? 0) && (Ascii.eqb b "x" || Ascii.eqb b "X") then None else Some x
      | None, Some y =>
          if blank a || Ascii.eqb a "+" then Some y
          else if Ascii.eqb a "-" then Some (- y)
          else None
      | None, None => None
      end
  end.

Fixpoint drop_blanks (l : list ascii) : list ascii :=
  match l with
  | [] => []
  | c :: l' => if blank c then drop_blanks l' else l
  end.

(** The text without the blanks at its two ends. *)
Definition strip (s : string) : string :=
  string_of_list_ascii (rev (drop_blanks (rev (drop_blanks (list_ascii_of_string s))))).

(** The date key of the event is that of the day: the two texts are equal
    once stripped. *)
Definition same_key (this : CalendarDay.t) (obj : CalendarEvent.t) : Prop :=
  strip (CalendarEvent.date obj) = strip (CalendarDay.date this).

#[global] Instance same_key_dec this obj : Decision (same_key this obj).
Proof. unfold same_key. apply _. Defined.

(** The hour of [a] is at most the hour of [b]. *)
Definition hour_ordered (a b : CalendarEvent.t) : Prop :=
  exists x y,
    hour_prefix (CalendarEvent.startTime a) = Some x /\
    hour_prefix (CalendarEvent.startTime b) = Some y /\ x <= y.

(** The 256 characters. *)
Definition all_ascii : list ascii := List.map ascii_of_nat (seq 0 256).

(** Three events of 1 January 2024, the second at "noon". *)
Definition unsorted_collection : list CalendarEvent.t :=
  [appointment 1 "01-01-2024" "09:00"; appointment 2 "01-01-2024" "noon";
   appointment 3 "01-01-2024" "03:00"].

(** ** The Date constructor with the range of time values *)

(** The largest time value of a Date: 100 000 000 days after the epoch,
    which is 13 September 275760; the smallest is its opposite,
    20 April -271821. *)
Definition maxTimeValue : Z := 8640000000000000.

(** The time values a Date can hold. *)
Definition in_time_range (t : Z) : Prop := - maxTimeValue <= t <= maxTimeValue.

(** [TimeClip]: a time value out of the range makes the invalid date. *)
Definition TimeClip (t : Z) : Date :=
  if (- maxTimeValue <=? t) && (t <=? maxTimeValue) then DateAt t else InvalidDate.

(** 1 September 275760, the first day of the last month a Date reaches,
    and 1 May -271821, the first day of the first month a Date holds in
    full. *)
Definition lastMonthStart : Z := MakeDate (MakeDay 275760 8 1) 0.
Definition firstWholeMonthStart : Z := MakeDate (MakeDay (-271821) 4 1) 0.

(** The date utilities with [new Date(year, month, date)] as it is, the
    time value clipped: they differ from those above on the dates of the
    first and of the last month of the range only. *)
Module Clipped.

Definition newDate (year month date : num) : Date :=
  match year, month, date with
  | Num y, Num m, Num dt =>
      let yr := if (0 <=? y) && (y <=? 99) then 1900 + y else y in
      TimeClip (MakeDate (MakeDay yr m dt) 0)
  | _, _, _ => InvalidDate
  end.

Definition getDaysInMonth (date : Date) : num :=
  getDate (newDate (getFullYear date) (num_add (getMonth date) 1) (Num 0)).

Definition getFirstWeekDayInMonth (selectedDate : Date) : FirstWeekDay :=
  let month := getMonth selectedDate in
  let year := getFullYear selectedDate in
  let firstDayDate := newDate year month (Num 1) in
  let firstDayDateSlice := toString_firstWord firstDayDate in
  if String.eqb firstDayDateSlice "Mon" then mkFirstWeekDay (Some "Monday") None 0
  else if String.eqb firstDayDateSlice "Tue" then mkFirstWeekDay (Some "Tuesday") None 1
  else if String.eqb firstDayDateSlice "Wed" then mkFirstWeekDay (Some "Wednesday") None 2
  else if String.eqb firstDayDateSlice "Thu" then mkFirstWeekDay (Some "Thursday") None 3
  else if String.eqb firstDayDateSlice "Fri" then mkFirstWeekDay (Some "Friday") None 4
  else if String.eqb firstDayDateSlice "Sat" then mkFirstWeekDay (Some "Saturday") None 5
  else if String.eqb firstDayDateSlice "Sun" then mkFirstWeekDay (Some "Sunday") None 6
  else mkFirstWeekDay None (Some "UNDEFINED") 0.

End Clipped.

(** * The rest of the calendar manager and of the classes *)

(** ** Calendar manager: the remaining functions *)

(** Hour and minute of a time value (ECMA-262 [HourFromTime] and
    [MinFromTime]). *)
Definition HourFromTime (t : Z) : Z := (t / 3600000) mod 24.

Definition MinFromTime (t : Z) : Z := (t / 60000) mod 60.

Definition getHours (d : Date) : num :=
  match d with
  | InvalidDate => NaN
  | DateAt t => Num (HourFromTime t)
  end.

Definition getMinutes (d : Date) : num :=
  match d with
  | InvalidDate => NaN
  | DateAt t => Num (MinFromTime t)
  end.

(** The text [renderDateInfo] gives to the element [#timeinfo_date] of
    the page. *)
Definition renderDateInfo (date : Date) : string :=
  let day := getDate date in
  let month := num_add (getMonth date) 1 in
  let monthString :=
    match month with
    | Num 1 => "January"
    | Num 2 => "February"
    | Num 3 => "March"
    | Num 4 => "April"
    | Num 5 => "May"
    | Num 6 => "June"
    | Num 7 => "July"
    | Num 8 => "August"
    | Num 9 => "September"
    | Num 10 => "October"
    | Num 11 => "November"
    | Num 12 => "December"
    | _ => "UNDEFINED"
    end in
  let year := getFullYear date in
  monthString ++ " " ++ numToString day ++ ", " ++ numToString year.

(** The text [renderTimeInfo] gives to the element [#timeinfo_time] when
    the clock reads [now]; the function computes it once when it is called
    and, with the same statements, each time its interval fires. *)
Definition timeText (now : Z) : string :=
  let now := DateAt now in
  let hour := getHours now in
  let hour := if (String.length (numToString hour) =? 1)%nat
              then "0" ++ numToString hour else numToString hour in
  let minute := getMinutes now in
  let minute := if (String.length (numToString minute) =? 1)%nat
                then "0" ++ numToString minute else numToString minute in
  hour ++ ":" ++ minute.

(** [renderTimeInfo(update)]: the text set at the call, and the period in
    milliseconds of the interval that sets it again, when [update] asks
    for one; [update] is the truth value the [if] reads from the
    argument. *)
Definition renderTimeInfo (now : Z) (update : bool) : string * option Z :=
  (timeText now, if update then Some 3000 else None).

(** The external data [createEventList] reads: an object with the array
    [events]. *)
Record EventData : Type := mkEventData {
  events : list CalendarEvent.t
}.

(** [array.push(obj)]. *)
Definition array_push (array : loc) (obj : CalendarEvent.t) (h : store) : store :=
  alter (fun l => (l ++ [obj])%list) array h.

(** [createEventList(data)]: a new array, filled with one event per
    record. *)
Definition createEventList (data : EventData) (h : store) : loc * store :=
  let '(eventList, h) := alloc [] h in
  let h := fold_left (fun h obj => array_push eventList (CalendarEvent.constructor obj) h)
                     (events data) h in
  (eventList, h).

(** [createCalendarDayData(selectedDate)]: the days are built one after
    the other, each by the constructor of [CalendarDay], which reads the
    global event list; [None] when that constructor throws. The loop does
    not run when [numberOfDays] is [NaN]. *)
Definition createCalendarDayData (globalEventList : loc) (h : store) (selectedDate : Date)
    : option (store * list CalendarDay.t) :=
  let numberOfDays := Clipped.getDaysInMonth selectedDate in
  fold_left (fun acc (i : Z) =>
      '(h, dayList) ← acc;
      let dateString :=
        getDateString (Num (i + 1)) (num_add (getMonth selectedDate) 1)
                      (getFullYear selectedDate) in
      '(h, day) ← CalendarDay.constructor globalEventList h dateString;
      Some (h, (dayList ++ [day])%list))
    (match numberOfDays with
     | NaN => []
     | Num n => seqZ 0 n
     end)
    (Some (h, [])).

(** [updateEventList(dayList)]: a new array that receives the events of
    every day, day after day; [None] when a day has no event list to
    iterate. *)
Definition updateEventList (h : store) (dayList : list CalendarDay.t) : option (loc * store) :=
  let '(newEventList, h) := alloc [] h in
  h ← fold_left (fun acc day =>
      h ← acc;
      eventList ← CalendarDay.view h day;
      Some (fold_left (fun h obj => array_push newEventList obj h) eventList h))
    dayList (Some h);
  Some (newEventList, h).

(** A number below 10 gets a leading "0", as [getDateString] and
    [renderTimeInfo] write it. *)
Definition pad2 (n : num) : string :=
  if (String.length (numToString n) =? 1)%nat then "0" ++ numToString n
  else numToString n.

(** The names of the twelve months, January first. *)
Definition monthNames : list string :=
  ["January"; "February"; "March"; "April"; "May"; "June"; "July"; "August";
   "September"; "October"; "November"; "December"].

(** No character of the string is white space. *)
Definition no_space (s : string) : Prop :=
  Forall (fun c => isWhiteSpace c = false) (list_ascii_of_string s).

(** A digit or a hyphen. *)
Definition date_char (c : ascii) : Prop :=
  c = "-"%char \/ (48 <= nat_of_ascii c <= 57)%nat.

(** The events a day of date [dateString] shows out of [events]: those
    [refreshEventList] keeps, in the order its sort leaves them. *)
Definition shown (dateString : string) (events : list CalendarEvent.t)
    : list CalendarEvent.t :=
  sorted_by CalendarDay.compare_startTime
    (List.filter (CalendarDay.matches (CalendarDay.mk dateString None)) events).

(** The date strings of the days 1 to [n] of the month of [selectedDate]. *)
Definition monthKeys (selectedDate : Date) (n : Z) : list string :=
  (fun i : Z => getDateString (Num (i + 1)) (num_add (getMonth selectedDate) 1)
                              (getFullYear selectedDate)) <$> seqZ 0 n.

(** The loop of [createCalendarDayData] over given date strings. *)
Definition buildDays (globalEventList : loc) (h : store) (keys : list string)
    : option (store * list CalendarDay.t) :=
  fold_left (fun acc dateString =>
      '(h, dayList) ← acc;
      '(h, day) ← CalendarDay.constructor globalEventList h dateString;
      Some (h, (dayList ++ [day])%list))
    keys (Some (h, [])).

(** ** The day class of [classes.js] *)

(** [classes.js] holds an earlier [CalendarDay]: its [refreshEventList]
    returns the filtered array without sorting it, its constructor stores
    that array, and its [calculateSummary] does not look at the type of an
    event. *)
Module ClassesJs.

(** [refreshEventList()]: the new array [filter] makes is returned. *)
Definition refreshEventList (globalEventList : loc) (h : store) (this : CalendarDay.t)
    : option (store * loc) :=
  events ← h !! globalEventList;
  let '(matchingEvents, h) := alloc (List.filter (CalendarDay.matches this) events) h in
  Some (h, matchingEvents).

(** [new CalendarDay(dateString)]. *)
Definition constructor (globalEventList : loc) (h : store) (dateString : string)
    : option (store * CalendarDay.t) :=
  let this := CalendarDay.mk dateString None in
  '(h, eventList) ← refreshEventList globalEventList h this;
  Some (h, CalendarDay.mk dateString (Some eventList)).

Record Summary : Type := mkSummary {
  earnedXP : Z;
  totalXP : Z;
  finishedTasks : Z;
  totalTasks : Z
}.

(** One call of the [forEach] callback of [calculateSummary]; the state is
    [earnedXP], [possibleXP] and [finishedTasks]. *)
Definition summary_step (acc : Z * Z * Z) (obj : CalendarEvent.t) : Z * Z * Z :=
  let '(earnedXP, possibleXP, finishedTasks) := acc in
  let '(XP, possibleXP) :=
    if strict_eqb (CalendarEvent.difficulty obj) (VNum (Num 1)) then (150, possibleXP + 150)
    else if strict_eqb (CalendarEvent.difficulty obj) (VNum (Num 2)) then (400, possibleXP + 400)
    else if strict_eqb (CalendarEvent.difficulty obj) (VNum (Num 3)) then (750, possibleXP + 750)
    else (0, possibleXP) in
  if strict_eqb (CalendarEvent.finished obj) (VBool true) then
    (earnedXP + XP, possibleXP, finishedTasks + 1)
  else
    (earnedXP, possibleXP, finishedTasks).

(** [calculateSummary()] on the elements of [this.eventList]. *)
Definition calculateSummary (eventList : list CalendarEvent.t) : Summary :=
  let '(earnedXP, possibleXP, finishedTasks) := fold_left summary_step eventList (0, 0, 0) in
  mkSummary earnedXP possibleXP finishedTasks (Z.of_nat (length eventList)).

End ClassesJs.

(** The field-wise sum of two summaries. *)
Definition summary_add (a b : CalendarDay.Summary) : CalendarDay.Summary :=
  CalendarDay.mkSummary
    (CalendarDay.earnedXP a + CalendarDay.earnedXP b)
    (CalendarDay.totalXP a + CalendarDay.totalXP b)
    (CalendarDay.finishedTasks a + CalendarDay.finishedTasks b)
    (CalendarDay.totalTasks a + CalendarDay.totalTasks b)
    (CalendarDay.totalEvents a + CalendarDay.totalEvents b).

(** The payloads applied one after the other with [updateEventInfo]. *)
Definition updateEventInfo_all (this : CalendarEvent.t) (payloads : list CalendarEvent.t)
    : CalendarEvent.t :=
  fold_left (fun this eventData =>
               CalendarEvent.this_after (CalendarEvent.updateEventInfo this eventData))
            payloads this.

(** ** The event previews of the month view *)

(** The [p] element [renderEventPreview] makes for the name of an event. *)
Record NameLabel : Type := mkNameLabel {
  textContent : string;
  label_classList : list string
}.

(** The [div] element [renderEventPreview] makes for an event. *)
Record EventPreview : Type := mkEventPreview {
  preview_id : string;
  preview_classList : list string;
  preview_label : NameLabel
}.

(** A child of the container: a day div and the previews appended to
    it. *)
Record DayCell : Type := mkDayCell {
  day_div : DayDiv;
  previews : list EventPreview
}.

(** ASCII white space, which no token of a [classList] may hold. *)
Definition isAsciiWhitespace (c : ascii) : bool :=
  let n := nat_of_ascii c in
  ((n =? 9) || (n =? 10) || (n =? 12) || (n =? 13) || (n =? 32))%nat.

Definition valid_token (token : string) : bool :=
  negb (String.eqb token EmptyString)
  && forallb (fun c => negb (isAsciiWhitespace c)) (list_ascii_of_string token).

(** [classList.add(token)] on an element: it throws ([None]) on the empty
    token and on a token with white space. *)
Definition classList_add_token (token : string) (classes : list string)
    : option (list string) :=
  if valid_token token then Some (classList_add token classes) else None.

(** The text [textContent = v] sets: [null] and [undefined] give the empty
    text. *)
Definition textContent_of (v : value) : string :=
  match v with
  | VUndefined | VNull => EmptyString
  | _ => valueToString v
  end.

(** The body of the [forEach] callback of [renderEventPreview] up to the
    [appendChild] on the day div: the preview div of [obj], or [None] when
    a [classList.add] throws. *)
Definition newPreview (obj : CalendarEvent.t) : option EventPreview :=
  let nameLabel := mkNameLabel EmptyString [] in
  let nameLabel := mkNameLabel (textContent_of (CalendarEvent.name obj))
                               (label_classList nameLabel) in
  classes ← classList_add_token "event_preview_name" (label_classList nameLabel);
  let nameLabel := mkNameLabel (textContent nameLabel) classes in
  classes ← classList_add_token ("event_type_" ++ valueToString (CalendarEvent.type obj))
                                (label_classList nameLabel);
  let nameLabel := mkNameLabel (textContent nameLabel) classes in
  let newDiv := mkEventPreview EmptyString [] nameLabel in
  let newDiv := mkEventPreview ("event_" ++ valueToString (CalendarEvent.id obj))
                               (preview_classList newDiv) (preview_label newDiv) in
  classes ← classList_add_token "event_preview" (preview_classList newDiv);
  Some (mkEventPreview (preview_id newDiv) classes (preview_label newDiv)).

Definition appendChild (newDiv : EventPreview) (dayDiv : DayCell) : DayCell :=
  mkDayCell (day_div dayDiv) (previews dayDiv ++ [newDiv])%list.

(** The loop of [renderEventPreview] that looks for the day div: the
    number of the last child whose [dataset.date] is [date], if any. *)
Definition findDayDiv (date : string) (nodeList : list DayCell) : option nat :=
  fold_left
    (fun dayDiv i =>
       match nodeList !! i with
       | Some node =>
           if bool_decide (dataset_date (day_div node) = Some date) then Some i else dayDiv
       | None => dayDiv
       end)
    (seq 0 (length nodeList)) None.

(** How a call of [renderEventPreview] ends: it returns, perhaps after a
    warning on the console, or it throws; [container] is the children of
    the container as the call leaves them. *)
Inductive outcome : Type :=
  | Returned (container : list DayCell) (warning : option string)
  | Threw (container : list DayCell).

(** [this.eventList.forEach(...)] of [renderEventPreview], [dayDiv] being
    child number [dayDiv] of the container. *)
Fixpoint appendPreviews (dayDiv : nat) (eventList : list CalendarEvent.t)
    (container : list DayCell) : outcome :=
  match eventList with
  | [] => Returned container None
  | obj :: eventList =>
      match newPreview obj with
      | None => Threw container
      | Some newDiv =>
          appendPreviews dayDiv eventList (alter (appendChild newDiv) dayDiv container)
      end
  end.

(** [renderEventPreview(container)] of the day [this]; reading
    [this.eventList.forEach] throws when [eventList] is no array. *)
Definition renderEventPreview (h : store) (this : CalendarDay.t) (container : list DayCell)
    : outcome :=
  match findDayDiv (CalendarDay.date this) container with
  | None =>
      Returned container
        (Some ("No applicable div was found for CalendarDay " ++ CalendarDay.date this ++ "."))
  | Some dayDiv =>
      match CalendarDay.view h this with
      | None => Threw container
      | Some eventList => appendPreviews dayDiv eventList container
      end
  end.

(** The children of the container as [createCalendarGrid] leaves them: no
    day div has a preview yet. *)
Definition day_cells (grid : list DayDiv) : list DayCell :=
  (fun div => mkDayCell div []) <$> grid.

(** The preview of an event whose type makes a token. *)
Definition preview_of (obj : CalendarEvent.t) : EventPreview :=
  mkEventPreview ("event_" ++ valueToString (CalendarEvent.id obj)) ["event_preview"]
    (mkNameLabel (textContent_of (CalendarEvent.name obj))
       ["event_preview_name"; "event_type_" ++ valueToString (CalendarEvent.type obj)]).

(** The type of the event makes a class token: its text has no ASCII
    white space. *)
Definition type_token_ok (obj : CalendarEvent.t) : Prop :=
  valid_token ("event_type_" ++ valueToString (CalendarEvent.type obj)) = true.

(** The day div of the cell carries the date string [date]. *)
Definition has_date (date : string) (cell : DayCell) : Prop :=
  dataset_date (day_div cell) = Some date.

(** The cell with the previews of [events] appended. *)
Definition with_previews (cell : DayCell) (events : list CalendarEvent.t) : DayCell :=
  mkDayCell (day_div cell) (previews cell ++ (preview_of <$> events))%list.

(** ** More sample data *)

(** The grid of May 2024 as it is built on 10 May 2024. *)
Definition grid_may2024 : list DayDiv :=
  default [] (createCalendarGrid may10_2024 globals_may2024 (DateAt may31_2024) [] 35).

(** A store in which the array 2 is the view of 1 January 2024. *)
Definition sample_day_store : store :=
  <[2%positive := [task 2 true; reminder]]> sample_store.

Definition sample_day : CalendarDay.t := CalendarDay.mk "01-01-2024" (Some 2%positive).

(** A task whose type has a space in it. *)
Definition spaced_task : CalendarEvent.t :=
  CalendarEvent.mk (VNum (Num 9)) (VStr "spaced") (VStr "spaced") "01-01-2024" "09:00"
    (VStr "10:00") (VStr "my task") (VNum (Num 1)) (VBool false).

(** Three children of a container: the last day of December 2023 and
    the first two days of January 2024. *)
Definition sample_cells : list DayCell :=
  [mkDayCell (mkDayDiv ["monthView_day"; "previous"] 31 (Some "31-12-2023")) [];
   mkDayCell (mkDayDiv ["monthView_day"; "current"] 1 (Some "01-01-2024")) [];
   mkDayCell (mkDayDiv ["monthView_day"; "current"] 2 (Some "02-01-2024")) []].

(** * Properties *)

(** ** The calendar of the built-in Date *)

Section Calendar.

Lemma leap_range y : 0 <= leap y <= 1.
Proof. unfold leap. destruct (InLeapYear y); lia. Qed.

Lemma DaysInYear_leap y : DaysInYear y = 365 + leap y.
Proof. unfold DaysInYear, leap. now destruct (InLeapYear y). Qed.

Lemma DayFromYear_succ y : DayFromYear (y + 1) = DayFromYear y + DaysInYear y.
Proof.
  unfold DayFromYear, DaysInYear, InLeapYear.
  destruct (Z.eqb_spec (y mod 4) 0); destruct (Z.eqb_spec (y mod 100) 0);
    destruct (Z.eqb_spec (y mod 400) 0); cbn [andb orb negb]; floor_lia.
Qed.

Lemma DayFromYear_lt y1 y2 : y1 < y2 -> DayFromYear y1 < DayFromYear y2.
Proof. unfold DayFromYear. floor_lia. Qed.

Lemma YearFromDay_spec d :
  DayFromYear (YearFromDay d) <= d < DayFromYear (YearFromDay d + 1).
Proof.
  unfold YearFromDay. cbv zeta.
  destruct (Z.leb_spec
    (DayFromYear (400 * ((d + 719528) / 146097) + (d + 719528) mod 146097 / 366 + 1)) d).
  - split; [lia|]. unfold DayFromYear in *. floor_lia.
  - split; [|lia]. unfold DayFromYear in *. floor_lia.
Qed.

Lemma YearFromDay_unique d y :
  DayFromYear y <= d < DayFromYear (y + 1) -> YearFromDay d = y.
Proof.
  intros Hy. pose proof (YearFromDay_spec d) as Hs.
  destruct (Z.lt_trichotomy (YearFromDay d) y) as [Hlt | [Heq | Hgt]]; [|assumption|].
  - assert (DayFromYear (YearFromDay d + 1) <= DayFromYear y).
    { destruct (Z.eq_dec (YearFromDay d + 1) y) as [->|]; [lia|].
      apply Z.lt_le_incl, DayFromYear_lt. lia. }
    lia.
  - assert (DayFromYear (y + 1) <= DayFromYear (YearFromDay d)).
    { destruct (Z.eq_dec (y + 1) (YearFromDay d)) as [->|]; [lia|].
      apply Z.lt_le_incl, DayFromYear_lt. lia. }
    lia.
Qed.

(** A time value on day [k] of year [y]. *)
Lemma civil_of_offset t y k :
  Day t = DayFromYear y + k -> 0 <= k < DaysInYear y ->
  YearFromTime t = y /\ DayWithinYear t = k /\ leapDays t = leap y.
Proof.
  intros Hd Hk.
  assert (Hy : YearFromTime t = y).
  { unfold YearFromTime. apply YearFromDay_unique. rewrite DayFromYear_succ. lia. }
  unfold DayWithinYear, leapDays, leap. rewrite Hy. repeat split; lia.
Qed.

Lemma DayWithinYear_range t :
  0 <= DayWithinYear t < 365 + leapDays t.
Proof.
  pose proof (YearFromDay_spec (Day t)) as Hs.
  rewrite DayFromYear_succ in Hs.
  unfold DayWithinYear, leapDays, YearFromTime.
  unfold DaysInYear in Hs. destruct (InLeapYear (YearFromDay (Day t))); lia.
Qed.

Lemma leapDays_range t : 0 <= leapDays t <= 1.
Proof. unfold leapDays. destruct (InLeapYear _); lia. Qed.

Lemma MonthFromTime_range t : 0 <= MonthFromTime t <= 11.
Proof.
  unfold MonthFromTime. cbv zeta.
  repeat match goal with |- context [if ?b then _ else _] => destruct b end; lia.
Qed.

Lemma DateFromTime_range t : 1 <= DateFromTime t <= 31.
Proof.
  pose proof (DayWithinYear_range t). pose proof (leapDays_range t).
  unfold DateFromTime, MonthFromTime. cbv zeta.
  month_cases; cbn [DaysBeforeMonth]; lia.
Qed.

Lemma DaysInMonth_range mn L : 0 <= mn <= 11 -> 0 <= L <= 1 -> 28 <= DaysInMonth mn L <= 31.
Proof. intros Hm HL. unfold DaysInMonth, DaysBeforeNext. twelve mn; month_lia. Qed.

Lemma month_of_offset t y k mn :
  Day t = DayFromYear y + k -> 0 <= mn <= 11 ->
  DaysBeforeMonth mn (leap y) <= k < DaysBeforeNext mn (leap y) ->
  YearFromTime t = y /\ MonthFromTime t = mn /\
  DateFromTime t = k - DaysBeforeMonth mn (leap y) + 1.
Proof.
  intros Hd Hm Hk. pose proof (leap_range y) as HL. unfold DaysBeforeNext in Hk.
  assert (Hk' : 0 <= k < DaysInYear y).
  { rewrite DaysInYear_leap. twelve mn; cbn in Hk; month_lia. }
  destruct (civil_of_offset t y k Hd Hk') as (Hy & Hw & Hl).
  split; [assumption|].
  unfold DateFromTime, MonthFromTime. cbv zeta. rewrite Hw, Hl.
  twelve mn; cbn in Hk; month_cases; month_lia.
Qed.

(** The fields of any time value, read back. *)
Lemma fields_of_time t :
  let L := leap (YearFromTime t) in
  Day t = DayFromYear (YearFromTime t) + DaysBeforeMonth (MonthFromTime t) L
          + DateFromTime t - 1 /\
  1 <= DateFromTime t <= DaysInMonth (MonthFromTime t) L.
Proof.
  cbv zeta. pose proof (DayWithinYear_range t) as Hw. pose proof (leapDays_range t) as HL.
  change (leap (YearFromTime t)) with (leapDays t).
  unfold DateFromTime, DaysInMonth, DaysBeforeNext.
  assert (Hd : Day t = DayFromYear (YearFromTime t) + DayWithinYear t)
    by (unfold DayWithinYear; lia).
  rewrite Hd. unfold MonthFromTime. cbv zeta.
  month_cases; month_lia.
Qed.

Lemma Day_MakeDate d tm : 0 <= tm < msPerDay -> Day (MakeDate d tm) = d.
Proof. unfold Day, MakeDate, msPerDay. intros. floor_lia. Qed.

Lemma TimeWithinDay_range t : 0 <= TimeWithinDay t < msPerDay.
Proof. unfold TimeWithinDay, msPerDay. floor_lia. Qed.

(** Day 1 of a month, however the month number overflows the year. *)
Lemma MakeDay_first t year month :
  Day t = MakeDay year month 1 ->
  YearFromTime t = year + month / 12 /\ MonthFromTime t = month mod 12 /\
  DateFromTime t = 1.
Proof.
  unfold MakeDay. cbv zeta. intros Hd.
  set (ym := year + month / 12) in *.
  remember (month mod 12) as mn eqn:Hmn.
  assert (Hm : 0 <= mn <= 11) by (rewrite Hmn; floor_lia).
  clear Hmn.
  change (if InLeapYear ym then 1 else 0) with (leap ym) in Hd.
  pose proof (leap_range ym) as HL.
  destruct (month_of_offset t ym (DaysBeforeMonth mn (leap ym)) mn) as (Hy & Hmo & Hda).
  - lia.
  - assumption.
  - unfold DaysBeforeNext. twelve mn; month_lia.
  - repeat split; [assumption..|lia].
Qed.

(** Day 0 of a month is the last day of the month before. *)
Lemma MakeDay_zero t year month :
  Day t = MakeDay year month 0 ->
  let ym := year + month / 12 in
  let mn := month mod 12 in
  DateFromTime t = if mn =? 0 then 31 else DaysInMonth (mn - 1) (leap ym).
Proof.
  unfold MakeDay. cbv zeta. intros Hd.
  set (ym := year + month / 12) in *.
  remember (month mod 12) as mn eqn:Hmn.
  assert (Hm : 0 <= mn <= 11) by (rewrite Hmn; floor_lia).
  clear Hmn.
  change (if InLeapYear ym then 1 else 0) with (leap ym) in Hd.
  pose proof (leap_range ym) as HL.
  destruct (Z.eqb_spec mn 0) as [H0|H0].
  - rewrite H0 in Hd. cbn [DaysBeforeMonth] in Hd.
    pose proof (leap_range (ym - 1)) as HL'.
    destruct (month_of_offset t (ym - 1) (364 + leap (ym - 1)) 11) as (Hy & Hmo & Hda).
    + pose proof (DayFromYear_succ (ym - 1)) as Hs. rewrite DaysInYear_leap in Hs.
      replace (ym - 1 + 1) with ym in Hs by lia. lia.
    + lia.
    + unfold DaysBeforeNext. month_lia.
    + rewrite Hda. month_lia.
  - destruct (month_of_offset t ym (DaysBeforeMonth mn (leap ym) - 1) (mn - 1))
      as (Hy & Hmo & Hda).
    + lia.
    + lia.
    + unfold DaysBeforeNext. twelve mn; month_lia.
    + rewrite Hda. unfold DaysInMonth, DaysBeforeNext. twelve mn; month_lia.
Qed.

Lemma newDate_time y m dt :
  exists t, newDate (Num y) (Num m) (Num dt) = DateAt t /\
    Day t = MakeDay (if (0 <=? y) && (y <=? 99) then 1900 + y else y) m dt.
Proof.
  eexists. split; [reflexivity|]. apply Day_MakeDate. unfold msPerDay. lia.
Qed.

(** [getDaysInMonth] always yields a number from 28 to 31. *)
Lemma getDaysInMonth_range t :
  exists n, getDaysInMonth (DateAt t) = Num n /\ 28 <= n <= 31.
Proof.
  unfold getDaysInMonth. cbn [getFullYear getMonth num_add getDate].
  destruct (newDate_time (YearFromTime t) (MonthFromTime t + 1) 0) as (t' & -> & Hd).
  cbn [getDate]. eexists. split; [reflexivity|].
  rewrite (MakeDay_zero t' _ _ Hd). cbv zeta.
  destruct (Z.eqb_spec ((MonthFromTime t + 1) mod 12) 0); [lia|].
  apply DaysInMonth_range; [floor_lia|apply leap_range].
Qed.

(** Outside the years 0 to 99, [getDaysInMonth] is the length of the
    month of the date. *)
Lemma getDaysInMonth_exact t :
  ~ (0 <= YearFromTime t <= 99) ->
  getDaysInMonth (DateAt t)
  = Num (DaysInMonth (MonthFromTime t) (leap (YearFromTime t))).
Proof.
  intros Hy. unfold getDaysInMonth. cbn [getFullYear getMonth num_add getDate].
  destruct (newDate_time (YearFromTime t) (MonthFromTime t + 1) 0) as (t' & -> & Hd).
  cbn [getDate]. f_equal.
  assert (Hq : (if (0 <=? YearFromTime t) && (YearFromTime t <=? 99)
                then 1900 + YearFromTime t else YearFromTime t) = YearFromTime t).
  { destruct (Z.leb_spec 0 (YearFromTime t)), (Z.leb_spec (YearFromTime t) 99);
      cbn; lia. }
  rewrite Hq in Hd. rewrite (MakeDay_zero t' _ _ Hd). cbv zeta.
  pose proof (MonthFromTime_range t) as Hm.
  destruct (Z.eq_dec (MonthFromTime t) 11) as [H11|H11].
  - rewrite H11. change ((11 + 1) mod 12) with 0. change (0 =? 0) with true.
    unfold DaysInMonth, DaysBeforeNext. month_lia.
  - replace ((MonthFromTime t + 1) mod 12) with (MonthFromTime t + 1) by floor_lia.
    replace ((MonthFromTime t + 1) / 12) with 0 by floor_lia.
    destruct (Z.eqb_spec (MonthFromTime t + 1) 0); [lia|].
    repeat f_equal; lia.
Qed.

End Calendar.

(** ** The grid *)

Section Grid.

Lemma index_range d : 0 <= index (getFirstWeekDayInMonth d) <= 6.
Proof.
  unfold getFirstWeekDayInMonth. cbv zeta.
  repeat match goal with |- context [if ?b then _ else _] => destruct b end;
    cbn [index]; lia.
Qed.

Lemma not_today_plain type div :
  type <> "today" -> plain type div -> "today" ∉ classList div.
Proof.
  unfold plain. intros Hne ->. rewrite !not_elem_of_cons. repeat split; try discriminate.
  - congruence.
  - apply not_elem_of_nil.
Qed.

Lemma today_add_class div : "today" ∈ classList (add_class "today" div).
Proof.
  unfold add_class, classList_add. cbn [classList].
  case_bool_decide as H; [assumption|]. apply elem_of_app. right. now left.
Qed.

Lemma newDayDiv_previous day month : plain "previous" (newDayDiv "previous" day month).
Proof. reflexivity. Qed.

Lemma newDayDiv_current day month : plain "current" (newDayDiv "current" day month).
Proof. reflexivity. Qed.

Lemma newDayDiv_next day month : plain "next" (newDayDiv "next" day month).
Proof. reflexivity. Qed.

(** The cells of the previous month: the last [idx] of the days 1 to [n],
    whenever there are that many. *)
Lemma previous_cells (pm : Date) (n idx : Z) :
  0 <= idx <= n ->
  mapM (fun i : nat =>
      day ← drop (Z.to_nat (Z.max (Z.of_nat (length (seqZ 1 n)) - idx) 0)) (seqZ 1 n) !! i;
      Some (newDayDiv "previous" day pm))
    (seq 0 (Z.to_nat idx))
  = Some ((fun day : Z => newDayDiv "previous" day pm) <$> seqZ (n - idx + 1) idx).
Proof.
  intros Hn. apply mapM_Some_2, Forall2_same_length_lookup_2.
  - now rewrite length_seq, length_fmap, length_seqZ.
  - intros i x y Hx Hy. apply lookup_seq in Hx as [-> Hi].
    rewrite list_lookup_fmap, lookup_seqZ_lt in Hy by lia.
    cbn in Hy. injection Hy as <-.
    rewrite lookup_drop, length_seqZ, lookup_seqZ_lt by lia.
    cbn. do 2 f_equal. lia.
Qed.

(** The grid [createCalendarGrid] builds into an empty container for a
    valid date: the last [index firstDay] days of the month the clock was
    moved to, the days 1 to [daysInCurrentMonth], days of the next month
    up to the capacity, and the class "today" on cell
    [getDate() + index - 1] when there is such a cell. *)
Lemma createCalendarGrid_cells now g t gridItemAmount :
  let selectedDate := DateAt t in
  let idx := index (getFirstWeekDayInMonth selectedDate) in
  let k := DateFromTime t + idx - 1 in
  let previousMonth := setMonth (DateAt now) (Num (MonthFromTime t + -1)) in
  exists n,
    getDaysInMonth previousMonth = Num n /\ 28 <= n <= 31 /\
    let previous :=
      (fun day : Z => newDayDiv "previous" day previousMonth)
        <$> seqZ (n - idx + 1) idx in
    let current :=
      (fun i : Z => newDayDiv "current" (i + 1) selectedDate)
        <$> seqZ 0 (daysInCurrentMonth g) in
    let next :=
      (fun i : Z => newDayDiv "next" (i + 1) (nextMonth g))
        <$> seqZ 0 (gridItemAmount - Z.of_nat (length (previous ++ current)%list)) in
    let cells := ((previous ++ current) ++ next)%list in
    createCalendarGrid now g selectedDate [] gridItemAmount
    = if k <? Z.of_nat (length cells)
      then Some (alter (add_class "today") (Z.to_nat k) cells)
      else None.
Proof.
  cbv zeta. unfold createCalendarGrid. cbv zeta.
  cbn [setMonth getMonth num_add getDate].
  set (pm := DateAt (MakeDate _ _)).
  destruct (getDaysInMonth_range (MakeDate (MakeDay (YearFromTime now)
              (MonthFromTime t + -1) (DateFromTime now)) (TimeWithinDay now)))
    as (n & Hn & Hrange).
  fold pm in Hn. rewrite Hn.
  pose proof (index_range (DateAt t)) as Hidx.
  pose proof (DateFromTime_range t) as Hdt.
  exists n. split; [reflexivity|]. split; [assumption|].
  rewrite (previous_cells pm n (index (getFirstWeekDayInMonth (DateAt t)))) by lia.
  cbn [mbind option_bind app].
  replace (DateFromTime t + index (getFirstWeekDayInMonth (DateAt t)) + -1)
    with (DateFromTime t + index (getFirstWeekDayInMonth (DateAt t)) - 1) by lia.
  destruct (Z.leb_spec 0 (DateFromTime t + index (getFirstWeekDayInMonth (DateAt t)) - 1));
    [reflexivity|lia].
Qed.

Lemma previous_length (pm : Date) (n idx : Z) :
  0 <= idx ->
  length ((fun day : Z => newDayDiv "previous" day pm) <$> seqZ (n - idx + 1) idx)
  = Z.to_nat idx.
Proof. intros _. now rewrite length_fmap, length_seqZ. Qed.

(** C7. With the capacity [initCalendar] chooses (42 when the index of
    the first weekday is at least 5, 35 otherwise), the grid built into an
    empty container has exactly that many cells. The global
    [daysInCurrentMonth] holds a month length, at most 31. *)
Theorem initCalendar_grid_length now g t :
  daysInCurrentMonth g <= 31 ->
  exists grid,
    initCalendar now g (DateAt t) [] = Some grid /\
    maxGridItems (DateAt t)
      = (if 5 <=? index (getFirstWeekDayInMonth (DateAt t)) then 42 else 35) /\
    Z.of_nat (length grid) = maxGridItems (DateAt t).
Proof.
  intros Hdays. unfold initCalendar.
  destruct (createCalendarGrid_cells now g t (maxGridItems (DateAt t)))
    as (n & _ & _ & Hgrid).
  cbv zeta in Hgrid.
  pose proof (index_range (DateAt t)) as Hidx.
  pose proof (DateFromTime_range t) as Hdt.
  assert (Hcap : maxGridItems (DateAt t)
            = (if 5 <=? index (getFirstWeekDayInMonth (DateAt t)) then 42 else 35))
    by reflexivity.
  match type of Hgrid with
  | _ = if _ <? Z.of_nat (length ?cells) then _ else _ =>
      assert (Hcells : Z.of_nat (length cells) = maxGridItems (DateAt t))
  end.
  { rewrite !length_app, !length_fmap, !length_seqZ. rewrite Hcap.
    destruct (Z.leb_spec 5 (index (getFirstWeekDayInMonth (DateAt t)))); lia. }
  rewrite Hgrid, Hcells.
  destruct (Z.ltb_spec (DateFromTime t + index (getFirstWeekDayInMonth (DateAt t)) - 1)
              (maxGridItems (DateAt t))) as [Hlt|Hge].
  - eexists. split; [reflexivity|]. split; [exact Hcap|].
    rewrite length_alter. exact Hcells.
  - exfalso. rewrite Hcap in Hge.
    destruct (Z.leb_spec 5 (index (getFirstWeekDayInMonth (DateAt t)))); lia.
Qed.

(** C6. In the grid built into an empty container exactly one cell has
    the class "today": the cell at index (day of the month - 1) + index of
    the first weekday, and its date string is that of the reference date.
    The global [daysInCurrentMonth] reaches the day of the month of the
    reference date, as the length of its month does. *)
Theorem createCalendarGrid_marks_today now g t gridItemAmount :
  DateFromTime t <= daysInCurrentMonth g ->
  let selectedDate := DateAt t in
  let k := Z.to_nat (DateFromTime t - 1 + index (getFirstWeekDayInMonth selectedDate)) in
  exists grid,
    createCalendarGrid now g selectedDate [] gridItemAmount = Some grid /\
    (forall i div, grid !! i = Some div -> ("today" ∈ classList div <-> i = k)) /\
    exists div,
      grid !! k = Some div /\
      dataset_date div
      = Some (getDateString (getDate selectedDate) (num_add (getMonth selectedDate) 1)
                            (getFullYear selectedDate)).
Proof.
  intros Hdays. cbv zeta.
  destruct (createCalendarGrid_cells now g t gridItemAmount)
    as (n & _ & _ & Hgrid).
  cbv zeta in Hgrid.
  pose proof (index_range (DateAt t)) as Hidx.
  pose proof (DateFromTime_range t) as Hdt.
  pose proof (previous_length (setMonth (DateAt now) (Num (MonthFromTime t + -1))) n
                (index (getFirstWeekDayInMonth (DateAt t))) (proj1 Hidx)) as Hlen.
  set (idx := index (getFirstWeekDayInMonth (DateAt t))) in *.
  set (previous := (fun day : Z => newDayDiv "previous" day _) <$> _) in *.
  replace (DateFromTime t - 1 + idx) with (DateFromTime t + idx - 1) by lia.
  set (current := (fun i : Z => newDayDiv "current" (i + 1) (DateAt t))
                    <$> seqZ 0 (daysInCurrentMonth g)) in *.
  set (next := (fun i : Z => newDayDiv "next" (i + 1) (nextMonth g)) <$> _) in *.
  set (k := Z.to_nat (DateFromTime t + idx - 1)).
  assert (Hcur : length current = Z.to_nat (daysInCurrentMonth g)).
  { unfold current. now rewrite length_fmap, length_seqZ. }
  assert (Hcell : ((previous ++ current) ++ next)%list !! k
                  = Some (newDayDiv "current" (DateFromTime t) (DateAt t))).
  { rewrite lookup_app_l by (rewrite length_app; lia).
    rewrite lookup_app_r by lia.
    unfold current. rewrite list_lookup_fmap.
    rewrite (lookup_seqZ_lt 0 (daysInCurrentMonth g) (k - length previous)) by lia.
    cbn. do 2 f_equal. lia. }
  assert (Hplain : forall i div, ((previous ++ current) ++ next)%list !! i = Some div ->
                     "today" ∉ classList div).
  { intros i div Hi. apply list_elem_of_lookup_2 in Hi.
    rewrite !elem_of_app in Hi. destruct Hi as [[Hi | Hi] | Hi].
    - apply list_elem_of_fmap in Hi as (j & -> & _).
      eapply not_today_plain; [|apply newDayDiv_previous]. discriminate.
    - apply list_elem_of_fmap in Hi as (j & -> & _).
      eapply not_today_plain; [|apply newDayDiv_current]. discriminate.
    - apply list_elem_of_fmap in Hi as (j & -> & _).
      eapply not_today_plain; [|apply newDayDiv_next]. discriminate. }
  rewrite Hgrid.
  destruct (Z.ltb_spec (DateFromTime t + idx - 1)
              (Z.of_nat (length ((previous ++ current) ++ next)%list))) as [Hlt|Hge];
    [|apply lookup_lt_Some in Hcell; lia].
  eexists. split; [reflexivity|].
  fold k. split.
  - intros i div Hi. destruct (decide (i = k)) as [->|Hne].
    + rewrite list_lookup_alter_eq, Hcell in Hi. cbn in Hi. injection Hi as <-.
      split; [reflexivity|]. intros _. apply today_add_class.
    + rewrite list_lookup_alter_ne in Hi by congruence.
      split; [|contradiction]. intros Hin. now apply Hplain in Hi.
  - eexists. split.
    + rewrite list_lookup_alter_eq, Hcell. reflexivity.
    + reflexivity.
Qed.

Lemma century_year y :
  ~ (0 <= y <= 99) -> (if (0 <=? y) && (y <=? 99) then 1900 + y else y) = y.
Proof.
  intros Hy. destruct (Z.leb_spec 0 y), (Z.leb_spec y 99); cbn [andb]; lia.
Qed.

(** On a date outside the years 0 to 99, [getFirstWeekDayInMonth] names
    the weekday of day 1 of the month of the date and numbers it from
    Monday = 0 to Sunday = 6. *)
Lemma getFirstWeekDayInMonth_valid t :
  ~ (0 <= YearFromTime t <= 99) ->
  exists t1,
    YearFromTime t1 = YearFromTime t /\ MonthFromTime t1 = MonthFromTime t /\
    DateFromTime t1 = 1 /\
    getFirstWeekDayInMonth (DateAt t)
    = mkFirstWeekDay (Some (weekdayFullName (WeekDay t1))) None ((WeekDay t1 + 6) mod 7).
Proof.
  intros Hy. unfold getFirstWeekDayInMonth. cbv zeta. cbn [getMonth getFullYear].
  destruct (newDate_time (YearFromTime t) (MonthFromTime t) 1) as (t1 & -> & Hd).
  rewrite (century_year _ Hy) in Hd.
  destruct (MakeDay_first t1 _ _ Hd) as (Hy1 & Hm1 & Hd1).
  pose proof (MonthFromTime_range t) as Hm.
  exists t1. split; [rewrite Hy1; Z.div_mod_to_equations; lia|].
  split; [rewrite Hm1; Z.div_mod_to_equations; lia|]. split; [assumption|].
  cbn [toString_firstWord].
  assert (Hw : 0 <= WeekDay t1 < 7) by (unfold WeekDay; Z.div_mod_to_equations; lia).
  assert (Hcases : WeekDay t1 = 0 \/ WeekDay t1 = 1 \/ WeekDay t1 = 2 \/ WeekDay t1 = 3
                   \/ WeekDay t1 = 4 \/ WeekDay t1 = 5 \/ WeekDay t1 = 6) by lia.
  repeat (destruct Hcases as [Hc | Hcases]); try rewrite Hc; try rewrite Hcases;
    reflexivity.
Qed.

(** The index does not depend on the time of day of the date. *)
Lemma getFirstWeekDayInMonth_time_of_day t t' :
  Day t = Day t' -> getFirstWeekDayInMonth (DateAt t) = getFirstWeekDayInMonth (DateAt t').
Proof.
  intros Hd. unfold getFirstWeekDayInMonth. cbv zeta. cbn [getMonth getFullYear].
  unfold MonthFromTime, YearFromTime, DayWithinYear, leapDays, YearFromTime.
  now rewrite Hd.
Qed.

(** A global [daysInCurrentMonth] that holds [getDaysInMonth(selectedDate)]
    is at most 31, and outside the years 0 to 99 it reaches the day of the
    month of the date. *)
Lemma getDaysInMonth_fits t n :
  getDaysInMonth (DateAt t) = Num n ->
  n <= 31 /\ (~ (0 <= YearFromTime t <= 99) -> DateFromTime t <= n).
Proof.
  intros Hn. split.
  - destruct (getDaysInMonth_range t) as (n' & Hn' & Hr). rewrite Hn in Hn'.
    injection Hn' as ->. lia.
  - intros Hy. rewrite (getDaysInMonth_exact t Hy) in Hn. injection Hn as <-.
    apply (fields_of_time t).
Qed.

(** The leading cells of every grid built: the last [index firstDay] days
    of the month the clock lands in when it is moved to the month before
    that of the reference date, with the date strings of that month. *)
Lemma createCalendarGrid_leading_cells now g t gridItemAmount grid :
  createCalendarGrid now g (DateAt t) [] gridItemAmount = Some grid ->
  let idx := index (getFirstWeekDayInMonth (DateAt t)) in
  let previousMonth := setMonth (DateAt now) (Num (MonthFromTime t + -1)) in
  exists n,
    getDaysInMonth previousMonth = Num n /\
    take (Z.to_nat idx) grid
    = (fun day : Z => newDayDiv "previous" day previousMonth) <$> seqZ (n - idx + 1) idx.
Proof.
  intros Hgrid. cbv zeta.
  destruct (createCalendarGrid_cells now g t gridItemAmount) as (n & Hn & _ & Hcells).
  cbv zeta in Hcells. rewrite Hcells in Hgrid.
  pose proof (index_range (DateAt t)) as Hidx.
  pose proof (DateFromTime_range t) as Hdt.
  match type of Hgrid with
  | (if ?a <? ?b then _ else _) = _ =>
      destruct (Z.ltb_spec a b) as [Hlt|Hge]; [|discriminate]
  end.
  apply (inj Some) in Hgrid. subst grid. exists n. split; [assumption|].
  set (idx := index (getFirstWeekDayInMonth (DateAt t))) in *.
  set (previous := (fun day : Z => newDayDiv "previous" day _) <$> seqZ _ idx).
  assert (Hlen : length previous = Z.to_nat idx).
  { unfold previous. now rewrite length_fmap, length_seqZ. }
  rewrite take_alter_ge by lia.
  rewrite <- Hlen. apply take_app3_length.
Qed.

Lemma Num_inj a b : Num a = Num b -> a = b.
Proof. now intros [= ->]. Qed.

(** A day from 1 to 28 of a month, however the month number overflows
    the year. *)
Lemma MakeDay_date t year month dt :
  Day t = MakeDay year month dt -> 1 <= dt <= 28 ->
  YearFromTime t = year + month / 12 /\ MonthFromTime t = month mod 12 /\
  DateFromTime t = dt.
Proof.
  unfold MakeDay. cbv zeta. intros Hd Hdt.
  set (ym := year + month / 12) in *.
  remember (month mod 12) as mn eqn:Hmn.
  assert (Hm : 0 <= mn <= 11) by (rewrite Hmn; floor_lia).
  clear Hmn.
  change (if InLeapYear ym then 1 else 0) with (leap ym) in Hd.
  pose proof (leap_range ym) as HL.
  destruct (month_of_offset t ym (DaysBeforeMonth mn (leap ym) + dt - 1) mn)
    as (Hy & Hmo & Hda).
  - lia.
  - assumption.
  - unfold DaysBeforeNext. twelve mn; month_lia.
  - repeat split; [assumption..|lia].
Qed.

(** [setMonth] on a date whose day of the month every month has: the
    year and month asked for, the same day. *)
Lemma setMonth_fields now m :
  DateFromTime now <= 28 ->
  exists tp,
    setMonth (DateAt now) (Num m) = DateAt tp /\
    YearFromTime tp = YearFromTime now + m / 12 /\
    MonthFromTime tp = m mod 12 /\
    DateFromTime tp = DateFromTime now.
Proof.
  intros Hdt. pose proof (DateFromTime_range now) as Hr.
  exists (MakeDate (MakeDay (YearFromTime now) m (DateFromTime now)) (TimeWithinDay now)).
  split; [reflexivity|].
  apply MakeDay_date; [|lia].
  apply Day_MakeDate, TimeWithinDay_range.
Qed.

(** X1. When the clock is in the year of the reference date and on a day of
    the month from 1 to 28, the leading cells are the last
    [index firstDay] days of the month before that of the reference date,
    each with the date string of that month and its year. *)
Lemma createCalendarGrid_leading_cells_right now g t gridItemAmount grid :
  createCalendarGrid now g (DateAt t) [] gridItemAmount = Some grid ->
  DateFromTime now <= 28 ->
  YearFromTime now = YearFromTime t ->
  let idx := index (getFirstWeekDayInMonth (DateAt t)) in
  let year := YearFromTime t + (MonthFromTime t - 1) / 12 in
  let month := (MonthFromTime t - 1) mod 12 in
  ~ (0 <= year <= 99) ->
  take (Z.to_nat idx) grid
  = (fun day : Z =>
       mkDayDiv ["monthView_day"; "previous"] day
         (Some (getDateString (Num day) (Num (month + 1)) (Num year))))
    <$> seqZ (DaysInMonth month (leap year) - idx + 1) idx.
Proof.
  intros Hgrid Hdt Hyear. cbv zeta. intros Hcentury.
  destruct (createCalendarGrid_leading_cells now g t gridItemAmount grid Hgrid)
    as (n & Hn & Htake).
  rewrite Htake. clear Htake Hgrid.
  destruct (setMonth_fields now (MonthFromTime t + -1) Hdt) as (tp & Hpm & Hy & Hm & _).
  rewrite Hpm in *. rewrite Hyear in Hy.
  replace (MonthFromTime t + -1) with (MonthFromTime t - 1) in * by lia.
  rewrite getDaysInMonth_exact in Hn by (rewrite Hy; assumption).
  apply Num_inj in Hn. rewrite <- Hn, Hy, Hm.
  apply list_fmap_ext. intros i day _.
  unfold newDayDiv, set_dataset_date, createDayDiv. cbn [classList dayNumber].
  cbn [getMonth getFullYear num_add]. rewrite Hy, Hm. reflexivity.
Qed.

(** C8. On the invalid date the weekday name cannot be read, and the
    object returned holds "UNDEFINED" under the property [weekDay]: the
    property [weekday], which carries the name in the seven other cases,
    is absent. The index is 0 and nothing is thrown. *)
Theorem getFirstWeekDayInMonth_invalid_date :
  getFirstWeekDayInMonth InvalidDate = mkFirstWeekDay None (Some "UNDEFINED") 0 /\
  weekday (getFirstWeekDayInMonth InvalidDate) = None /\
  weekday (getFirstWeekDayInMonth (DateAt may31_2024)) = Some "Wednesday".
Proof. repeat split. Qed.

(** In a year from 0 to 99 the first weekday is that of the same month
    1900 years later: 1 March of year 50 was a Tuesday, 1 March 1950 a
    Wednesday. *)
Example getFirstWeekDayInMonth_year_50 :
  getFullYear (DateAt (MakeDate (MakeDay 50 2 1) 0)) = Num 50 /\
  toString_firstWord (DateAt (MakeDate (MakeDay 50 2 1) 0)) = "Tue" /\
  index (getFirstWeekDayInMonth (DateAt (MakeDate (MakeDay 50 2 1) 0))) = 2.
Proof. repeat split. Qed.

(** C1. On 31 May 2024, with the clock at that same moment, the month
    starts on a Wednesday (index 2) and April has 30 days, so the leading
    cells should be 29 and 30 April. [setMonth] carries day 31 of April
    over to 1 May: the leading cells are 30 and 31, dated in May. *)
Theorem createCalendarGrid_previous_on_may31 :
  index (getFirstWeekDayInMonth (DateAt may31_2024)) = 2 /\
  getDaysInMonth (ymd 2024 4 15) = Num 30 /\
  setMonth (DateAt may31_2024) (Num 3) = DateAt (MakeDate (MakeDay 2024 4 1) 43200000) /\
  take 2 <$> createCalendarGrid may31_2024 globals_may2024 (DateAt may31_2024) [] 35
  = Some [mkDayDiv ["monthView_day"; "previous"] 30 (Some "30-05-2024");
          mkDayDiv ["monthView_day"; "previous"] 31 (Some "31-05-2024")].
Proof. repeat split. Qed.

(** The year of the leading cells is that of the clock, not that of the
    reference date: for 15 March 2023 seen on 10 May 2024 the leading
    cells are 28 and 29 February 2024, not 27 and 28 February 2023. *)
Example createCalendarGrid_previous_other_year :
  index (getFirstWeekDayInMonth (DateAt march15_2023)) = 2 /\
  getDaysInMonth (ymd 2023 2 15) = Num 28 /\
  take 2 <$> createCalendarGrid may10_2024 globals_march2023 (DateAt march15_2023) [] 35
  = Some [mkDayDiv ["monthView_day"; "previous"] 28 (Some "28-02-2024");
          mkDayDiv ["monthView_day"; "previous"] 29 (Some "29-02-2024")].
Proof. repeat split. Qed.

(** With the clock on 10 May 2024 the same grid for May 2024 starts with
    29 and 30 April. *)
Example createCalendarGrid_previous_on_may10 :
  take 2 <$> createCalendarGrid may10_2024 globals_may2024 (DateAt may31_2024) [] 35
  = Some [mkDayDiv ["monthView_day"; "previous"] 29 (Some "29-04-2024");
          mkDayDiv ["monthView_day"; "previous"] 30 (Some "30-04-2024")].
Proof. reflexivity. Qed.

(** The grid of May 2024, seen on 31 May 2024, has 35 cells. *)
Lemma initCalendar_grid_length_witness :
  daysInCurrentMonth globals_may2024 <= 31 /\
  exists grid,
    initCalendar may31_2024 globals_may2024 (DateAt may31_2024) [] = Some grid /\
    maxGridItems (DateAt may31_2024)
      = (if 5 <=? index (getFirstWeekDayInMonth (DateAt may31_2024)) then 42 else 35) /\
    Z.of_nat (length grid) = maxGridItems (DateAt may31_2024).
Proof.
  assert (H : daysInCurrentMonth globals_may2024 <= 31) by (vm_compute; discriminate).
  split; [exact H|].
  exact (initCalendar_grid_length may31_2024 globals_may2024 may31_2024 H).
Defined.

(** On 31 May 2024 the one cell marked is cell 30 + 2. *)
Lemma createCalendarGrid_marks_today_witness :
  DateFromTime may31_2024 <= daysInCurrentMonth globals_may2024 /\
  exists grid,
    createCalendarGrid may31_2024 globals_may2024 (DateAt may31_2024) [] 35 = Some grid /\
    (forall i div, grid !! i = Some div ->
       ("today" ∈ classList div
        <-> i = Z.to_nat (DateFromTime may31_2024 - 1
                          + index (getFirstWeekDayInMonth (DateAt may31_2024))))) /\
    exists div,
      grid !! Z.to_nat (DateFromTime may31_2024 - 1
                        + index (getFirstWeekDayInMonth (DateAt may31_2024))) = Some div /\
      dataset_date div
      = Some (getDateString (getDate (DateAt may31_2024))
                (num_add (getMonth (DateAt may31_2024)) 1)
                (getFullYear (DateAt may31_2024))).
Proof.
  assert (H : DateFromTime may31_2024 <= daysInCurrentMonth globals_may2024)
    by (vm_compute; discriminate).
  split; [exact H|].
  exact (createCalendarGrid_marks_today may31_2024 globals_may2024 may31_2024 35 H).
Defined.

(** The cell marked on 31 May 2024 is cell 32, dated "31-05-2024". *)
Example createCalendarGrid_today_on_may31 :
  (fun grid => grid !! 32%nat)
    <$> createCalendarGrid may31_2024 globals_may2024 (DateAt may31_2024) [] 35
  = Some (Some (mkDayDiv ["monthView_day"; "current"; "today"] 31 (Some "31-05-2024"))).
Proof. reflexivity. Qed.

Example getDateString_pads : getDateString (Num 5) (Num 3) (Num 2024) = "05-03-2024".
Proof. reflexivity. Qed.

Example getDateString_two_digits :
  getDateString (Num 15) (Num 11) (Num 1999) = "15-11-1999".
Proof. reflexivity. Qed.

Example getDaysInMonth_february :
  getDaysInMonth (ymd 2000 2 29) = Num 29 /\ getDaysInMonth (ymd 2024 2 10) = Num 29 /\
  getDaysInMonth (ymd 2023 2 10) = Num 28 /\ getDaysInMonth (ymd 1900 2 10) = Num 28.
Proof. repeat split. Qed.

End Grid.

(** ** The summary of a day *)

Section Summary.

Import CalendarDay SpecRules.

Lemma strict_eqb_eq a b : strict_eqb a b = true -> a = b.
Proof.
  destruct a as [| |x|[|x]|x], b as [| |y|[|y]|y]; simpl; try discriminate; auto.
  - destruct x, y; simpl; congruence.
  - intros H. apply Z.eqb_eq in H. congruence.
  - intros H. apply String.eqb_eq in H. congruence.
Qed.

Lemma strict_eqb_str s v : strict_eqb v (VStr s) = true <-> v = VStr s.
Proof.
  split; [apply strict_eqb_eq|]. intros ->. simpl. apply String.eqb_refl.
Qed.

Lemma strict_eqb_int k v : strict_eqb v (VNum (Num k)) = true <-> v = VNum (Num k).
Proof.
  split; [apply strict_eqb_eq|]. intros ->. simpl. apply Z.eqb_refl.
Qed.

Lemma calculateSummary_snoc l obj :
  calculateSummary (l ++ [obj])%list = summary_step (calculateSummary l) obj.
Proof. unfold calculateSummary. now rewrite fold_left_app. Qed.

Lemma summary_step_known acc obj :
  known_type obj -> summary_step acc obj = rule_step acc obj.
Proof.
  intros [H | [H | H]]; destruct acc as [e t f tt te];
    unfold summary_step, rule_step, is_finished, xp_of_difficulty; rewrite H; cbn.
  - destruct (CalendarEvent.difficulty obj) as [| |b|[|z]|s]; cbn;
      try (destruct (CalendarEvent.finished obj) as [| |[]|[]|]; cbn; f_equal; lia).
    destruct (Z.eqb_spec z 1) as [->|]; [destruct (CalendarEvent.finished obj) as [| |[]|[]|]; cbn; f_equal; lia|].
    destruct (Z.eqb_spec z 2) as [->|]; [destruct (CalendarEvent.finished obj) as [| |[]|[]|]; cbn; f_equal; lia|].
    destruct (Z.eqb_spec z 3) as [->|]; [destruct (CalendarEvent.finished obj) as [| |[]|[]|]; cbn; f_equal; lia|].
    assert (Hz : match z with 1 => 150 | 2 => 400 | 3 => 750 | _ => 0 end = 0).
    { destruct z as [|[[|[]|]|[|[]|]|]|]; try reflexivity; lia. }
    rewrite Hz.
    destruct (CalendarEvent.finished obj) as [| |[]|[]|]; cbn; f_equal; lia.
  - reflexivity.
  - reflexivity.
Qed.

(** C3. [calculateSummary] is one fold over the view: nothing is counted
    for the empty view, and an item of type "event", "reminder" or "task"
    appended to any view changes the summary as the rules say; on a
    finished task of difficulty 2 and an unfinished task of difficulty 3
    the summary is 400, 1150, 1, 2, 0. *)
Theorem calculateSummary_follows_rules :
  calculateSummary [] = mkSummary 0 0 0 0 0 /\
  (forall l obj, known_type obj ->
     calculateSummary (l ++ [obj])%list = rule_step (calculateSummary l) obj) /\
  calculateSummary [task 2 true; task 3 false] = mkSummary 400 1150 1 2 0.
Proof.
  split; [reflexivity|]. split; [|reflexivity].
  intros l obj Hk. rewrite calculateSummary_snoc. now apply summary_step_known.
Qed.

Lemma calculateSummary_of_known l :
  Forall known_type l ->
  calculateSummary l = fold_left rule_step l (mkSummary 0 0 0 0 0).
Proof.
  unfold calculateSummary. generalize (mkSummary 0 0 0 0 0).
  induction l as [|obj l IH]; intros acc Hl; [reflexivity|].
  inversion Hl; subst. cbn. rewrite summary_step_known by assumption. now apply IH.
Qed.

Lemma summary_step_XP acc obj :
  CalendarEvent.type obj <> VStr "event" ->
  CalendarEvent.type obj <> VStr "reminder" ->
  totalXP (summary_step acc obj)
    = totalXP acc + xp_of_difficulty (CalendarEvent.difficulty obj) /\
  earnedXP (summary_step acc obj)
    = earnedXP acc + (if is_finished obj
                      then xp_of_difficulty (CalendarEvent.difficulty obj) else 0).
Proof.
  intros He Hr. destruct acc as [e t f tt te]. unfold summary_step.
  destruct (strict_eqb (CalendarEvent.type obj) (VStr "event")) eqn:E1;
    [apply strict_eqb_str in E1; contradiction|].
  destruct (strict_eqb (CalendarEvent.type obj) (VStr "reminder")) eqn:E2;
    [apply strict_eqb_str in E2; contradiction|].
  unfold is_finished, xp_of_difficulty.
  destruct (CalendarEvent.difficulty obj) as [| |b|[|z]|s]; cbn;
    try (destruct (CalendarEvent.finished obj) as [| |[]|[]|]; cbn; lia).
  destruct (Z.eqb_spec z 1) as [->|]; [destruct (CalendarEvent.finished obj) as [| |[]|[]|]; cbn; lia|].
  destruct (Z.eqb_spec z 2) as [->|]; [destruct (CalendarEvent.finished obj) as [| |[]|[]|]; cbn; lia|].
  destruct (Z.eqb_spec z 3) as [->|]; [destruct (CalendarEvent.finished obj) as [| |[]|[]|]; cbn; lia|].
  assert (Hz : match z with 1 => 150 | 2 => 400 | 3 => 750 | _ => 0 end = 0).
  { destruct z as [|[[|[]|]|[|[]|]|]|]; try reflexivity; lia. }
  rewrite Hz.
  destruct (CalendarEvent.finished obj) as [| |[]|[]|]; cbn; lia.
Qed.

Lemma summary_step_event_or_reminder acc obj :
  CalendarEvent.type obj = VStr "event" \/ CalendarEvent.type obj = VStr "reminder" ->
  totalXP (summary_step acc obj) = totalXP acc /\
  earnedXP (summary_step acc obj) = earnedXP acc.
Proof.
  intros [H | H]; destruct acc as [e t f tt te]; unfold summary_step; rewrite H;
    cbn; auto.
Qed.

Lemma xp_of_malformed_difficulty obj :
  malformed_difficulty obj -> xp_of_difficulty (CalendarEvent.difficulty obj) = 0.
Proof.
  intros (H1 & H2 & H3). unfold xp_of_difficulty.
  destruct (CalendarEvent.difficulty obj) as [| |b|[|z]|s]; try reflexivity.
  destruct z as [|[[|[]|]|[|[]|]|]|]; try reflexivity; congruence.
Qed.

Lemma xp_of_difficulty_nonneg d : 0 <= xp_of_difficulty d.
Proof.
  destruct d as [| |b|[|z]|s]; cbn; try lia.
  destruct z as [|[[|[]|]|[|[]|]|]|]; lia.
Qed.

(** C4, as stated, fails: an event of the unknown type "meeting" with
    difficulty 2, finished, adds 400 to both sums. *)
Lemma malformed_type_adds_XP :
  malformed_type meeting /\ ~ adds_no_XP meeting /\
  calculateSummary [meeting] = mkSummary 400 400 1 0 0.
Proof.
  split; [|split; [|reflexivity]].
  - intros [H | [H | H]]; discriminate H.
  - intros H. destruct (H (mkSummary 0 0 0 0 0)) as [H1 _]. discriminate H1.
Qed.

(** C4, amended. An event whose difficulty is none of the numbers 1, 2, 3
    adds nothing to [earnedXP] or [totalXP], whatever its type. *)
Theorem malformed_difficulty_adds_no_XP obj :
  malformed_difficulty obj -> adds_no_XP obj.
Proof.
  intros Hd acc.
  destruct (decide (CalendarEvent.type obj = VStr "event")) as [He|He].
  { destruct (summary_step_event_or_reminder acc obj); auto. }
  destruct (decide (CalendarEvent.type obj = VStr "reminder")) as [Hr|Hr].
  { destruct (summary_step_event_or_reminder acc obj); auto. }
  destruct (summary_step_XP acc obj He Hr) as [Ht Hea].
  rewrite (xp_of_malformed_difficulty obj Hd) in Ht, Hea.
  split; [rewrite Hea; destruct (is_finished obj)|rewrite Ht]; lia.
Qed.

(** A task whose difficulty is the text "2" adds no XP. *)
Lemma malformed_difficulty_adds_no_XP_witness :
  malformed_difficulty odd_task /\ adds_no_XP odd_task.
Proof.
  assert (H : malformed_difficulty odd_task).
  { repeat split; discriminate. }
  split; [exact H | exact (malformed_difficulty_adds_no_XP odd_task H)].
Defined.

Lemma summary_step_earned_le_total acc obj :
  earnedXP acc <= totalXP acc ->
  earnedXP (summary_step acc obj) <= totalXP (summary_step acc obj).
Proof.
  intros Hacc.
  destruct (decide (CalendarEvent.type obj = VStr "event")) as [He|He].
  { destruct (summary_step_event_or_reminder acc obj) as [-> ->]; auto. }
  destruct (decide (CalendarEvent.type obj = VStr "reminder")) as [Hr|Hr].
  { destruct (summary_step_event_or_reminder acc obj) as [-> ->]; auto. }
  destruct (summary_step_XP acc obj He Hr) as [-> ->].
  pose proof (xp_of_difficulty_nonneg (CalendarEvent.difficulty obj)).
  destruct (is_finished obj); lia.
Qed.

(** C10. In every summary the earned XP is at most the total XP. *)
Theorem calculateSummary_earned_le_total l :
  earnedXP (calculateSummary l) <= totalXP (calculateSummary l).
Proof.
  induction l as [|obj l IH] using rev_ind; [cbn; lia|].
  rewrite calculateSummary_snoc. now apply summary_step_earned_le_total.
Qed.

(** A reminder changes none of the five counts. *)
Example calculateSummary_ignores_reminder :
  calculateSummary [task 2 true; reminder; task 3 false]
  = calculateSummary [task 2 true; task 3 false].
Proof. reflexivity. Qed.

End Summary.

(** ** The events of a day *)

Section StableSort.

Context {A : Type} (comparefn : A -> A -> Z) (key : A -> Z) (ok : A -> Prop).

(** The comparison function orders by [key] on the elements that are [ok]. *)
Hypothesis comparefn_key :
  forall a b, ok a -> ok b -> (0 <? comparefn a b) = (key b <? key a).

Lemma sort_insert_Permutation x (l : list A) :
  Permutation (sort_insert comparefn x l) (x :: l).
Proof using Type.
  induction l as [|y l IH]; cbn; [reflexivity|].
  destruct (0 <? comparefn x y); [|reflexivity].
  rewrite IH. apply perm_swap.
Qed.

Lemma sorted_by_Permutation (l : list A) : Permutation (sorted_by comparefn l) l.
Proof using Type.
  induction l as [|x l IH]; cbn; [reflexivity|].
  rewrite sort_insert_Permutation. now constructor.
Qed.

Lemma sort_insert_sorted x (l : list A) :
  ok x -> Forall ok l ->
  StronglySorted (fun a b => key a <= key b) l ->
  StronglySorted (fun a b => key a <= key b) (sort_insert comparefn x l).
Proof using comparefn_key.
  intros Hx Hl Hs. induction l as [|y l IH]; cbn.
  - repeat constructor.
  - inversion Hl as [|? ? Hy Hl']; subst. inversion Hs as [|? ? Hs' Hall]; subst.
    rewrite (comparefn_key x y Hx Hy).
    destruct (Z.ltb_spec (key y) (key x)) as [Hlt|Hge].
    + constructor; [now apply IH|].
      rewrite (sort_insert_Permutation x l). constructor; [lia|assumption].
    + constructor; [assumption|].
      constructor; [assumption|].
      eapply Forall_impl; [exact Hall|]. cbn. intros; lia.
Qed.

Lemma sorted_by_sorted (l : list A) :
  Forall ok l -> StronglySorted (fun a b => key a <= key b) (sorted_by comparefn l).
Proof using comparefn_key.
  induction l as [|x l IH]; intros Hl; cbn; [constructor|].
  inversion Hl; subst. apply sort_insert_sorted; auto.
  rewrite (sorted_by_Permutation l). assumption.
Qed.

Lemma sort_insert_stable k x (l : list A) :
  ok x -> Forall ok l ->
  List.filter (fun a => key a =? k) (sort_insert comparefn x l)
  = List.filter (fun a => key a =? k) (x :: l).
Proof using comparefn_key.
  intros Hx Hl. induction l as [|y l IH]; [reflexivity|].
  inversion Hl as [|? ? Hy Hl']; subst. cbn [sort_insert].
  rewrite (comparefn_key x y Hx Hy).
  destruct (Z.ltb_spec (key y) (key x)) as [Hlt|Hge]; [|reflexivity].
  cbn [List.filter] in *. rewrite (IH Hl').
  destruct (Z.eqb_spec (key x) k), (Z.eqb_spec (key y) k); try reflexivity; lia.
Qed.

Lemma sorted_by_stable k (l : list A) :
  Forall ok l ->
  List.filter (fun a => key a =? k) (sorted_by comparefn l)
  = List.filter (fun a => key a =? k) l.
Proof using comparefn_key.
  induction l as [|x l IH]; intros Hl; [reflexivity|].
  inversion Hl; subst. cbn [sorted_by].
  rewrite sort_insert_stable; auto.
  - cbn [List.filter]. now rewrite IH.
  - rewrite (sorted_by_Permutation l). assumption.
Qed.

End StableSort.

Section Refresh.

Import CalendarDay.

Lemma has_hour_time obj : has_hour obj -> time obj = Num (hour obj).
Proof. unfold has_hour, hour. destruct (time obj); congruence. Qed.

Lemma compare_startTime_hour a b :
  has_hour a -> has_hour b ->
  (0 <? compare_startTime a b) = (hour b <? hour a).
Proof.
  intros Ha Hb. unfold compare_startTime.
  rewrite (has_hour_time a Ha), (has_hour_time b Hb). cbn.
  destruct (Z.ltb_spec (hour a) (hour b)), (Z.ltb_spec (hour b) (hour a));
    cbn; try reflexivity; lia.
Qed.

Lemma List_filter_filter {A} (f : A -> bool) (P : A -> Prop) `{!forall x, Decision (P x)}
    (l : list A) :
  (forall x, x ∈ l -> (f x = true <-> P x)) -> List.filter f l = filter P l.
Proof.
  induction l as [|x l IH]; intros Hf; [reflexivity|].
  cbn [List.filter]. rewrite filter_cons.
  rewrite IH by (intros y Hy; apply Hf; now right).
  pose proof (Hf x ltac:(left)) as Hx.
  destruct (f x), (decide (P x)) as [HP|HP]; try reflexivity.
  - exfalso. apply HP, Hx. reflexivity.
  - apply Hx in HP. discriminate.
Qed.

Lemma matches_same_date this obj : matches this obj = true <-> same_date this obj.
Proof. unfold matches, same_date. apply String.eqb_eq. Qed.

Lemma StronglySorted_hour_le (l : list CalendarEvent.t) :
  Forall has_hour l ->
  StronglySorted (fun a b => hour a <= hour b) l -> StronglySorted hour_le l.
Proof.
  induction l as [|x l IH]; intros Hl Hs; [constructor|].
  inversion Hl as [|? ? Hx Hl']; subst. inversion Hs as [|? ? Hs' Hall]; subst.
  constructor; [now apply IH|].
  rewrite Forall_forall in *. intros y Hy.
  exists (hour x), (hour y). repeat split; auto using has_hour_time.
Qed.

Lemma refreshEventList_eq g h this events :
  h !! g = Some events ->
  let m := fresh (dom h) in
  refreshEventList g h this
  = Some (<[m := sorted_by compare_startTime (List.filter (matches this) events)]> h,
          CalendarDay.mk (CalendarDay.date this) (Some m)).
Proof.
  intros Hg m. unfold refreshEventList. rewrite Hg. cbn.
  unfold array_sort, alloc. cbn. fold m.
  now rewrite alter_insert_eq.
Qed.

(** The events [matches] keeps, sorted with the comparison function, in
    the terms of the code: in ascending order of the hour the comparison
    function reads, events of equal hour in the order they have in the
    collection, when every event kept has such an hour. *)
Lemma sorted_matching_by_time this events :
  (forall obj, obj ∈ events -> same_date this obj -> has_hour obj) ->
  let v := sorted_by compare_startTime (List.filter (matches this) events) in
  v ≡ₚ filter (same_date this) events /\
  StronglySorted hour_le v /\
  forall k, filter (fun obj => time obj = Num k) v
            = filter (fun obj => time obj = Num k) (filter (same_date this) events).
Proof.
  intros Hhours. cbv zeta.
  set (matching := List.filter (CalendarDay.matches this) events).
  assert (Hm : matching = filter (same_date this) events).
  { apply List_filter_filter. intros; apply matches_same_date. }
  assert (Hok : Forall has_hour matching).
  { rewrite Hm. apply Forall_forall. intros obj Hin.
    apply list_elem_of_filter in Hin as [Hd Hin]. auto. }
  assert (Hok' : Forall has_hour (sorted_by compare_startTime matching)).
  { now rewrite (sorted_by_Permutation compare_startTime matching). }
  rewrite <- Hm. split; [apply sorted_by_Permutation|]. split.
  - apply StronglySorted_hour_le; [assumption|].
    apply (sorted_by_sorted _ hour has_hour compare_startTime_hour). assumption.
  - intros k.
    rewrite <- (List_filter_filter (fun a => hour a =? k) (fun obj => time obj = Num k)
                  (sorted_by compare_startTime matching)).
    + rewrite <- (List_filter_filter (fun a => hour a =? k) (fun obj => time obj = Num k)
                    matching).
      * apply (sorted_by_stable _ hour has_hour compare_startTime_hour). assumption.
      * intros x Hx. rewrite Forall_forall in Hok.
        rewrite (has_hour_time x (Hok x Hx)), Z.eqb_eq. split; congruence.
    + intros x Hx. rewrite Forall_forall in Hok'.
      rewrite (has_hour_time x (Hok' x Hx)), Z.eqb_eq. split; congruence.
Qed.

(** C9. [refreshEventList] leaves the shared collection as it was: the
    array the global refers to, and every other array there was, holds
    the same events in the same order after the call. *)
Theorem refreshEventList_preserves_collection g (h : store) this events :
  h !! g = Some events ->
  exists h' this',
    refreshEventList g h this = Some (h', this') /\
    h' !! g = Some events /\
    (forall l, is_Some (h !! l) -> h' !! l = h !! l) /\
    CalendarDay.eventList this' <> Some g.
Proof.
  intros Hg. eexists _, _. split; [apply (refreshEventList_eq g h this events Hg)|].
  assert (Hfresh : forall l, is_Some (h !! l) -> fresh (dom h) <> l).
  { intros l Hl Heq. apply elem_of_dom in Hl. rewrite <- Heq in Hl.
    now apply is_fresh in Hl. }
  split; [|split].
  - rewrite lookup_insert_ne; [assumption|]. apply Hfresh. now exists events.
  - intros l Hl. apply lookup_insert_ne. now apply Hfresh.
  - cbn. intros [= Heq]. apply (Hfresh g); [now exists events|assumption].
Qed.

(** The sample collection after the refresh of 1 January 2024. *)
Lemma refreshEventList_preserves_collection_witness :
  sample_store !! 1%positive = Some sample_collection /\
  exists h' this',
    refreshEventList 1%positive sample_store new_year = Some (h', this') /\
    h' !! 1%positive = Some sample_collection /\
    (forall l, is_Some (sample_store !! l) -> h' !! l = sample_store !! l) /\
    CalendarDay.eventList this' <> Some 1%positive.
Proof.
  assert (H1 : sample_store !! 1%positive = Some sample_collection) by reflexivity.
  split; [exact H1|].
  exact (refreshEventList_preserves_collection 1%positive sample_store new_year
           sample_collection H1).
Defined.

(** The day of 1 January 2024 shows the three events of that date, the
    two of 9 o'clock first and in the order of the collection; the
    collection is as before, and the view is another array. *)
Example refreshEventList_sample :
  (fun r => (view r.1 r.2, r.1 !! 1%positive, CalendarDay.eventList r.2))
    <$> refreshEventList 1%positive sample_store new_year
  = Some (Some [appointment 2 " 01-01-2024 " "09:00"; appointment 3 "01-01-2024" "09:45";
                appointment 1 "01-01-2024" "14:30"],
          Some sample_collection, Some 2%positive).
Proof. vm_compute. reflexivity. Qed.

(** A start time without an hour compares equal to every other, and the
    order is then no longer that of the hours read. *)
Example sorted_by_without_hour :
  sorted_by compare_startTime
    [appointment 1 "01-01-2024" "09:00"; appointment 2 "01-01-2024" "noon";
     appointment 3 "01-01-2024" "03:00"]
  = [appointment 1 "01-01-2024" "09:00"; appointment 2 "01-01-2024" "noon";
     appointment 3 "01-01-2024" "03:00"].
Proof. reflexivity. Qed.

Lemma in_all_ascii c : In c all_ascii.
Proof.
  unfold all_ascii. rewrite <- (ascii_nat_embedding c). apply in_map, in_seq.
  pose proof (nat_ascii_bounded c). lia.
Qed.

Lemma blank_isWhiteSpace c : isWhiteSpace c = blank c.
Proof.
  assert (H : forallb (fun c => Bool.eqb (isWhiteSpace c) (blank c)) all_ascii = true)
    by (vm_compute; reflexivity).
  rewrite forallb_forall in H. apply eqb_prop, H, in_all_ascii.
Qed.

Lemma trimStart_drop_blanks s :
  list_ascii_of_string (trimStart s) = drop_blanks (list_ascii_of_string s).
Proof.
  induction s as [|c s IH]; [reflexivity|].
  cbn [trimStart list_ascii_of_string drop_blanks]. rewrite blank_isWhiteSpace.
  destruct (blank c); [exact IH|reflexivity].
Qed.

(** [trim] strips the blanks at the two ends. *)
Lemma trim_strip s : trim s = strip s.
Proof.
  unfold trim, trimEnd, reverse_string, strip.
  now rewrite trimStart_drop_blanks, list_ascii_of_string_of_list_ascii,
    trimStart_drop_blanks.
Qed.

Lemma same_date_same_key this obj : same_date this obj <-> same_key this obj.
Proof. unfold same_date, same_key. now rewrite !trim_strip. Qed.

Lemma parseInt_two a b :
  parseInt (String a (String b EmptyString))
  = match hour_prefix (String a (String b EmptyString)) with
    | Some k => Num k
    | None => NaN
    end.
Proof.
  assert (H : forallb (fun a => forallb (fun b =>
              match parseInt (String a (String b EmptyString)),
                    hour_prefix (String a (String b EmptyString)) with
              | Num x, Some y => x =? y
              | NaN, None => true
              | _, _ => false
              end) all_ascii) all_ascii = true) by (vm_compute; reflexivity).
  rewrite forallb_forall in H. specialize (H a (in_all_ascii a)).
  rewrite forallb_forall in H. specialize (H b (in_all_ascii b)).
  destruct (parseInt _) as [|x], (hour_prefix _) as [y|]; try discriminate;
    [reflexivity|]. apply Z.eqb_eq in H. now subst.
Qed.

Lemma parseInt_one a :
  parseInt (String a EmptyString)
  = match hour_prefix (String a EmptyString) with
    | Some k => Num k
    | None => NaN
    end.
Proof.
  assert (H : forallb (fun a =>
              match parseInt (String a EmptyString),
                    hour_prefix (String a EmptyString) with
              | Num x, Some y => x =? y
              | NaN, None => true
              | _, _ => false
              end) all_ascii = true) by (vm_compute; reflexivity).
  rewrite forallb_forall in H. specialize (H a (in_all_ascii a)).
  destruct (parseInt _) as [|x], (hour_prefix _) as [y|]; try discriminate;
    [reflexivity|]. apply Z.eqb_eq in H. now subst.
Qed.

(** The hour the comparison function reads is the integer the first two
    characters of the start time read as. *)
Lemma time_hour_prefix obj :
  time obj = match hour_prefix (CalendarEvent.startTime obj) with
             | Some k => Num k
             | None => NaN
             end.
Proof.
  unfold time, slice_0_2. destruct (CalendarEvent.startTime obj) as [|a [|b rest]].
  - reflexivity.
  - apply parseInt_one.
  - replace (substring 0 2 (String a (String b rest)))
      with (String a (String b EmptyString)) by (destruct rest; reflexivity).
    change (hour_prefix (String a (String b rest)))
      with (hour_prefix (String a (String b EmptyString))).
    apply parseInt_two.
Qed.

Lemma time_Num obj k :
  time obj = Num k <-> hour_prefix (CalendarEvent.startTime obj) = Some k.
Proof.
  rewrite time_hour_prefix. destruct (hour_prefix _); split; congruence.
Qed.

Lemma has_hour_prefix obj :
  has_hour obj <-> is_Some (hour_prefix (CalendarEvent.startTime obj)).
Proof.
  unfold has_hour. rewrite time_hour_prefix.
  destruct (hour_prefix _) as [k|]; split.
  - intros _. now exists k.
  - discriminate.
  - congruence.
  - intros [k Hk]. discriminate.
Qed.

Lemma hour_le_ordered a b : hour_le a b <-> hour_ordered a b.
Proof.
  unfold hour_le, hour_ordered. split; intros (x & y & Hx & Hy & Hle); exists x, y.
  - apply time_Num in Hx, Hy. auto.
  - apply time_Num in Hx, Hy. auto.
Qed.

Lemma StronglySorted_iff {A} (R R' : A -> A -> Prop) (l : list A) :
  (forall a b, R a b <-> R' a b) -> StronglySorted R l -> StronglySorted R' l.
Proof.
  intros HR. induction 1 as [|a l Hs IH Hall]; constructor; [assumption|].
  eapply Forall_impl; [exact Hall|]. intros b. apply HR.
Qed.

(** The events [matches] keeps, sorted with the comparison function, in
    the words of the specification. *)
Lemma sorted_matching_spec this events :
  (forall obj, obj ∈ events -> same_key this obj ->
     is_Some (hour_prefix (CalendarEvent.startTime obj))) ->
  let v := sorted_by compare_startTime (List.filter (matches this) events) in
  v ≡ₚ filter (same_key this) events /\
  StronglySorted hour_ordered v /\
  forall k, filter (fun obj => hour_prefix (CalendarEvent.startTime obj) = Some k) v
            = filter (fun obj => hour_prefix (CalendarEvent.startTime obj) = Some k)
                (filter (same_key this) events).
Proof.
  intros Hhours. cbv zeta.
  assert (Hkey : filter (same_date this) events = filter (same_key this) events)
    by (apply list_filter_iff; intros obj; apply same_date_same_key).
  destruct (sorted_matching_by_time this events) as (Hperm & Hsorted & Hstable).
  { intros obj Hin Hsame. apply has_hour_prefix, Hhours; [assumption|].
    now apply same_date_same_key. }
  rewrite Hkey in Hperm, Hstable. split; [assumption|]. split.
  - eapply StronglySorted_iff; [|exact Hsorted]. intros a b. apply hour_le_ordered.
  - intros k.
    rewrite <- (list_filter_iff (fun obj => time obj = Num k) _
                  (sorted_by compare_startTime (List.filter (matches this) events)))
      by (intros obj; apply time_Num).
    rewrite <- (list_filter_iff (fun obj => time obj = Num k) _
                  (filter (same_key this) events))
      by (intros obj; apply time_Num).
    apply Hstable.
Qed.

(** C5. When every event of the collection whose date key is that of the
    day has a start time whose first two characters read as an integer,
    [refreshEventList] makes the day's view exactly the events of the
    collection with the date key of the day (the texts equal once
    stripped of blanks), in ascending order of that integer, events of
    equal hour in the order they have in the collection. *)
Theorem refreshEventList_filters_and_sorts g (h : store) this events :
  h !! g = Some events ->
  (forall obj, obj ∈ events -> same_key this obj ->
     is_Some (hour_prefix (CalendarEvent.startTime obj))) ->
  exists h' this' v,
    refreshEventList g h this = Some (h', this') /\
    CalendarDay.date this' = CalendarDay.date this /\
    view h' this' = Some v /\
    v ≡ₚ filter (same_key this) events /\
    StronglySorted hour_ordered v /\
    forall k, filter (fun obj => hour_prefix (CalendarEvent.startTime obj) = Some k) v
              = filter (fun obj => hour_prefix (CalendarEvent.startTime obj) = Some k)
                  (filter (same_key this) events).
Proof.
  intros Hg Hhours.
  exists (<[fresh (dom h) := sorted_by compare_startTime
                               (List.filter (matches this) events)]> h),
    (CalendarDay.mk (CalendarDay.date this) (Some (fresh (dom h)))),
    (sorted_by compare_startTime (List.filter (matches this) events)).
  split; [apply (refreshEventList_eq g h this events Hg)|].
  split; [reflexivity|].
  split; [unfold view; cbn [eventList mbind option_bind]; apply lookup_insert_eq|].
  apply (sorted_matching_spec this events Hhours).
Qed.

Lemma sample_collection_hour_prefix :
  forall obj, obj ∈ sample_collection -> same_key new_year obj ->
              is_Some (hour_prefix (CalendarEvent.startTime obj)).
Proof.
  intros obj Hin _. unfold sample_collection in Hin.
  repeat (apply elem_of_cons in Hin as [-> | Hin]); try (eexists; reflexivity).
  now apply elem_of_nil in Hin.
Defined.

(** The view of 1 January 2024 over the sample collection. *)
Lemma refreshEventList_filters_and_sorts_witness :
  sample_store !! 1%positive = Some sample_collection /\
  (forall obj, obj ∈ sample_collection -> same_key new_year obj ->
     is_Some (hour_prefix (CalendarEvent.startTime obj))) /\
  exists h' this' v,
    refreshEventList 1%positive sample_store new_year = Some (h', this') /\
    CalendarDay.date this' = CalendarDay.date new_year /\
    view h' this' = Some v /\
    v ≡ₚ filter (same_key new_year) sample_collection /\
    StronglySorted hour_ordered v /\
    forall k, filter (fun obj => hour_prefix (CalendarEvent.startTime obj) = Some k) v
              = filter (fun obj => hour_prefix (CalendarEvent.startTime obj) = Some k)
                  (filter (same_key new_year) sample_collection).
Proof.
  assert (H1 : sample_store !! 1%positive = Some sample_collection) by reflexivity.
  split; [exact H1|]. split; [exact sample_collection_hour_prefix|].
  exact (refreshEventList_filters_and_sorts 1%positive sample_store new_year
           sample_collection H1 sample_collection_hour_prefix).
Defined.

(** Three events of 1 January 2024 at "09:00", "noon" and "03:00": the
    first two characters of "noon" read as no integer, the comparison
    function answers 0 whenever it meets that event, and the view keeps
    the order of the collection, the event of hour 9 ahead of the event of
    hour 3. *)
Lemma refreshEventList_unsorted_without_hour :
  Forall (same_key new_year) unsorted_collection /\
  hour_prefix "09:00" = Some 9 /\ hour_prefix "noon" = None /\
  hour_prefix "03:00" = Some 3 /\
  (exists h' this',
     refreshEventList 1%positive {[ 1%positive := unsorted_collection ]} new_year
     = Some (h', this') /\
     view h' this' = Some unsorted_collection) /\
  ~ hour_ordered (appointment 1 "01-01-2024" "09:00") (appointment 3 "01-01-2024" "03:00") /\
  ~ StronglySorted hour_ordered unsorted_collection.
Proof.
  split.
  { repeat (apply Forall_cons; split; [reflexivity|]). apply Forall_nil_2. }
  split; [reflexivity|]. split; [reflexivity|]. split; [reflexivity|]. split; [|split].
  - eexists _, _. split.
    + apply (refreshEventList_eq 1%positive _ new_year unsorted_collection).
      reflexivity.
    + unfold view. cbn [eventList mbind option_bind]. rewrite lookup_insert_eq.
      reflexivity.
  - intros (x & y & Hx & Hy & Hle). vm_compute in Hx, Hy.
    injection Hx as <-. injection Hy as <-. lia.
  - intros Hs. apply StronglySorted_inv in Hs as [_ Hall].
    apply Forall_cons in Hall as [(x & y & _ & Hy & _) _]. discriminate Hy.
Qed.

End Refresh.

Section Event.

Import CalendarEvent.

(** What [updateEventInfo] does to each field: [id] and [difficulty] are
    kept, the seven other fields come from [eventData], a line is logged
    and nothing is returned. *)
Lemma updateEventInfo_fields this eventData :
  let r := updateEventInfo this eventData in
  id (this_after r) = id this /\
  difficulty (this_after r) = difficulty this /\
  name (this_after r) = name eventData /\
  description (this_after r) = description eventData /\
  date (this_after r) = date eventData /\
  startTime (this_after r) = startTime eventData /\
  endTime (this_after r) = endTime eventData /\
  type (this_after r) = type eventData /\
  finished (this_after r) = finished eventData /\
  logged r = "Updated CalendarEvent: " ++ valueToString (id this) /\
  returned r = VUndefined.
Proof. cbv zeta. repeat split. Qed.

(** C2. An event of difficulty 1 updated with a payload of difficulty 3
    keeps difficulty 1: [updateEventInfo] has no assignment for that
    field. The [id] is kept, the other fields are those of the payload,
    and nothing is returned. *)
Theorem updateEventInfo_keeps_difficulty :
  difficulty run_before = VNum (Num 1) /\ difficulty run_update = VNum (Num 3) /\
  updateEventInfo run_before run_update
  = mkUpdated
      (mk (VNum (Num 1)) (VStr "Long run") (VStr "15 km") "02-01-2024" "07:00"
          (VStr "09:00") (VStr "task") (VNum (Num 1)) (VBool true))
      "Updated CalendarEvent: 1" VUndefined.
Proof. repeat split. Qed.

(** The constructor copies all nine fields. *)
Lemma constructor_copies eventData : constructor eventData = eventData.
Proof. now destruct eventData. Qed.

End Event.

(** ** Date strings and the texts of the time panel *)

Section Strings.

Lemma getDateString_pad2 day month year :
  getDateString day month year = pad2 day ++ "-" ++ pad2 month ++ "-" ++ numToString year.
Proof. reflexivity. Qed.

Lemma timeText_pad2 now :
  timeText now = pad2 (Num (HourFromTime now)) ++ ":" ++ pad2 (Num (MinFromTime now)).
Proof. reflexivity. Qed.

(** A check that holds on every number of a range holds on each of them. *)
Lemma range_check (f : Z -> bool) (lo n z : Z) :
  forallb f (seqZ lo n) = true -> lo <= z < lo + n -> f z = true.
Proof.
  intros Hall Hz. rewrite forallb_forall in Hall. apply Hall.
  apply list_elem_of_In, elem_of_seqZ. lia.
Qed.

Lemma append_inj_length (a a' r r' : string) :
  String.length a = String.length a' -> a ++ r = a' ++ r' -> a = a' /\ r = r'.
Proof.
  revert a'. induction a as [|c a IH]; intros [|c' a'] Hlen Heq; try discriminate.
  - now split.
  - cbn in Hlen, Heq. injection Heq as -> Heq.
    destruct (IH a' ltac:(lia) Heq) as [-> ->]. now split.
Qed.

Lemma to_int_not_nil z : Z.to_int z <> Decimal.Pos Decimal.Nil /\ Z.to_int z <> Decimal.Neg Decimal.Nil.
Proof.
  destruct z as [|p|p]; cbn; split; try discriminate;
    intros [= H]; pose proof (DecimalPos.Unsigned.to_uint_nonnil p); contradiction.
Qed.

Lemma numToString_inj a b : numToString (Num a) = numToString (Num b) -> a = b.
Proof.
  cbn. intros H. apply (f_equal NilZero.int_of_string) in H.
  destruct (to_int_not_nil a), (to_int_not_nil b).
  rewrite !NilZero.isi in H by assumption.
  injection H as H. apply (f_equal Z.of_int) in H. now rewrite !DecimalZ.of_to in H.
Qed.

Lemma pad2_length n : 0 <= n <= 99 -> String.length (pad2 (Num n)) = 2%nat.
Proof.
  intros Hn. apply Nat.eqb_eq.
  apply (range_check (fun z => (String.length (pad2 (Num z)) =? 2)%nat) 0 100); [|lia].
  now vm_compute.
Qed.

(** The number a padded text of two characters stands for. *)
Lemma pad2_parseInt n : 0 <= n <= 99 -> parseInt (pad2 (Num n)) = Num n.
Proof.
  intros Hn.
  pose proof (range_check
    (fun z => match parseInt (pad2 (Num z)) with Num r => r =? z | NaN => false end)
    0 100 n) as H.
  cbv beta in H. destruct (parseInt (pad2 (Num n))) as [|r].
  - discriminate H; [now vm_compute|lia].
  - f_equal. apply Z.eqb_eq, H; [now vm_compute|lia].
Qed.

Lemma pad2_inj a b : 0 <= a <= 99 -> 0 <= b <= 99 -> pad2 (Num a) = pad2 (Num b) -> a = b.
Proof.
  intros Ha Hb H. apply (f_equal parseInt) in H.
  rewrite !pad2_parseInt in H by assumption. now injection H.
Qed.

Lemma year_length y : 1000 <= y <= 9999 -> String.length (numToString (Num y)) = 4%nat.
Proof.
  intros Hy. apply Nat.eqb_eq.
  apply (range_check (fun z => (String.length (numToString (Num z)) =? 4)%nat) 1000 9000);
    [|lia].
  now vm_compute.
Qed.

(** X2. The date string of a day from 0 to 99, a month from 0 to 99 and a
    year of four digits has ten characters, a hyphen after the second and
    after the fifth, and its first two characters, its fourth and fifth
    and its last four read back as the day, the month and the year. *)
Theorem getDateString_format day month year :
  0 <= day <= 99 -> 0 <= month <= 99 -> 1000 <= year <= 9999 ->
  let s := getDateString (Num day) (Num month) (Num year) in
  String.length s = 10%nat /\
  String.get 2 s = Some "-"%char /\ String.get 5 s = Some "-"%char /\
  parseInt (substring 0 2 s) = Num day /\
  parseInt (substring 3 2 s) = Num month /\
  substring 6 4 s = numToString (Num year).
Proof.
  intros Hd Hm Hy. cbv zeta. rewrite getDateString_pad2.
  pose proof (pad2_length day Hd) as Ld. pose proof (pad2_length month Hm) as Lm.
  pose proof (year_length year Hy) as Ly.
  pose proof (pad2_parseInt day Hd) as Pd. pose proof (pad2_parseInt month Hm) as Pm.
  remember (pad2 (Num day)) as d eqn:Ed. remember (pad2 (Num month)) as m eqn:Em.
  remember (numToString (Num year)) as y eqn:Ey. clear Ed Em Ey.
  destruct d as [|d1 [|d2 [|? ?]]]; try discriminate Ld.
  destruct m as [|m1 [|m2 [|? ?]]]; try discriminate Lm.
  destruct y as [|y1 [|y2 [|y3 [|y4 [|? ?]]]]]; try discriminate Ly.
  repeat split; first [reflexivity | assumption].
Qed.

Lemma getDateString_format_witness :
  0 <= 5 <= 99 /\ 0 <= 3 <= 99 /\ 1000 <= 2024 <= 9999 /\
  let s := getDateString (Num 5) (Num 3) (Num 2024) in
  String.length s = 10%nat /\
  String.get 2 s = Some "-"%char /\ String.get 5 s = Some "-"%char /\
  parseInt (substring 0 2 s) = Num 5 /\
  parseInt (substring 3 2 s) = Num 3 /\
  substring 6 4 s = numToString (Num 2024).
Proof.
  assert (H1 : 0 <= 5 <= 99) by lia. assert (H2 : 0 <= 3 <= 99) by lia.
  assert (H3 : 1000 <= 2024 <= 9999) by lia.
  split; [exact H1|]. split; [exact H2|]. split; [exact H3|].
  exact (getDateString_format 5 3 2024 H1 H2 H3).
Defined.

Lemma getDateString_injective day month year day' month' year' :
  0 <= day <= 99 -> 0 <= month <= 99 -> 0 <= day' <= 99 -> 0 <= month' <= 99 ->
  getDateString (Num day) (Num month) (Num year)
  = getDateString (Num day') (Num month') (Num year') ->
  day = day' /\ month = month' /\ year = year'.
Proof.
  intros Hd Hm Hd' Hm' H. rewrite !getDateString_pad2 in H.
  apply append_inj_length in H as [H1 H];
    [|now rewrite !pad2_length by assumption].
  apply (append_inj_length "-" "-") in H as [_ H]; [|reflexivity].
  apply append_inj_length in H as [H2 H];
    [|now rewrite !pad2_length by assumption].
  apply (append_inj_length "-" "-") in H as [_ H]; [|reflexivity].
  repeat split; [now apply pad2_inj|now apply pad2_inj|now apply numToString_inj].
Qed.

(** X3. Two date strings of days and months from 0 to 99 are equal exactly
    when day, month and year are the same, whatever the years: no two
    days of a calendar share a date string. *)
Theorem getDateString_inj day month year day' month' year' :
  0 <= day <= 99 -> 0 <= month <= 99 -> 0 <= day' <= 99 -> 0 <= month' <= 99 ->
  getDateString (Num day) (Num month) (Num year)
  = getDateString (Num day') (Num month') (Num year')
  <-> day = day' /\ month = month' /\ year = year'.
Proof.
  intros Hd Hm Hd' Hm'. split.
  - now apply getDateString_injective.
  - intros (-> & -> & ->). reflexivity.
Qed.

Lemma getDateString_inj_witness :
  0 <= 1 <= 99 /\ 0 <= 11 <= 99 /\ 0 <= 11 <= 99 /\ 0 <= 1 <= 99 /\
  (getDateString (Num 1) (Num 11) (Num 2024) = getDateString (Num 11) (Num 1) (Num 2024)
   <-> 1 = 11 /\ 11 = 1 /\ 2024 = 2024).
Proof.
  assert (H1 : 0 <= 1 <= 99) by lia. assert (H2 : 0 <= 11 <= 99) by lia.
  split; [exact H1|]. split; [exact H2|]. split; [exact H2|]. split; [exact H1|].
  exact (getDateString_inj 1 11 2024 11 1 2024 H1 H2 H2 H1).
Defined.

(** X4. The text [renderTimeInfo] shows has five characters, a colon in the
    middle, and its first two and last two characters read back as the
    hour (0 to 23) and the minute (0 to 59) of the clock; the interval it
    starts when asked to update has a period of three seconds. *)
Theorem renderTimeInfo_format now update :
  let s := fst (renderTimeInfo now update) in
  String.length s = 5%nat /\ String.get 2 s = Some ":"%char /\
  parseInt (slice_0_2 s) = Num (HourFromTime now) /\
  parseInt (substring 3 2 s) = Num (MinFromTime now) /\
  0 <= HourFromTime now < 24 /\ 0 <= MinFromTime now < 60 /\
  snd (renderTimeInfo now update) = (if update then Some 3000 else None).
Proof.
  cbv zeta. unfold renderTimeInfo. cbn [fst snd]. rewrite timeText_pad2.
  assert (Hh : 0 <= HourFromTime now < 24) by (unfold HourFromTime; floor_lia).
  assert (Hm : 0 <= MinFromTime now < 60) by (unfold MinFromTime; floor_lia).
  pose proof (pad2_length (HourFromTime now) ltac:(lia)) as Lh.
  pose proof (pad2_length (MinFromTime now) ltac:(lia)) as Lm.
  pose proof (pad2_parseInt (HourFromTime now) ltac:(lia)) as Ph.
  pose proof (pad2_parseInt (MinFromTime now) ltac:(lia)) as Pm.
  remember (pad2 (Num (HourFromTime now))) as h eqn:Eh.
  remember (pad2 (Num (MinFromTime now))) as m eqn:Em. clear Eh Em.
  destruct h as [|h1 [|h2 [|? ?]]]; try discriminate Lh.
  destruct m as [|m1 [|m2 [|? ?]]]; try discriminate Lm.
  repeat split; first [reflexivity | assumption | lia].
Qed.

(** X5. For a valid date the text names the month of the date, then its day
    and its year; "UNDEFINED" is the month of the invalid date only. *)
Theorem renderDateInfo_month_name :
  (forall t, exists monthString,
     monthNames !! Z.to_nat (MonthFromTime t) = Some monthString /\
     renderDateInfo (DateAt t)
     = monthString ++ " " ++ numToString (Num (DateFromTime t)) ++ ", "
       ++ numToString (Num (YearFromTime t))) /\
  renderDateInfo InvalidDate = "UNDEFINED NaN, NaN".
Proof.
  split; [|reflexivity]. intros t.
  pose proof (MonthFromTime_range t) as Hm.
  unfold renderDateInfo. cbv zeta. cbn [getMonth getDate getFullYear num_add].
  remember (MonthFromTime t) as mn eqn:Emn. clear Emn.
  assert (H : mn = 0 \/ mn = 1 \/ mn = 2 \/ mn = 3 \/ mn = 4 \/ mn = 5 \/ mn = 6
              \/ mn = 7 \/ mn = 8 \/ mn = 9 \/ mn = 10 \/ mn = 11) by lia.
  repeat (destruct H as [H | H]); subst mn; eexists; (split; [reflexivity|reflexivity]).
Qed.

Lemma reverse_string_involutive s : reverse_string (reverse_string s) = s.
Proof.
  unfold reverse_string.
  now rewrite list_ascii_of_string_of_list_ascii, rev_involutive,
    string_of_list_ascii_of_string.
Qed.

Lemma trimStart_no_space s : no_space s -> trimStart s = s.
Proof.
  unfold no_space. destruct s as [|c s]; [reflexivity|]. cbn.
  intros H. apply Forall_cons in H as [-> _]. reflexivity.
Qed.

(** A string without white space is its own [trim]. *)
Lemma trim_no_space s : no_space s -> trim s = s.
Proof.
  intros H. unfold trim, trimEnd. rewrite (trimStart_no_space s H).
  rewrite trimStart_no_space; [apply reverse_string_involutive|].
  unfold no_space, reverse_string in *.
  rewrite list_ascii_of_string_of_list_ascii. now apply Forall_rev.
Qed.

Lemma date_char_no_space c : date_char c -> isWhiteSpace c = false.
Proof.
  intros [-> | H]; [reflexivity|]. unfold isWhiteSpace.
  repeat match goal with |- context [(?a =? ?b)%nat] => destruct (Nat.eqb_spec a b) end;
    try lia; reflexivity.
Qed.

Lemma list_ascii_append (a b : string) :
  list_ascii_of_string (a ++ b) = (list_ascii_of_string a ++ list_ascii_of_string b)%list.
Proof.
  induction a as [|c a IH]; [reflexivity|].
  change (String c a ++ b) with (String c (a ++ b)). cbn. now rewrite IH.
Qed.

Lemma uint_chars u : Forall date_char (list_ascii_of_string (NilEmpty.string_of_uint u)).
Proof.
  induction u; cbn [NilEmpty.string_of_uint list_ascii_of_string].
  1: apply Forall_nil_2.
  all: apply Forall_cons; (split; [right; vm_compute; lia|assumption]).
Qed.

Lemma numToString_chars z : Forall date_char (list_ascii_of_string (numToString (Num z))).
Proof.
  cbn. destruct z as [|p|p]; cbn.
  - constructor; [right; vm_compute; lia|constructor].
  - pose proof (DecimalPos.Unsigned.to_uint_nonnil p) as Hp.
    unfold NilZero.string_of_uint. destruct (Pos.to_uint p) eqn:E; try contradiction;
      rewrite <- E; apply uint_chars.
  - pose proof (DecimalPos.Unsigned.to_uint_nonnil p) as Hp.
    constructor; [now left|].
    unfold NilZero.string_of_uint. destruct (Pos.to_uint p) eqn:E; try contradiction;
      rewrite <- E; apply uint_chars.
Qed.

Lemma pad2_chars z : Forall date_char (list_ascii_of_string (pad2 (Num z))).
Proof.
  unfold pad2. destruct (_ =? _)%nat; [|apply numToString_chars].
  change ("0" ++ numToString (Num z)) with (String "0" (numToString (Num z))).
  cbn [list_ascii_of_string]. constructor; [right; vm_compute; lia|apply numToString_chars].
Qed.

(** A date string of numbers holds digits and hyphens only, so [trim]
    leaves it as it is. *)
Lemma getDateString_trim day month year :
  trim (getDateString (Num day) (Num month) (Num year))
  = getDateString (Num day) (Num month) (Num year).
Proof.
  apply trim_no_space. unfold no_space. rewrite getDateString_pad2.
  eapply Forall_impl; [|intros c; apply date_char_no_space].
  rewrite !list_ascii_append, !Forall_app.
  repeat split; try apply pad2_chars; try apply numToString_chars;
    (constructor; [now left|constructor]).
Qed.

End Strings.

(** ** The date utilities on every date *)

Section DateUtilities.

(** The year the Date constructor reads from a year number: a year from 0
    to 99 stands for 1900 + year. *)
Lemma getDaysInMonth_read_year t :
  getDaysInMonth (DateAt t)
  = Num (DaysInMonth (MonthFromTime t)
           (leap (if (0 <=? YearFromTime t) && (YearFromTime t <=? 99)
                  then 1900 + YearFromTime t else YearFromTime t))).
Proof.
  unfold getDaysInMonth. cbn [getFullYear getMonth num_add getDate].
  destruct (newDate_time (YearFromTime t) (MonthFromTime t + 1) 0) as (t' & -> & Hd).
  cbn [getDate]. f_equal.
  rewrite (MakeDay_zero t' _ _ Hd). cbv zeta.
  pose proof (MonthFromTime_range t) as Hm.
  destruct (Z.eq_dec (MonthFromTime t) 11) as [H11|H11].
  - rewrite H11. change ((11 + 1) mod 12) with 0. change (0 =? 0) with true.
    unfold DaysInMonth, DaysBeforeNext. month_lia.
  - replace ((MonthFromTime t + 1) mod 12) with (MonthFromTime t + 1) by floor_lia.
    replace ((MonthFromTime t + 1) / 12) with 0 by floor_lia.
    destruct (Z.eqb_spec (MonthFromTime t + 1) 0); [lia|].
    repeat f_equal; lia.
Qed.

Lemma leap_two_digit_year y : 1 <= y <= 99 -> leap (1900 + y) = leap y.
Proof.
  intros Hy. unfold leap, InLeapYear.
  replace ((1900 + y) mod 4) with (y mod 4) by floor_lia.
  replace ((1900 + y) mod 100 =? 0) with (y mod 100 =? 0).
  2:{ destruct (Z.eqb_spec (y mod 100) 0), (Z.eqb_spec ((1900 + y) mod 100) 0);
        try reflexivity; floor_lia. }
  replace ((1900 + y) mod 400 =? 0) with (y mod 400 =? 0).
  2:{ destruct (Z.eqb_spec (y mod 400) 0), (Z.eqb_spec ((1900 + y) mod 400) 0);
        try reflexivity; floor_lia. }
  reflexivity.
Qed.

Lemma DaysInMonth_leap mn L L' :
  0 <= mn <= 11 -> mn <> 1 -> DaysInMonth mn L = DaysInMonth mn L'.
Proof.
  intros Hr Hmn. unfold DaysInMonth, DaysBeforeNext. twelve mn; month_lia.
Qed.

(** Without the clipping of the constructor, [getDaysInMonth] gives the
    number of days of the month of the date, which the day of the date
    never exceeds, for every date but those in February of the year 0:
    the Date constructor reads the year 0 as 1900, which is no leap year,
    and the 29 days of that February come out as 28. *)
Lemma getDaysInMonth_length_unclipped t :
  getDaysInMonth InvalidDate = NaN /\
  (YearFromTime t = 0 /\ MonthFromTime t = 1 ->
   getDaysInMonth (DateAt t) = Num 28 /\
   DaysInMonth (MonthFromTime t) (leap (YearFromTime t)) = 29) /\
  (~ (YearFromTime t = 0 /\ MonthFromTime t = 1) ->
   getDaysInMonth (DateAt t)
   = Num (DaysInMonth (MonthFromTime t) (leap (YearFromTime t))) /\
   DateFromTime t <= DaysInMonth (MonthFromTime t) (leap (YearFromTime t))).
Proof.
  split; [reflexivity|]. rewrite (getDaysInMonth_read_year t). split.
  - intros [-> ->]. split; reflexivity.
  - intros Hnot. split; [|apply (fields_of_time t)]. f_equal.
    destruct (Z.leb_spec 0 (YearFromTime t)) as [H0|H0]; cbn [andb]; [|reflexivity].
    destruct (Z.leb_spec (YearFromTime t) 99) as [H99|H99]; [|reflexivity].
    destruct (Z.eq_dec (YearFromTime t) 0) as [Hy|Hy].
    + apply DaysInMonth_leap; [apply MonthFromTime_range|tauto].
    + now rewrite leap_two_digit_year by lia.
Qed.

(** Without the clipping of the constructor, [getFirstWeekDayInMonth]
    returns the weekday of day 1 of the month of the date, in the year
    the Date constructor reads (1900 + year for a year from 0 to 99): its
    full name under [weekday], and its number counted from Monday = 0 to
    Sunday = 6. *)
Lemma getFirstWeekDayInMonth_first_unclipped t :
  let year := if (0 <=? YearFromTime t) && (YearFromTime t <=? 99)
              then 1900 + YearFromTime t else YearFromTime t in
  exists t1,
    YearFromTime t1 = year /\ MonthFromTime t1 = MonthFromTime t /\
    DateFromTime t1 = 1 /\
    getFirstWeekDayInMonth (DateAt t)
    = mkFirstWeekDay (Some (weekdayFullName (WeekDay t1))) None ((WeekDay t1 + 6) mod 7) /\
    weekDay (getFirstWeekDayInMonth (DateAt t)) = None.
Proof.
  cbv zeta. unfold getFirstWeekDayInMonth. cbv zeta. cbn [getMonth getFullYear].
  destruct (newDate_time (YearFromTime t) (MonthFromTime t) 1) as (t1 & -> & Hd).
  destruct (MakeDay_first t1 _ _ Hd) as (Hy1 & Hm1 & Hd1).
  pose proof (MonthFromTime_range t) as Hm.
  exists t1. split; [rewrite Hy1; Z.div_mod_to_equations; lia|].
  split; [rewrite Hm1; Z.div_mod_to_equations; lia|]. split; [assumption|].
  cbn [toString_firstWord].
  assert (Hw : 0 <= WeekDay t1 < 7) by (unfold WeekDay; Z.div_mod_to_equations; lia).
  assert (Hcases : WeekDay t1 = 0 \/ WeekDay t1 = 1 \/ WeekDay t1 = 2 \/ WeekDay t1 = 3
                   \/ WeekDay t1 = 4 \/ WeekDay t1 = 5 \/ WeekDay t1 = 6) by lia.
  repeat (destruct Hcases as [Hc | Hcases]); try rewrite Hc; try rewrite Hcases;
    split; reflexivity.
Qed.

End DateUtilities.

(** ** The date utilities at the ends of the range *)

Section ClippedDates.

Lemma TimeClip_in_range t : in_time_range t -> TimeClip t = DateAt t.
Proof.
  unfold in_time_range, TimeClip. intros [Hlo Hhi].
  destruct (Z.leb_spec (- maxTimeValue) t), (Z.leb_spec t maxTimeValue);
    try lia. reflexivity.
Qed.

Lemma TimeClip_out_of_range t : ~ in_time_range t -> TimeClip t = InvalidDate.
Proof.
  unfold in_time_range, TimeClip. intros Hout.
  destruct (Z.leb_spec (- maxTimeValue) t), (Z.leb_spec t maxTimeValue);
    try reflexivity. lia.
Qed.

Lemma Day_in_range t : in_time_range t -> -100000000 <= Day t <= 100000000.
Proof. unfold in_time_range, maxTimeValue, Day, msPerDay. intros H. floor_lia. Qed.

Lemma midnight_in_range d :
  -100000000 <= d <= 100000000 <-> in_time_range (MakeDate d 0).
Proof. unfold in_time_range, maxTimeValue, MakeDate, msPerDay. lia. Qed.

(** Day 0 of the month after month [m] is the last day of month [m]. *)
Lemma MakeDay_last y m :
  0 <= m <= 11 ->
  MakeDay y (m + 1) 0 = DayFromYear y + DaysBeforeNext m (leap y) - 1.
Proof.
  intros Hm. unfold MakeDay, DaysBeforeNext. cbv zeta. fold (leap (y + (m + 1) / 12)).
  destruct (Z.eqb_spec m 11) as [->|H11].
  - change ((11 + 1) / 12) with 1. change ((11 + 1) mod 12) with 0.
    rewrite DayFromYear_succ, DaysInYear_leap. cbn [DaysBeforeMonth]. lia.
  - replace ((m + 1) / 12) with 0 by floor_lia.
    replace ((m + 1) mod 12) with (m + 1) by floor_lia.
    replace (y + 0) with y by lia. lia.
Qed.

Lemma MakeDay_one y m :
  0 <= m <= 11 -> MakeDay y m 1 = DayFromYear y + DaysBeforeMonth m (leap y).
Proof.
  intros Hm. unfold MakeDay. cbv zeta. fold (leap (y + m / 12)).
  replace (m / 12) with 0 by floor_lia. replace (m mod 12) with m by floor_lia.
  replace (y + 0) with y by lia. lia.
Qed.

Lemma DaysBeforeMonth_mono m m' L :
  0 <= m <= m' -> m' <= 11 -> 0 <= L <= 1 -> DaysBeforeMonth m L <= DaysBeforeMonth m' L.
Proof.
  intros Hm Hm' HL. twelve m; twelve m'; cbn [DaysBeforeMonth]; lia.
Qed.

Lemma DaysBeforeNext_bounds m L :
  0 <= m <= 11 -> 0 <= L <= 1 ->
  DaysBeforeMonth m L < DaysBeforeNext m L <= 365 + L.
Proof.
  intros Hm HL. unfold DaysBeforeNext. twelve m; cbn [Z.eqb Pos.eqb DaysBeforeMonth]; lia.
Qed.

Lemma Day_ge_month_start t :
  DayFromYear (YearFromTime t)
  + DaysBeforeMonth (MonthFromTime t) (leap (YearFromTime t)) <= Day t.
Proof. pose proof (fields_of_time t) as [H1 H2]. cbv zeta in H1, H2. lia. Qed.

Lemma Day_le_month_end t :
  Day t <= DayFromYear (YearFromTime t)
           + DaysBeforeNext (MonthFromTime t) (leap (YearFromTime t)) - 1.
Proof.
  pose proof (fields_of_time t) as [H1 H2]. cbv zeta in H1, H2.
  unfold DaysInMonth in H2. lia.
Qed.

(** The month of a day up to 31 August 275760 ends by that day. *)
Lemma month_end_le t :
  Day t <= 99999987 ->
  DayFromYear (YearFromTime t)
  + DaysBeforeNext (MonthFromTime t) (leap (YearFromTime t)) - 1 <= 99999987.
Proof.
  intros Hd.
  pose proof (Day_ge_month_start t) as Hs. pose proof (MonthFromTime_range t) as Hm.
  pose proof (leap_range (YearFromTime t)) as HL.
  pose proof (DaysBeforeNext_bounds (MonthFromTime t) (leap (YearFromTime t)) Hm HL) as Hn.
  assert (H0 : DayFromYear 275760 = 99999744) by reflexivity.
  assert (L0 : leap 275760 = 1) by reflexivity.
  remember (YearFromTime t) as Y eqn:EY. remember (MonthFromTime t) as M eqn:EM.
  clear EY EM.
  assert (HB : 0 <= DaysBeforeMonth M (leap Y)).
  { pose proof (DaysBeforeMonth_mono 0 M (leap Y) ltac:(lia) ltac:(lia) HL) as Hmono.
    cbn [DaysBeforeMonth] in Hmono. lia. }
  destruct (Z.lt_trichotomy Y 275760) as [Hlt|[->|Hgt]].
  - assert (Hy : DayFromYear (Y + 1) <= DayFromYear 275760).
    { destruct (Z.eq_dec (Y + 1) 275760) as [->|Hne]; [lia|].
      apply Z.lt_le_incl, DayFromYear_lt. lia. }
    rewrite DayFromYear_succ, DaysInYear_leap in Hy. lia.
  - rewrite L0 in *. rewrite H0 in *.
    assert (HM : M <= 7).
    { destruct (Z.le_gt_cases M 7) as [|Hbig]; [assumption|exfalso].
      pose proof (DaysBeforeMonth_mono 8 M 1 ltac:(lia) ltac:(lia) ltac:(lia)) as Hmono.
      cbn [DaysBeforeMonth] in Hmono. lia. }
    unfold DaysBeforeNext. destruct (Z.eqb_spec M 11); [lia|].
    pose proof (DaysBeforeMonth_mono (M + 1) 8 1 ltac:(lia) ltac:(lia) ltac:(lia)) as Hmono.
    cbn [DaysBeforeMonth] in Hmono. lia.
  - assert (Hy : DayFromYear (275760 + 1) <= DayFromYear Y).
    { destruct (Z.eq_dec Y (275760 + 1)) as [->|Hne]; [lia|].
      apply Z.lt_le_incl, DayFromYear_lt. lia. }
    rewrite DayFromYear_succ, DaysInYear_leap, H0, L0 in Hy. lia.
Qed.

(** The month of a day from 1 May -271821 on starts on or after that
    day. *)
Lemma month_start_ge t :
  -99999989 <= Day t ->
  -99999989 <= DayFromYear (YearFromTime t)
               + DaysBeforeMonth (MonthFromTime t) (leap (YearFromTime t)).
Proof.
  intros Hd.
  pose proof (Day_le_month_end t) as He. pose proof (MonthFromTime_range t) as Hm.
  pose proof (leap_range (YearFromTime t)) as HL.
  pose proof (DaysBeforeNext_bounds (MonthFromTime t) (leap (YearFromTime t)) Hm HL) as Hn.
  assert (H0 : DayFromYear (-271821) = -100000109) by reflexivity.
  assert (L0 : leap (-271821) = 0) by reflexivity.
  remember (YearFromTime t) as Y eqn:EY. remember (MonthFromTime t) as M eqn:EM.
  clear EY EM.
  assert (HB : 0 <= DaysBeforeMonth M (leap Y)).
  { pose proof (DaysBeforeMonth_mono 0 M (leap Y) ltac:(lia) ltac:(lia) HL) as Hmono.
    cbn [DaysBeforeMonth] in Hmono. lia. }
  destruct (Z.lt_trichotomy Y (-271821)) as [Hlt|[->|Hgt]].
  - assert (Hy : DayFromYear (Y + 1) <= DayFromYear (-271821)).
    { destruct (Z.eq_dec (Y + 1) (-271821)) as [->|Hne]; [lia|].
      apply Z.lt_le_incl, DayFromYear_lt. lia. }
    rewrite DayFromYear_succ, DaysInYear_leap in Hy. lia.
  - rewrite L0 in *. rewrite H0 in *.
    assert (HM : 4 <= M).
    { destruct (Z.le_gt_cases 4 M) as [|Hsmall]; [assumption|exfalso].
      unfold DaysBeforeNext in He. destruct (Z.eqb_spec M 11); [lia|].
      pose proof (DaysBeforeMonth_mono (M + 1) 4 0 ltac:(lia) ltac:(lia) ltac:(lia))
        as Hmono.
      cbn [DaysBeforeMonth] in Hmono. lia. }
    pose proof (DaysBeforeMonth_mono 4 M 0 ltac:(lia) ltac:(lia) ltac:(lia)) as Hmono.
    cbn [DaysBeforeMonth] in Hmono. lia.
  - assert (Hy : DayFromYear (-271821 + 1) <= DayFromYear Y).
    { destruct (Z.eq_dec Y (-271821 + 1)) as [->|Hne]; [lia|].
      apply Z.lt_le_incl, DayFromYear_lt. lia. }
    rewrite DayFromYear_succ, DaysInYear_leap, H0, L0 in Hy. lia.
Qed.

Lemma DayFromYear_1900s y :
  0 <= y <= 99 -> -25567 <= DayFromYear (1900 + y) /\ DayFromYear (1900 + y) + 366 <= 11323.
Proof. intros Hy. unfold DayFromYear. floor_lia. Qed.

(** The last day of the month of a date before September 275760 is
    within the range, also when the constructor reads the year as
    1900 + year. *)
Lemma last_day_in_range t :
  in_time_range t -> t < lastMonthStart ->
  in_time_range
    (MakeDate (MakeDay (if (0 <=? YearFromTime t) && (YearFromTime t <=? 99)
                        then 1900 + YearFromTime t else YearFromTime t)
                       (MonthFromTime t + 1) 0) 0).
Proof.
  intros Hr Hlt. apply midnight_in_range.
  pose proof (MonthFromTime_range t) as Hm.
  rewrite MakeDay_last by assumption.
  pose proof (Day_in_range t Hr) as Hd.
  assert (Hd' : Day t <= 99999987).
  { change lastMonthStart with 8639998963200000 in Hlt. unfold Day, msPerDay. floor_lia. }
  destruct (Z.leb_spec 0 (YearFromTime t)) as [H0|H0]; cbn [andb].
  - destruct (Z.leb_spec (YearFromTime t) 99) as [H99|H99].
    + pose proof (DayFromYear_1900s (YearFromTime t) ltac:(lia)) as Hc.
      pose proof (leap_range (1900 + YearFromTime t)) as HL.
      pose proof (DaysBeforeNext_bounds (MonthFromTime t) _ Hm HL) as Hn.
      pose proof (DaysBeforeMonth_mono 0 (MonthFromTime t) _ ltac:(lia) ltac:(lia) HL) as Hb.
      cbn [DaysBeforeMonth] in Hb. lia.
    + pose proof (month_end_le t Hd'). pose proof (Day_le_month_end t). lia.
  - pose proof (month_end_le t Hd'). pose proof (Day_le_month_end t). lia.
Qed.

Lemma first_day_in_range t :
  in_time_range t -> firstWholeMonthStart <= t ->
  in_time_range
    (MakeDate (MakeDay (if (0 <=? YearFromTime t) && (YearFromTime t <=? 99)
                        then 1900 + YearFromTime t else YearFromTime t)
                       (MonthFromTime t) 1) 0).
Proof.
  intros Hr Hge. apply midnight_in_range.
  pose proof (MonthFromTime_range t) as Hm.
  rewrite MakeDay_one by assumption.
  pose proof (Day_in_range t Hr) as Hd.
  assert (Hd' : -99999989 <= Day t).
  { change firstWholeMonthStart with (-8639999049600000) in Hge.
    unfold Day, msPerDay. floor_lia. }
  destruct (Z.leb_spec 0 (YearFromTime t)) as [H0|H0]; cbn [andb].
  - destruct (Z.leb_spec (YearFromTime t) 99) as [H99|H99].
    + pose proof (DayFromYear_1900s (YearFromTime t) ltac:(lia)) as Hc.
      pose proof (leap_range (1900 + YearFromTime t)) as HL.
      pose proof (DaysBeforeNext_bounds (MonthFromTime t) _ Hm HL) as Hn.
      pose proof (DaysBeforeMonth_mono 0 (MonthFromTime t) _ ltac:(lia) ltac:(lia) HL) as Hb.
      cbn [DaysBeforeMonth] in Hb. lia.
    + pose proof (month_start_ge t Hd'). pose proof (Day_ge_month_start t). lia.
  - pose proof (month_start_ge t Hd'). pose proof (Day_ge_month_start t). lia.
Qed.

(** The dates from 1 September 275760 on are in September 275760. *)
Lemma last_month t :
  in_time_range t -> lastMonthStart <= t ->
  YearFromTime t = 275760 /\ MonthFromTime t = 8.
Proof.
  intros Hr Hge. pose proof (Day_in_range t Hr) as Hd.
  assert (Hd' : 99999988 <= Day t).
  { change lastMonthStart with 8639998963200000 in Hge. unfold Day, msPerDay. floor_lia. }
  destruct (month_of_offset t 275760 (Day t - 99999744) 8) as (Hy & Hm & _).
  - change (DayFromYear 275760) with 99999744. lia.
  - lia.
  - change (leap 275760) with 1. unfold DaysBeforeNext.
    cbn [Z.eqb Pos.eqb DaysBeforeMonth]. change (8 + 1) with 9. cbn [DaysBeforeMonth]. lia.
  - split; assumption.
Qed.

(** The dates before 1 May -271821 are in April -271821. *)
Lemma first_month t :
  in_time_range t -> t < firstWholeMonthStart ->
  YearFromTime t = -271821 /\ MonthFromTime t = 3.
Proof.
  intros Hr Hlt. pose proof (Day_in_range t Hr) as Hd.
  assert (Hd' : Day t <= -99999990).
  { change firstWholeMonthStart with (-8639999049600000) in Hlt.
    unfold Day, msPerDay. floor_lia. }
  destruct (month_of_offset t (-271821) (Day t + 100000109) 3) as (Hy & Hm & _).
  - change (DayFromYear (-271821)) with (-100000109). lia.
  - lia.
  - change (leap (-271821)) with 0. unfold DaysBeforeNext.
    cbn [Z.eqb Pos.eqb DaysBeforeMonth]. change (3 + 1) with 4. cbn [DaysBeforeMonth]. lia.
  - split; assumption.
Qed.

Lemma Clipped_getDaysInMonth_eq t :
  in_time_range t -> t < lastMonthStart ->
  Clipped.getDaysInMonth (DateAt t) = getDaysInMonth (DateAt t).
Proof.
  intros Hr Hlt. unfold Clipped.getDaysInMonth, getDaysInMonth.
  cbn [getFullYear getMonth num_add]. unfold Clipped.newDate, newDate. cbv zeta.
  now rewrite (TimeClip_in_range _ (last_day_in_range t Hr Hlt)).
Qed.

Lemma Clipped_getDaysInMonth_range t :
  in_time_range t -> t < lastMonthStart ->
  exists n, Clipped.getDaysInMonth (DateAt t) = Num n /\ 28 <= n <= 31.
Proof.
  intros Hr Hlt. rewrite (Clipped_getDaysInMonth_eq t Hr Hlt). apply getDaysInMonth_range.
Qed.

Lemma Clipped_getDaysInMonth_NaN t :
  in_time_range t -> lastMonthStart <= t -> Clipped.getDaysInMonth (DateAt t) = NaN.
Proof.
  intros Hr Hge. destruct (last_month t Hr Hge) as [Hy Hm].
  unfold Clipped.getDaysInMonth. cbn [getFullYear getMonth num_add].
  rewrite Hy, Hm. reflexivity.
Qed.

Lemma Clipped_getFirstWeekDayInMonth_eq t :
  in_time_range t -> firstWholeMonthStart <= t ->
  Clipped.getFirstWeekDayInMonth (DateAt t) = getFirstWeekDayInMonth (DateAt t).
Proof.
  intros Hr Hge. unfold Clipped.getFirstWeekDayInMonth, getFirstWeekDayInMonth.
  cbv zeta. cbn [getFullYear getMonth]. unfold Clipped.newDate, newDate. cbv zeta.
  now rewrite (TimeClip_in_range _ (first_day_in_range t Hr Hge)).
Qed.

(** X6. For a date before September 275760, [getDaysInMonth] gives the
    number of days of the month of the date, which the day of the date
    never exceeds, except in February of the year 0: the Date constructor
    reads the year 0 as 1900, which is no leap year, and the 29 days of
    that February come out as 28. From 1 September 275760 on, the last
    day of the month is beyond the range of time values and the result is
    NaN, as it is for the invalid date. *)
Theorem getDaysInMonth_month_length t :
  in_time_range t ->
  Clipped.getDaysInMonth InvalidDate = NaN /\
  (lastMonthStart <= t -> Clipped.getDaysInMonth (DateAt t) = NaN) /\
  (t < lastMonthStart ->
   (YearFromTime t = 0 /\ MonthFromTime t = 1 ->
    Clipped.getDaysInMonth (DateAt t) = Num 28 /\
    DaysInMonth (MonthFromTime t) (leap (YearFromTime t)) = 29) /\
   (~ (YearFromTime t = 0 /\ MonthFromTime t = 1) ->
    Clipped.getDaysInMonth (DateAt t)
    = Num (DaysInMonth (MonthFromTime t) (leap (YearFromTime t))) /\
    DateFromTime t <= DaysInMonth (MonthFromTime t) (leap (YearFromTime t)))).
Proof.
  intros Hr. split; [reflexivity|]. split.
  - now apply Clipped_getDaysInMonth_NaN.
  - intros Hlt. rewrite (Clipped_getDaysInMonth_eq t Hr Hlt).
    destruct (getDaysInMonth_length_unclipped t) as (_ & H1 & H2). split; assumption.
Qed.

(** 31 May 2024, and 13 September 275760, the last of all dates. *)
Lemma getDaysInMonth_month_length_witness :
  in_time_range may31_2024 /\ in_time_range maxTimeValue /\
  Clipped.getDaysInMonth (DateAt may31_2024) = Num 31 /\
  Clipped.getDaysInMonth (DateAt maxTimeValue) = NaN.
Proof.
  assert (H1 : in_time_range may31_2024) by (vm_compute; split; discriminate).
  assert (H2 : in_time_range maxTimeValue) by (vm_compute; split; discriminate).
  split; [exact H1|]. split; [exact H2|]. split.
  - destruct (getDaysInMonth_month_length may31_2024 H1) as (_ & _ & H).
    destruct (H ltac:(vm_compute; reflexivity)) as [_ H'].
    apply H'. vm_compute. intros [H0 _]. discriminate H0.
  - destruct (getDaysInMonth_month_length maxTimeValue H2) as (_ & H & _).
    apply H. vm_compute. discriminate.
Defined.

(** X7. For a date from 1 May -271821 on, [getFirstWeekDayInMonth] returns
    the weekday of day 1 of the month of the date, in the year the Date
    constructor reads (1900 + year for a year from 0 to 99): its full name
    under [weekday], and its number counted from Monday = 0 to Sunday = 6.
    For the dates before, those of April -271821, day 1 of the month is
    beyond the range of time values and the result is the sentinel. *)
Theorem getFirstWeekDayInMonth_first_of_month t :
  in_time_range t ->
  (t < firstWholeMonthStart ->
   Clipped.getFirstWeekDayInMonth (DateAt t) = mkFirstWeekDay None (Some "UNDEFINED") 0) /\
  (firstWholeMonthStart <= t ->
   let year := if (0 <=? YearFromTime t) && (YearFromTime t <=? 99)
               then 1900 + YearFromTime t else YearFromTime t in
   exists t1,
     YearFromTime t1 = year /\ MonthFromTime t1 = MonthFromTime t /\
     DateFromTime t1 = 1 /\
     Clipped.getFirstWeekDayInMonth (DateAt t)
     = mkFirstWeekDay (Some (weekdayFullName (WeekDay t1))) None ((WeekDay t1 + 6) mod 7)).
Proof.
  intros Hr. split.
  - intros Hlt. destruct (first_month t Hr Hlt) as [Hy Hm].
    unfold Clipped.getFirstWeekDayInMonth. cbv zeta. cbn [getFullYear getMonth].
    rewrite Hy, Hm. reflexivity.
  - intros Hge. cbv zeta. rewrite (Clipped_getFirstWeekDayInMonth_eq t Hr Hge).
    destruct (getFirstWeekDayInMonth_first_unclipped t) as (t1 & H1 & H2 & H3 & H4 & _).
    exists t1. repeat split; assumption.
Qed.

(** 31 May 2024, and 20 April -271821, the first of all dates. *)
Lemma getFirstWeekDayInMonth_first_of_month_witness :
  in_time_range may31_2024 /\ in_time_range (- maxTimeValue) /\
  Clipped.getFirstWeekDayInMonth (DateAt (- maxTimeValue))
  = mkFirstWeekDay None (Some "UNDEFINED") 0 /\
  exists t1,
    DateFromTime t1 = 1 /\
    Clipped.getFirstWeekDayInMonth (DateAt may31_2024)
    = mkFirstWeekDay (Some (weekdayFullName (WeekDay t1))) None ((WeekDay t1 + 6) mod 7).
Proof.
  assert (H1 : in_time_range may31_2024) by (vm_compute; split; discriminate).
  assert (H2 : in_time_range (- maxTimeValue)) by (vm_compute; split; discriminate).
  split; [exact H1|]. split; [exact H2|]. split.
  - destruct (getFirstWeekDayInMonth_first_of_month (- maxTimeValue) H2) as [H _].
    apply H. vm_compute. reflexivity.
  - destruct (getFirstWeekDayInMonth_first_of_month may31_2024 H1) as [_ H].
    destruct (H ltac:(vm_compute; discriminate)) as (t1 & _ & _ & Hd & Heq).
    exists t1. split; assumption.
Defined.

End ClippedDates.

(** ** The grid in general *)

Section GridInto.

(** The grid [createCalendarGrid] builds for a valid date into a container
    that may hold children already. *)
Lemma createCalendarGrid_cells_into now g t container gridItemAmount :
  let selectedDate := DateAt t in
  let idx := index (getFirstWeekDayInMonth selectedDate) in
  let k := DateFromTime t + idx - 1 in
  let previousMonth := setMonth (DateAt now) (Num (MonthFromTime t + -1)) in
  exists n,
    getDaysInMonth previousMonth = Num n /\ 28 <= n <= 31 /\
    let previous :=
      (fun day : Z => newDayDiv "previous" day previousMonth)
        <$> seqZ (n - idx + 1) idx in
    let current :=
      (fun i : Z => newDayDiv "current" (i + 1) selectedDate)
        <$> seqZ 0 (daysInCurrentMonth g) in
    let next :=
      (fun i : Z => newDayDiv "next" (i + 1) (nextMonth g))
        <$> seqZ 0 (gridItemAmount
                    - Z.of_nat (length ((container ++ previous) ++ current)%list)) in
    let cells := (((container ++ previous) ++ current) ++ next)%list in
    createCalendarGrid now g selectedDate container gridItemAmount
    = if k <? Z.of_nat (length cells)
      then Some (alter (add_class "today") (Z.to_nat k) cells)
      else None.
Proof.
  cbv zeta. unfold createCalendarGrid. cbv zeta.
  cbn [setMonth getMonth num_add getDate].
  set (pm := DateAt (MakeDate _ _)).
  destruct (getDaysInMonth_range (MakeDate (MakeDay (YearFromTime now)
              (MonthFromTime t + -1) (DateFromTime now)) (TimeWithinDay now)))
    as (n & Hn & Hrange).
  fold pm in Hn. rewrite Hn.
  pose proof (index_range (DateAt t)) as Hidx.
  pose proof (DateFromTime_range t) as Hdt.
  exists n. split; [reflexivity|]. split; [assumption|].
  rewrite (previous_cells pm n (index (getFirstWeekDayInMonth (DateAt t)))) by lia.
  cbn [mbind option_bind].
  replace (DateFromTime t + index (getFirstWeekDayInMonth (DateAt t)) + -1)
    with (DateFromTime t + index (getFirstWeekDayInMonth (DateAt t)) - 1) by lia.
  destruct (Z.leb_spec 0 (DateFromTime t + index (getFirstWeekDayInMonth (DateAt t)) - 1));
    [reflexivity|lia].
Qed.

Lemma plain_previous_cells pm (a b : Z) :
  Forall (plain "previous") ((fun day : Z => newDayDiv "previous" day pm) <$> seqZ a b).
Proof. apply Forall_fmap, Forall_forall. intros day _. apply newDayDiv_previous. Qed.

Lemma plain_current_cells d (b : Z) :
  Forall (plain "current") ((fun i : Z => newDayDiv "current" (i + 1) d) <$> seqZ 0 b).
Proof. apply Forall_fmap, Forall_forall. intros day _. apply newDayDiv_current. Qed.

Lemma plain_next_cells d (b : Z) :
  Forall (plain "next") ((fun i : Z => newDayDiv "next" (i + 1) d) <$> seqZ 0 b).
Proof. apply Forall_fmap, Forall_forall. intros day _. apply newDayDiv_next. Qed.

(** X8. [createCalendarGrid] throws on the invalid date, whatever the
    container, the capacity and the globals. For a valid date and an empty
    container it builds max(capacity, index + days of the month) cells,
    the days counted by the global [daysInCurrentMonth], and throws exactly
    when that leaves no cell number [getDate() + index - 1] to mark. *)
Theorem createCalendarGrid_throws_or_fills now g t container gridItemAmount :
  createCalendarGrid now g InvalidDate container gridItemAmount = None /\
  let idx := index (getFirstWeekDayInMonth (DateAt t)) in
  let k := DateFromTime t + idx - 1 in
  let total := Z.max gridItemAmount (idx + Z.max 0 (daysInCurrentMonth g)) in
  (total <= k -> createCalendarGrid now g (DateAt t) [] gridItemAmount = None) /\
  (k < total ->
   exists grid,
     createCalendarGrid now g (DateAt t) [] gridItemAmount = Some grid /\
     Z.of_nat (length grid) = total).
Proof.
  split; [reflexivity|]. cbv zeta.
  destruct (createCalendarGrid_cells now g t gridItemAmount) as (n & _ & _ & Hgrid).
  cbv zeta in Hgrid. pose proof (index_range (DateAt t)) as Hidx.
  match type of Hgrid with
  | _ = if _ <? Z.of_nat (length ?cells) then _ else _ =>
      assert (Hcells : Z.of_nat (length cells)
                = Z.max gridItemAmount
                    (index (getFirstWeekDayInMonth (DateAt t))
                     + Z.max 0 (daysInCurrentMonth g)))
  end.
  { rewrite !length_app, !length_fmap, !length_seqZ. lia. }
  rewrite Hgrid, Hcells. split; intros Hk.
  - destruct (Z.ltb_spec (DateFromTime t + index (getFirstWeekDayInMonth (DateAt t)) - 1)
                (Z.max gridItemAmount (index (getFirstWeekDayInMonth (DateAt t))
                                       + Z.max 0 (daysInCurrentMonth g)))); [lia|reflexivity].
  - destruct (Z.ltb_spec (DateFromTime t + index (getFirstWeekDayInMonth (DateAt t)) - 1)
                (Z.max gridItemAmount (index (getFirstWeekDayInMonth (DateAt t))
                                       + Z.max 0 (daysInCurrentMonth g)))); [|lia].
    eexists. split; [reflexivity|]. rewrite length_alter. exact Hcells.
Qed.

Lemma newDayDiv_fields type day month :
  dayNumber (newDayDiv type day month) = day /\
  dataset_date (newDayDiv type day month)
  = Some (getDateString (Num day) (num_add (getMonth month) 1) (getFullYear month)).
Proof. split; reflexivity. Qed.

Lemma add_class_fields token div :
  dayNumber (add_class token div) = dayNumber div /\
  dataset_date (add_class token div) = dataset_date div /\
  forall c, c ∈ classList div -> c ∈ classList (add_class token div).
Proof.
  repeat split. intros c Hc. unfold add_class, classList_add. cbn [classList].
  case_bool_decide; [assumption|]. apply elem_of_app. now left.
Qed.

(** X9. The layout of the grid built for a valid date into an empty container,
    when it is built: cell [j] below the index of the first weekday is a
    "previous" cell; the next [daysInCurrentMonth] cells are the "current"
    cells of the days 1, 2, ... with the date strings of the month and
    year of the date; the cells after them are the "next" cells of the
    days 1, 2, ... with the date strings of the global [nextMonth]. *)
Theorem createCalendarGrid_layout now g t gridItemAmount :
  let idx := index (getFirstWeekDayInMonth (DateAt t)) in
  let days := Z.max 0 (daysInCurrentMonth g) in
  DateFromTime t + idx - 1 < Z.max gridItemAmount (idx + days) ->
  exists grid,
    createCalendarGrid now g (DateAt t) [] gridItemAmount = Some grid /\
    forall (i : nat) div, grid !! i = Some div ->
      let j := Z.of_nat i in
      (j < idx -> "previous" ∈ classList div) /\
      (idx <= j < idx + days ->
         "current" ∈ classList div /\ dayNumber div = j - idx + 1 /\
         dataset_date div
         = Some (getDateString (Num (j - idx + 1)) (Num (MonthFromTime t + 1))
                               (Num (YearFromTime t)))) /\
      (idx + days <= j ->
         "next" ∈ classList div /\ dayNumber div = j - idx - days + 1 /\
         dataset_date div
         = Some (getDateString (Num (j - idx - days + 1))
                               (num_add (getMonth (nextMonth g)) 1)
                               (getFullYear (nextMonth g)))).
Proof.
  cbv zeta. intros Hk.
  destruct (createCalendarGrid_cells now g t gridItemAmount) as (n & _ & _ & Hgrid).
  cbv zeta in Hgrid. pose proof (index_range (DateAt t)) as Hidx.
  set (idx := index (getFirstWeekDayInMonth (DateAt t))) in *.
  set (previous := (fun day : Z => newDayDiv "previous" day _) <$> _) in *.
  set (current := (fun i : Z => newDayDiv "current" (i + 1) (DateAt t)) <$> _) in *.
  set (next := (fun i : Z => newDayDiv "next" (i + 1) (nextMonth g)) <$> _) in *.
  assert (Lp : length previous = Z.to_nat idx)
    by (unfold previous; now rewrite length_fmap, length_seqZ).
  assert (Lc : length current = Z.to_nat (daysInCurrentMonth g))
    by (unfold current; now rewrite length_fmap, length_seqZ).
  assert (Ln : Z.of_nat (length ((previous ++ current) ++ next)%list)
               = Z.max gridItemAmount (idx + Z.max 0 (daysInCurrentMonth g))).
  { unfold next. rewrite !length_app, length_fmap, length_seqZ. lia. }
  rewrite Hgrid, Ln.
  destruct (Z.ltb_spec (DateFromTime t + idx - 1)
              (Z.max gridItemAmount (idx + Z.max 0 (daysInCurrentMonth g)))); [|lia].
  eexists. split; [reflexivity|]. intros i div Hi.
  assert (Hcell : exists cell, ((previous ++ current) ++ next)%list !! i = Some cell /\
            dayNumber div = dayNumber cell /\ dataset_date div = dataset_date cell /\
            forall c, c ∈ classList cell -> c ∈ classList div).
  { destruct (decide (i = Z.to_nat (DateFromTime t + idx - 1))) as [->|Hne].
    - rewrite list_lookup_alter_eq in Hi.
      destruct (_ !! Z.to_nat (DateFromTime t + idx - 1)) as [cell|]; [|discriminate].
      cbn [fmap option_fmap option_map] in Hi. apply (inj Some) in Hi. subst div.
      exists cell. split; [reflexivity|].
      apply add_class_fields.
    - rewrite list_lookup_alter_ne in Hi by congruence. exists div. auto. }
  destruct Hcell as (cell & Hcell & -> & -> & Hclass). clear Hi.
  split; [|split]; intros Hj.
  - apply Hclass. rewrite lookup_app_l, lookup_app_l in Hcell by (rewrite ?length_app; lia).
    apply list_elem_of_lookup_2 in Hcell.
    pose proof (plain_previous_cells (setMonth (DateAt now) (Num (MonthFromTime t + -1)))
                  (n - idx + 1) idx) as Hp.
    rewrite Forall_forall in Hp. rewrite (Hp cell Hcell). apply elem_of_cons; right.
    now apply elem_of_cons; left.
  - rewrite lookup_app_l, lookup_app_r in Hcell by (rewrite ?length_app; lia).
    unfold current in Hcell. rewrite list_lookup_fmap in Hcell.
    rewrite (lookup_seqZ_lt 0 (daysInCurrentMonth g) (i - length previous)) in Hcell by lia.
    cbn [fmap option_fmap option_map] in Hcell. apply (inj Some) in Hcell. subst cell.
    replace (0 + Z.of_nat (i - length previous) + 1) with (Z.of_nat i - idx + 1) by lia.
    destruct (newDayDiv_fields "current" (Z.of_nat i - idx + 1) (DateAt t)) as [-> ->].
    split; [|split; reflexivity].
    apply Hclass. rewrite newDayDiv_current. apply elem_of_cons; right.
    now apply elem_of_cons; left.
  - rewrite lookup_app_r in Hcell by (rewrite length_app; lia).
    unfold next in Hcell. rewrite list_lookup_fmap in Hcell.
    destruct (seqZ 0 _ !! (i - length (previous ++ current)%list)%nat) as [m|] eqn:Hm;
      [|discriminate].
    apply lookup_seqZ in Hm as [-> _].
    cbn [fmap option_fmap option_map] in Hcell. apply (inj Some) in Hcell. subst cell.
    rewrite length_app.
    replace (0 + Z.of_nat (i - (length previous + length current)) + 1)
      with (Z.of_nat i - idx - Z.max 0 (daysInCurrentMonth g) + 1) by lia.
    destruct (newDayDiv_fields "next" (Z.of_nat i - idx - Z.max 0 (daysInCurrentMonth g) + 1)
                (nextMonth g)) as [-> ->].
    split; [|split; reflexivity].
    apply Hclass. rewrite newDayDiv_next. apply elem_of_cons; right.
    now apply elem_of_cons; left.
Qed.

Lemma plain_not_today type div : type <> "today" -> plain type div -> "today" ∉ classList div.
Proof.
  unfold plain. intros Hne -> Hin.
  apply elem_of_cons in Hin as [Hin|Hin]; [discriminate|].
  apply elem_of_cons in Hin as [Hin|Hin]; [congruence|].
  now apply not_elem_of_nil in Hin.
Qed.

(** X10. Called on a container that already has the child number
    [getDate() + index - 1], for a valid date, [createCalendarGrid] does
    not throw and starts no new grid: it appends its cells after the old
    children, fewer "next" cells the more children there were, and marks
    the OLD child of that number as today; none of the cells it appends is
    marked. *)
Theorem createCalendarGrid_into_children now g t container gridItemAmount :
  let idx := index (getFirstWeekDayInMonth (DateAt t)) in
  let k := DateFromTime t + idx - 1 in
  let days := Z.max 0 (daysInCurrentMonth g) in
  k < Z.of_nat (length container) ->
  exists appended,
    createCalendarGrid now g (DateAt t) container gridItemAmount
    = Some (alter (add_class "today") (Z.to_nat k) container ++ appended)%list /\
    Z.of_nat (length appended)
    = idx + days + Z.max 0 (gridItemAmount - Z.of_nat (length container) - idx - days) /\
    Forall (fun div => "today" ∉ classList div) appended.
Proof.
  cbv zeta. intros Hk.
  destruct (createCalendarGrid_cells_into now g t container gridItemAmount)
    as (n & _ & _ & Hgrid).
  cbv zeta in Hgrid. pose proof (index_range (DateAt t)) as Hidx.
  pose proof (DateFromTime_range t) as Hdt.
  set (idx := index (getFirstWeekDayInMonth (DateAt t))) in *.
  set (previous := (fun day : Z => newDayDiv "previous" day _) <$> _) in *.
  set (current := (fun i : Z => newDayDiv "current" (i + 1) (DateAt t)) <$> _) in *.
  set (next := (fun i : Z => newDayDiv "next" (i + 1) (nextMonth g)) <$> _) in *.
  assert (Lp : length previous = Z.to_nat idx)
    by (unfold previous; now rewrite length_fmap, length_seqZ).
  assert (Lc : length current = Z.to_nat (daysInCurrentMonth g))
    by (unfold current; now rewrite length_fmap, length_seqZ).
  assert (Ln : Z.of_nat (length next)
               = Z.max 0 (gridItemAmount - Z.of_nat (length container) - idx
                          - Z.max 0 (daysInCurrentMonth g))).
  { unfold next. rewrite length_fmap, length_seqZ, !length_app. lia. }
  exists ((previous ++ current) ++ next)%list. split; [|split].
  - rewrite Hgrid.
    destruct (Z.ltb_spec (DateFromTime t + idx - 1)
                (Z.of_nat (length (((container ++ previous) ++ current) ++ next)%list)))
      as [_|Hge]; [|rewrite !length_app in Hge; lia].
    apply (f_equal Some). rewrite <- !app_assoc.
    apply alter_app_l. lia.
  - rewrite !length_app. lia.
  - clear Hgrid. rewrite !Forall_app. split; [split|].
    + eapply Forall_impl; [apply plain_previous_cells|].
      intros div. apply plain_not_today. discriminate.
    + eapply Forall_impl; [apply plain_current_cells|].
      intros div. apply plain_not_today. discriminate.
    + eapply Forall_impl; [apply plain_next_cells|].
      intros div. apply plain_not_today. discriminate.
Qed.

(** The grid of May 2024, asked for on 31 May 2024 with 35 cells. *)
Lemma createCalendarGrid_layout_witness :
  DateFromTime may31_2024 + index (getFirstWeekDayInMonth (DateAt may31_2024)) - 1
  < Z.max 35 (index (getFirstWeekDayInMonth (DateAt may31_2024))
              + Z.max 0 (daysInCurrentMonth globals_may2024)) /\
  exists grid,
    createCalendarGrid may31_2024 globals_may2024 (DateAt may31_2024) [] 35 = Some grid /\
    forall (i : nat) div, grid !! i = Some div ->
      let j := Z.of_nat i in
      let idx := index (getFirstWeekDayInMonth (DateAt may31_2024)) in
      let days := Z.max 0 (daysInCurrentMonth globals_may2024) in
      (j < idx -> "previous" ∈ classList div) /\
      (idx <= j < idx + days ->
         "current" ∈ classList div /\ dayNumber div = j - idx + 1 /\
         dataset_date div
         = Some (getDateString (Num (j - idx + 1)) (Num (MonthFromTime may31_2024 + 1))
                               (Num (YearFromTime may31_2024)))) /\
      (idx + days <= j ->
         "next" ∈ classList div /\ dayNumber div = j - idx - days + 1 /\
         dataset_date div
         = Some (getDateString (Num (j - idx - days + 1))
                               (num_add (getMonth (nextMonth globals_may2024)) 1)
                               (getFullYear (nextMonth globals_may2024)))).
Proof.
  assert (H : DateFromTime may31_2024
              + index (getFirstWeekDayInMonth (DateAt may31_2024)) - 1
              < Z.max 35 (index (getFirstWeekDayInMonth (DateAt may31_2024))
                          + Z.max 0 (daysInCurrentMonth globals_may2024)))
    by (vm_compute; reflexivity).
  split; [exact H|].
  exact (createCalendarGrid_layout may31_2024 globals_may2024 may31_2024 35 H).
Defined.

(** A second call on the container the first call filled. *)
Lemma createCalendarGrid_into_children_witness :
  DateFromTime may31_2024 + index (getFirstWeekDayInMonth (DateAt may31_2024)) - 1
  < Z.of_nat (length grid_may2024) /\
  exists appended,
    createCalendarGrid may10_2024 globals_may2024 (DateAt may31_2024) grid_may2024 35
    = Some (alter (add_class "today")
              (Z.to_nat (DateFromTime may31_2024
                         + index (getFirstWeekDayInMonth (DateAt may31_2024)) - 1))
              grid_may2024 ++ appended)%list /\
    Z.of_nat (length appended)
    = index (getFirstWeekDayInMonth (DateAt may31_2024))
      + Z.max 0 (daysInCurrentMonth globals_may2024)
      + Z.max 0 (35 - Z.of_nat (length grid_may2024)
                 - index (getFirstWeekDayInMonth (DateAt may31_2024))
                 - Z.max 0 (daysInCurrentMonth globals_may2024)) /\
    Forall (fun div => "today" ∉ classList div) appended.
Proof.
  assert (H : DateFromTime may31_2024
              + index (getFirstWeekDayInMonth (DateAt may31_2024)) - 1
              < Z.of_nat (length grid_may2024))
    by (vm_compute; reflexivity).
  split; [exact H|].
  exact (createCalendarGrid_into_children may10_2024 globals_may2024 may31_2024
           grid_may2024 35 H).
Defined.

(** The grid of May 2024 built on 10 May 2024 starts with 29 and 30
    April. *)
Lemma createCalendarGrid_leading_cells_right_witness :
  createCalendarGrid may10_2024 globals_may2024 (DateAt may31_2024) [] 35
  = Some grid_may2024 /\
  DateFromTime may10_2024 <= 28 /\
  YearFromTime may10_2024 = YearFromTime may31_2024 /\
  ~ (0 <= YearFromTime may31_2024 + (MonthFromTime may31_2024 - 1) / 12 <= 99) /\
  take (Z.to_nat (index (getFirstWeekDayInMonth (DateAt may31_2024)))) grid_may2024
  = (fun day : Z =>
       mkDayDiv ["monthView_day"; "previous"] day
         (Some (getDateString (Num day) (Num ((MonthFromTime may31_2024 - 1) mod 12 + 1))
                  (Num (YearFromTime may31_2024 + (MonthFromTime may31_2024 - 1) / 12)))))
    <$> seqZ (DaysInMonth ((MonthFromTime may31_2024 - 1) mod 12)
                (leap (YearFromTime may31_2024 + (MonthFromTime may31_2024 - 1) / 12))
              - index (getFirstWeekDayInMonth (DateAt may31_2024)) + 1)
             (index (getFirstWeekDayInMonth (DateAt may31_2024))).
Proof.
  assert (H1 : createCalendarGrid may10_2024 globals_may2024 (DateAt may31_2024) [] 35
               = Some grid_may2024) by (vm_compute; reflexivity).
  assert (H2 : DateFromTime may10_2024 <= 28) by (vm_compute; discriminate).
  assert (H3 : YearFromTime may10_2024 = YearFromTime may31_2024)
    by (vm_compute; reflexivity).
  assert (H4 : ~ (0 <= YearFromTime may31_2024 + (MonthFromTime may31_2024 - 1) / 12 <= 99))
    by (vm_compute; intros [_ H]; apply H; reflexivity).
  split; [exact H1|]. split; [exact H2|]. split; [exact H3|]. split; [exact H4|].
  exact (createCalendarGrid_leading_cells_right may10_2024 globals_may2024 may31_2024 35
           grid_may2024 H1 H2 H3 H4).
Defined.

End GridInto.

(** ** The days of a month and the event lists *)

Section Days.

Lemma fold_left_fmap {A B C} (f : A -> B -> A) (g : C -> B) (l : list C) (a : A) :
  fold_left f (g <$> l) a = fold_left (fun a c => f a (g c)) l a.
Proof. revert a. induction l as [|c l IH]; intros a; [reflexivity|apply IH]. Qed.

Lemma createCalendarDayData_buildDays g (h : store) t n :
  Clipped.getDaysInMonth (DateAt t) = Num n ->
  createCalendarDayData g h (DateAt t) = buildDays g h (monthKeys (DateAt t) n).
Proof.
  intros Hn. unfold createCalendarDayData, buildDays, monthKeys. cbv zeta.
  rewrite Hn. now rewrite fold_left_fmap.
Qed.

Lemma constructor_eq g (h : store) dateString events :
  h !! g = Some events ->
  CalendarDay.constructor g h dateString
  = Some (<[fresh (dom h) := shown dateString events]> h,
          CalendarDay.mk dateString (Some (fresh (dom h)))).
Proof.
  intros Hg. unfold CalendarDay.constructor. cbv zeta.
  now rewrite (refreshEventList_eq g h _ events Hg).
Qed.

Lemma fresh_not_allocated (h : store) l : is_Some (h !! l) -> fresh (dom h) <> l.
Proof.
  intros Hl Heq. apply elem_of_dom in Hl. rewrite <- Heq in Hl.
  now apply is_fresh in Hl.
Qed.

(** What the loop leaves: one day per date string, in order, each with an
    array of its own that holds the events it shows; the arrays there
    were are as before. *)
Lemma buildDays_spec g (h : store) events keys :
  h !! g = Some events ->
  exists h' dayList,
    buildDays g h keys = Some (h', dayList) /\
    (forall l, is_Some (h !! l) -> h' !! l = h !! l) /\
    Forall2 (fun key day =>
      CalendarDay.date day = key /\
      exists l, CalendarDay.eventList day = Some l /\ h !! l = None /\
                h' !! l = Some (shown key events)) keys dayList /\
    NoDup (CalendarDay.eventList <$> dayList).
Proof.
  intros Hg. induction keys as [|key keys IH] using rev_ind.
  - exists h, []. repeat split; [constructor|constructor].
  - destruct IH as (h1 & days & Hb & Hold & Hdays & Hnd).
    unfold buildDays in *. rewrite fold_left_app, Hb. cbn.
    assert (Hg1 : h1 !! g = Some events) by (rewrite Hold; [assumption|now exists events]).
    rewrite (constructor_eq g h1 key events Hg1). cbn.
    eexists _, _. split; [reflexivity|].
    assert (Hfresh : forall l, is_Some (h1 !! l) -> fresh (dom h1) <> l)
      by apply fresh_not_allocated.
    split; [|split].
    + intros l Hl. rewrite lookup_insert_ne; [now apply Hold|].
      apply Hfresh. rewrite Hold; assumption.
    + apply Forall2_app.
      * eapply Forall2_impl; [exact Hdays|]. cbn.
        intros k day (Hk & l & Hl & Hnone & Hsome). split; [assumption|].
        exists l. repeat split; try assumption.
        rewrite lookup_insert_ne; [assumption|]. apply Hfresh. now rewrite Hsome.
      * constructor; [|constructor]. cbn. split; [reflexivity|].
        exists (fresh (dom h1)). repeat split.
        -- destruct (h !! fresh (dom h1)) eqn:E; [|reflexivity].
           exfalso. apply (Hfresh (fresh (dom h1))); [|reflexivity].
           rewrite Hold; [now rewrite E|now rewrite E].
        -- apply lookup_insert_eq.
    + rewrite fmap_app. cbn. apply NoDup_app. split; [assumption|]. split.
      * intros x Hx Hx'. apply list_elem_of_singleton in Hx'. subst x.
        apply list_elem_of_fmap in Hx as (day & Heq & Hin).
        apply list_elem_of_lookup in Hin as [i Hi].
        destruct (Forall2_lookup_r _ _ _ _ _ Hdays Hi) as (k & _ & _ & l & Hl & _ & Hsome).
        rewrite Hl in Heq. injection Heq as Heq.
        apply (Hfresh l); [now rewrite Hsome|assumption].
      * apply NoDup_singleton.
Qed.

Lemma same_key_date day obj :
  same_key (CalendarDay.mk (CalendarDay.date day) None) obj <-> same_key day obj.
Proof. reflexivity. Qed.

(** X11. For a date before September 275760, a global that refers to an
    array and events whose start times begin with an hour,
    [createCalendarDayData] returns one day per day of the month (28 to
    31): day [i] has the date string of day [i + 1] of the month and year
    of the date and shows the events of the collection with that date
    key, in ascending order of the hour, events of equal hour in the
    order of the collection; every day has an array of its own, and the
    collection and the other arrays there were are unchanged. *)
Theorem createCalendarDayData_days g (h : store) t events :
  h !! g = Some events ->
  in_time_range t -> t < lastMonthStart ->
  Forall (fun obj => is_Some (hour_prefix (CalendarEvent.startTime obj))) events ->
  exists n h' dayList,
    Clipped.getDaysInMonth (DateAt t) = Num n /\ 28 <= n <= 31 /\
    createCalendarDayData g h (DateAt t) = Some (h', dayList) /\
    length dayList = Z.to_nat n /\
    (forall (i : nat) day, dayList !! i = Some day ->
       CalendarDay.date day
       = getDateString (Num (Z.of_nat i + 1)) (Num (MonthFromTime t + 1))
                       (Num (YearFromTime t)) /\
       exists v,
         CalendarDay.view h' day = Some v /\
         v ≡ₚ filter (same_key day) events /\
         StronglySorted hour_ordered v /\
         forall k,
           filter (fun obj => hour_prefix (CalendarEvent.startTime obj) = Some k) v
           = filter (fun obj => hour_prefix (CalendarEvent.startTime obj) = Some k)
               (filter (same_key day) events)) /\
    h' !! g = Some events /\
    (forall l, is_Some (h !! l) -> h' !! l = h !! l) /\
    NoDup (CalendarDay.eventList <$> dayList).
Proof.
  intros Hg Hr Hlt Hhours.
  destruct (Clipped_getDaysInMonth_range t Hr Hlt) as (n & Hn & Hrange).
  destruct (buildDays_spec g h events (monthKeys (DateAt t) n) Hg)
    as (h' & dayList & Hb & Hold & Hdays & Hnd).
  exists n, h', dayList. split; [assumption|]. split; [assumption|].
  split; [now rewrite (createCalendarDayData_buildDays g h t n Hn)|].
  split; [|split; [|split; [|split]]].
  - apply Forall2_length in Hdays. rewrite <- Hdays. unfold monthKeys.
    now rewrite length_fmap, length_seqZ.
  - intros i day Hi.
    destruct (Forall2_lookup_r _ _ _ _ _ Hdays Hi) as (key & Hkey & Hdate & l & Hl & _ & Hv).
    unfold monthKeys in Hkey. rewrite list_lookup_fmap in Hkey.
    destruct (seqZ 0 n !! i) as [j|] eqn:Hj; [|discriminate].
    apply lookup_seqZ in Hj as [-> _]. cbn in Hkey. injection Hkey as <-.
    split; [rewrite Hdate; reflexivity|].
    exists (shown (CalendarDay.date day) events).
    split; [unfold CalendarDay.view; rewrite Hl; cbn; now rewrite Hv, Hdate|].
    destruct (sorted_matching_spec (CalendarDay.mk (CalendarDay.date day) None) events)
      as (Hp & Hs & Hst).
    { intros obj Hin _. rewrite Forall_forall in Hhours. now apply Hhours. }
    rewrite (list_filter_iff _ (same_key day) events (same_key_date day)) in Hp, Hst.
    split; [exact Hp|]. split; [exact Hs|exact Hst].
  - rewrite Hold; [assumption|now exists events].
  - assumption.
  - assumption.
Qed.

Lemma sample_collection_all_hours :
  Forall (fun obj => is_Some (hour_prefix (CalendarEvent.startTime obj))) sample_collection.
Proof.
  repeat (apply Forall_cons; split; [eexists; reflexivity|]). apply Forall_nil_2.
Defined.

(** The store of the sample collection and 15 March 2023. *)
Lemma createCalendarDayData_days_witness :
  sample_store !! 1%positive = Some sample_collection /\
  in_time_range march15_2023 /\ march15_2023 < lastMonthStart /\
  Forall (fun obj => is_Some (hour_prefix (CalendarEvent.startTime obj))) sample_collection /\
  exists n h' dayList,
    Clipped.getDaysInMonth (DateAt march15_2023) = Num n /\ 28 <= n <= 31 /\
    createCalendarDayData 1%positive sample_store (DateAt march15_2023) = Some (h', dayList) /\
    length dayList = Z.to_nat n /\
    (forall (i : nat) day, dayList !! i = Some day ->
       CalendarDay.date day
       = getDateString (Num (Z.of_nat i + 1)) (Num (MonthFromTime march15_2023 + 1))
                       (Num (YearFromTime march15_2023)) /\
       exists v,
         CalendarDay.view h' day = Some v /\
         v ≡ₚ filter (same_key day) sample_collection /\
         StronglySorted hour_ordered v /\
         forall k,
           filter (fun obj => hour_prefix (CalendarEvent.startTime obj) = Some k) v
           = filter (fun obj => hour_prefix (CalendarEvent.startTime obj) = Some k)
               (filter (same_key day) sample_collection)) /\
    h' !! 1%positive = Some sample_collection /\
    (forall l, is_Some (sample_store !! l) -> h' !! l = sample_store !! l) /\
    NoDup (CalendarDay.eventList <$> dayList).
Proof.
  assert (H : sample_store !! 1%positive = Some sample_collection) by reflexivity.
  assert (H2 : in_time_range march15_2023) by (vm_compute; split; discriminate).
  assert (H3 : march15_2023 < lastMonthStart) by (vm_compute; reflexivity).
  split; [exact H|]. split; [exact H2|]. split; [exact H3|].
  split; [exact sample_collection_all_hours|].
  exact (createCalendarDayData_days 1%positive sample_store march15_2023 sample_collection
           H H2 H3 sample_collection_all_hours).
Defined.

Lemma buildDays_no_collection g (h : store) key keys :
  h !! g = None -> buildDays g h (key :: keys) = None.
Proof.
  intros Hg. unfold buildDays. cbn.
  unfold CalendarDay.constructor, CalendarDay.refreshEventList. cbv zeta.
  rewrite Hg. cbn. induction keys as [|k keys IH]; [reflexivity|exact IH].
Qed.

(** X12. When the global refers to no array, [createCalendarDayData] throws
    for every date before September 275760, on its first day. From
    1 September 275760 on, and for the invalid date, the number of days
    is NaN: it builds no day, reads nothing and returns the empty
    list. *)
Theorem createCalendarDayData_no_collection g (h : store) t :
  h !! g = None ->
  in_time_range t ->
  (t < lastMonthStart -> createCalendarDayData g h (DateAt t) = None) /\
  (lastMonthStart <= t -> createCalendarDayData g h (DateAt t) = Some (h, [])) /\
  createCalendarDayData g h InvalidDate = Some (h, []).
Proof.
  intros Hg Hr. split; [|split; [|reflexivity]].
  - intros Hlt. destruct (Clipped_getDaysInMonth_range t Hr Hlt) as (n & Hn & Hrange).
    rewrite (createCalendarDayData_buildDays g h t n Hn). unfold monthKeys.
    rewrite (seqZ_cons 0 n) by lia. cbn [fmap list_fmap].
    now apply buildDays_no_collection.
  - intros Hge. unfold createCalendarDayData. cbv zeta.
    now rewrite (Clipped_getDaysInMonth_NaN t Hr Hge).
Qed.

Lemma createCalendarDayData_no_collection_witness :
  sample_store !! 7%positive = None /\
  in_time_range march15_2023 /\
  (march15_2023 < lastMonthStart ->
   createCalendarDayData 7%positive sample_store (DateAt march15_2023) = None) /\
  (lastMonthStart <= march15_2023 ->
   createCalendarDayData 7%positive sample_store (DateAt march15_2023)
   = Some (sample_store, [])) /\
  createCalendarDayData 7%positive sample_store InvalidDate = Some (sample_store, []).
Proof.
  assert (H : sample_store !! 7%positive = None) by reflexivity.
  assert (H2 : in_time_range march15_2023) by (vm_compute; split; discriminate).
  split; [exact H|]. split; [exact H2|].
  exact (createCalendarDayData_no_collection 7%positive sample_store march15_2023 H H2).
Defined.

Lemma push_all (l : loc) (h : store) acc v :
  fold_left (fun h obj => array_push l obj h) v (<[l := acc]> h)
  = <[l := (acc ++ v)%list]> h.
Proof.
  revert acc. induction v as [|obj v IH]; intros acc; cbn.
  - now rewrite app_nil_r.
  - unfold array_push at 2. rewrite alter_insert_eq, IH. now rewrite <- app_assoc.
Qed.

Lemma push_all_constructed (l : loc) (h : store) acc v :
  fold_left (fun h obj => array_push l (CalendarEvent.constructor obj) h) v (<[l := acc]> h)
  = <[l := (acc ++ v)%list]> h.
Proof.
  revert acc. induction v as [|obj v IH]; intros acc; cbn.
  - now rewrite app_nil_r.
  - unfold array_push at 2. rewrite alter_insert_eq, IH, constructor_copies.
    now rewrite <- app_assoc.
Qed.

Lemma createEventList_eq data (h : store) :
  createEventList data h = (fresh (dom h), <[fresh (dom h) := events data]> h).
Proof.
  unfold createEventList, alloc. cbv zeta. f_equal. apply push_all_constructed.
Qed.

(** X13. [createEventList] returns a new array that holds a copy of every
    event of the data, in the order of the data; the arrays there were are
    unchanged. *)
Theorem createEventList_copies data (h : store) :
  exists l h',
    createEventList data h = (l, h') /\
    h !! l = None /\
    h' !! l = Some (CalendarEvent.constructor <$> events data) /\
    h' !! l = Some (events data) /\
    forall r, is_Some (h !! r) -> h' !! r = h !! r.
Proof.
  eexists _, _. split; [apply createEventList_eq|].
  split; [apply not_elem_of_dom, is_fresh|].
  split; [|split; [apply lookup_insert_eq|]].
  - rewrite lookup_insert_eq. f_equal. symmetry.
    rewrite <- (list_fmap_id (events data)) at 2.
    apply list_fmap_ext. intros i obj _. apply constructor_copies.
  - intros r Hr. apply lookup_insert_ne. now apply fresh_not_allocated.
Qed.

Lemma updateEventList_eq (h : store) dayList views :
  Forall2 (fun day v => CalendarDay.view h day = Some v) dayList views ->
  updateEventList h dayList
  = Some (fresh (dom h), <[fresh (dom h) := concat views]> h).
Proof.
  intros Hviews. unfold updateEventList, alloc. cbv zeta.
  set (l := fresh (dom h)).
  assert (Hfold : forall acc,
    fold_left (fun acc day =>
        h ← acc; eventList ← CalendarDay.view h day;
        Some (fold_left (fun h obj => array_push l obj h) eventList h))
      dayList (Some (<[l := acc]> h))
    = Some (<[l := (acc ++ concat views)%list]> h)).
  { induction Hviews as [|day v dayList views Hv _ IH]; intros acc; cbn.
    - now rewrite app_nil_r.
    - assert (Hv' : CalendarDay.view (<[l := acc]> h) day = Some v).
      { unfold CalendarDay.view in *. destruct (CalendarDay.eventList day) as [r|];
          [|discriminate]. cbn in *. rewrite lookup_insert_ne; [assumption|].
        apply fresh_not_allocated. now rewrite Hv. }
      rewrite Hv'. cbn. rewrite push_all, IH. now rewrite <- app_assoc. }
  now rewrite (Hfold []).
Qed.

(** X14. When every day has an event list, [updateEventList] returns a new
    array that holds the events of the days, day after day, each day's in
    its own order; the arrays there were are unchanged. *)
Theorem updateEventList_concat (h : store) dayList views :
  Forall2 (fun day v => CalendarDay.view h day = Some v) dayList views ->
  exists l h',
    updateEventList h dayList = Some (l, h') /\
    h !! l = None /\ h' !! l = Some (concat views) /\
    forall r, is_Some (h !! r) -> h' !! r = h !! r.
Proof.
  intros Hviews. eexists _, _. split; [apply (updateEventList_eq h dayList views Hviews)|].
  split; [|split].
  - apply not_elem_of_dom, is_fresh.
  - apply lookup_insert_eq.
  - intros r Hr. apply lookup_insert_ne. now apply fresh_not_allocated.
Qed.

(** A day without an event list makes [updateEventList] throw. *)
Lemma updateEventList_no_list (h : store) dayList day :
  day ∈ dayList -> CalendarDay.eventList day = None -> updateEventList h dayList = None.
Proof.
  intros Hin Hnone. unfold updateEventList, alloc. cbv zeta.
  generalize (Some (<[fresh (dom h) := []]> h)). intros acc.
  induction dayList as [|d dayList IH] in acc, Hin |- *; [now apply elem_of_nil in Hin|].
  apply elem_of_cons in Hin as [<- | Hin]; cbn.
  - assert (Hstep : (h0 ← acc; eventList ← CalendarDay.view h0 day;
                     Some (fold_left (fun h1 obj => array_push (fresh (dom h)) obj h1)
                             eventList h0)) = None).
    { destruct acc; [|reflexivity]. cbn. unfold CalendarDay.view. now rewrite Hnone. }
    rewrite Hstep. clear. induction dayList as [|d' dayList IH]; [reflexivity|exact IH].
  - now apply IH.
Qed.

Lemma filter_or_disjoint {A} (P Q : A -> Prop) `{!forall x, Decision (P x)}
    `{!forall x, Decision (Q x)} (l : list A) :
  (forall x, P x -> Q x -> False) ->
  filter (fun x => P x \/ Q x) l ≡ₚ (filter P l ++ filter Q l)%list.
Proof.
  intros Hdis. induction l as [|x l IH]; [reflexivity|].
  rewrite !filter_cons.
  destruct (decide (P x)) as [HP|HP], (decide (Q x)) as [HQ|HQ].
  - exfalso. eauto.
  - rewrite decide_True by auto. cbn. now rewrite IH.
  - rewrite decide_True by auto. rewrite IH. apply Permutation_middle.
  - rewrite decide_False by tauto. exact IH.
Qed.

(** The events whose key is one of distinct [keys], gathered key by key. *)
Lemma concat_filter_keys {A} (f : A -> string) (keys : list string) (l : list A) :
  NoDup keys ->
  concat ((fun k => filter (fun x => f x = k) l) <$> keys)
  ≡ₚ filter (fun x => f x ∈ keys) l.
Proof.
  induction 1 as [|k keys Hk Hnd IH]; cbn.
  - induction l as [|x l IHl]; [reflexivity|].
    rewrite filter_cons, decide_False by apply not_elem_of_nil. exact IHl.
  - rewrite IH, <- (filter_or_disjoint (fun x => f x = k) (fun x => f x ∈ keys)).
    + erewrite list_filter_iff; [reflexivity|].
      intros x. cbn. rewrite elem_of_cons. reflexivity.
    + intros x <- Hin. contradiction.
Qed.

Lemma monthKeys_NoDup t n : n <= 31 -> NoDup (monthKeys (DateAt t) n).
Proof.
  intros Hn. unfold monthKeys. pose proof (MonthFromTime_range t) as Hm.
  apply NoDup_fmap_2_strong; [|apply NoDup_seqZ].
  intros i j Hi Hj Heq. apply elem_of_seqZ in Hi, Hj.
  cbn [getMonth getFullYear num_add] in Heq.
  apply getDateString_injective in Heq; lia.
Qed.

Lemma shown_Permutation key events :
  trim key = key ->
  shown key events ≡ₚ filter (fun obj => trim (CalendarEvent.date obj) = key) events.
Proof.
  intros Hkey. unfold shown. rewrite sorted_by_Permutation.
  rewrite (List_filter_filter _ (same_date (CalendarDay.mk key None)))
    by (intros; apply matches_same_date).
  erewrite list_filter_iff; [reflexivity|].
  intros obj. unfold same_date. cbn [CalendarDay.date]. now rewrite Hkey.
Qed.

Lemma concat_shown keys events :
  Forall (fun key => trim key = key) keys -> NoDup keys ->
  concat ((fun key => shown key events) <$> keys)
  ≡ₚ filter (fun obj => trim (CalendarEvent.date obj) ∈ keys) events.
Proof.
  intros Hkeys Hnd. rewrite <- (concat_filter_keys _ keys events Hnd).
  clear Hnd. induction Hkeys as [|key keys Hkey _ IH]; [reflexivity|].
  cbn. now rewrite IH, (shown_Permutation key events Hkey).
Qed.

(** X15. The events of the month come back. Out of external data,
    [createEventList] makes the collection, [createCalendarDayData] the
    days of the month of a date before September 275760, and
    [updateEventList] a new list out of these days: that list holds, up
    to order, the events of the data whose date, stripped of blanks, is
    the date string of a day of the month, and no other; the collection
    itself is still as [createEventList] made it. *)
Theorem updateEventList_keeps_the_month data (h : store) t :
  in_time_range t -> t < lastMonthStart ->
  exists n g h1 h2 dayList l h3 newEventList,
    Clipped.getDaysInMonth (DateAt t) = Num n /\
    createEventList data h = (g, h1) /\
    createCalendarDayData g h1 (DateAt t) = Some (h2, dayList) /\
    updateEventList h2 dayList = Some (l, h3) /\
    h3 !! l = Some newEventList /\
    (newEventList
     ≡ₚ filter (fun obj => strip (CalendarEvent.date obj) ∈ monthKeys (DateAt t) n)
          (events data)) /\
    h3 !! g = Some (events data) /\ l <> g.
Proof.
  intros Hr Hlt.
  set (g := fresh (dom h)). set (h1 := <[g := events data]> h).
  assert (Hg : h1 !! g = Some (events data)) by apply lookup_insert_eq.
  destruct (Clipped_getDaysInMonth_range t Hr Hlt) as (n & Hn & Hrange).
  destruct (buildDays_spec g h1 (events data) (monthKeys (DateAt t) n) Hg)
    as (h2 & dayList & Hb & Hold2 & Hdays & _).
  assert (Hg2 : h2 !! g = Some (events data))
    by (rewrite Hold2; [assumption|now exists (events data)]).
  assert (Hviews : Forall2 (fun day v => CalendarDay.view h2 day = Some v) dayList
                     ((fun key => shown key (events data)) <$> monthKeys (DateAt t) n)).
  { apply Forall2_fmap_r, Forall2_flip.
    eapply Forall2_impl; [exact Hdays|]. cbn.
    intros key day (Hdate & l & Hl & _ & Hv).
    unfold CalendarDay.view. rewrite Hl. exact Hv. }
  exists n, g, h1, h2, dayList, (fresh (dom h2)),
    (<[fresh (dom h2) := concat ((fun key => shown key (events data))
                                   <$> monthKeys (DateAt t) n)]> h2),
    (concat ((fun key => shown key (events data)) <$> monthKeys (DateAt t) n)).
  split; [assumption|]. split; [apply createEventList_eq|].
  split; [now rewrite (createCalendarDayData_buildDays g h1 t n Hn)|].
  split; [apply (updateEventList_eq h2 dayList _ Hviews)|].
  split; [apply lookup_insert_eq|].
  assert (Hfresh : fresh (dom h2) <> g)
    by (apply fresh_not_allocated; now exists (events data)).
  split; [|split; [|assumption]].
  - rewrite <- (list_filter_iff
                  (fun obj => trim (CalendarEvent.date obj) ∈ monthKeys (DateAt t) n) _
                  (events data))
      by (intros obj; now rewrite trim_strip).
    apply concat_shown; [|apply monthKeys_NoDup; lia].
    unfold monthKeys. apply Forall_fmap, Forall_forall. intros i _. cbn.
    apply getDateString_trim.
  - now rewrite lookup_insert_ne.
Qed.

(** The sample collection as external data, and 15 March 2023. *)
Lemma updateEventList_keeps_the_month_witness :
  in_time_range march15_2023 /\ march15_2023 < lastMonthStart /\
  exists n g h1 h2 dayList l h3 newEventList,
    Clipped.getDaysInMonth (DateAt march15_2023) = Num n /\
    createEventList (mkEventData sample_collection) ∅ = (g, h1) /\
    createCalendarDayData g h1 (DateAt march15_2023) = Some (h2, dayList) /\
    updateEventList h2 dayList = Some (l, h3) /\
    h3 !! l = Some newEventList /\
    (newEventList
     ≡ₚ filter (fun obj => strip (CalendarEvent.date obj)
                           ∈ monthKeys (DateAt march15_2023) n)
          (events (mkEventData sample_collection))) /\
    h3 !! g = Some (events (mkEventData sample_collection)) /\ l <> g.
Proof.
  assert (H2 : in_time_range march15_2023) by (vm_compute; split; discriminate).
  assert (H3 : march15_2023 < lastMonthStart) by (vm_compute; reflexivity).
  split; [exact H2|]. split; [exact H3|].
  exact (updateEventList_keeps_the_month (mkEventData sample_collection) ∅
           march15_2023 H2 H3).
Defined.

(** One day, whose view is the array 2. *)
Lemma updateEventList_concat_witness :
  Forall2 (fun day v => CalendarDay.view sample_day_store day = Some v)
    [sample_day] [[task 2 true; reminder]] /\
  exists l h',
    updateEventList sample_day_store [sample_day] = Some (l, h') /\
    sample_day_store !! l = None /\
    h' !! l = Some (concat [[task 2 true; reminder]]) /\
    forall r, is_Some (sample_day_store !! r) -> h' !! r = sample_day_store !! r.
Proof.
  assert (H : Forall2 (fun day v => CalendarDay.view sample_day_store day = Some v)
                [sample_day] [[task 2 true; reminder]]).
  { apply Forall2_cons; split; [reflexivity|apply Forall2_nil_2]. }
  split; [exact H|].
  exact (updateEventList_concat sample_day_store [sample_day] [[task 2 true; reminder]] H).
Defined.

End Days.

(** ** The summary as a sum, and the summary of [classes.js] *)

Section SummaryAlgebra.

Import CalendarDay SpecRules.

(** One turn of the loop adds to the sums what the item is worth on its
    own. *)
Lemma summary_step_add acc obj :
  summary_step acc obj = summary_add acc (summary_step (mkSummary 0 0 0 0 0) obj).
Proof.
  destruct acc as [e t f tt te]. unfold summary_step, summary_add.
  repeat match goal with
  | |- context [strict_eqb ?a ?b] => destruct (strict_eqb a b)
  end; cbn [earnedXP totalXP finishedTasks totalTasks totalEvents];
  f_equal; lia.
Qed.

Lemma summary_add_zero a : summary_add a (mkSummary 0 0 0 0 0) = a.
Proof. destruct a. unfold summary_add. cbn [earnedXP totalXP finishedTasks totalTasks totalEvents]. f_equal; lia. Qed.

Lemma summary_add_assoc a b c :
  summary_add (summary_add a b) c = summary_add a (summary_add b c).
Proof. unfold summary_add. cbn [earnedXP totalXP finishedTasks totalTasks totalEvents]. f_equal; lia. Qed.

Lemma summary_add_comm a b : summary_add a b = summary_add b a.
Proof. unfold summary_add. f_equal; lia. Qed.

Lemma fold_summary_step l acc :
  fold_left summary_step l acc = summary_add acc (calculateSummary l).
Proof.
  unfold calculateSummary. revert acc.
  induction l as [|obj l IH] using rev_ind; intros acc.
  - cbn [fold_left]. now rewrite summary_add_zero.
  - rewrite !fold_left_app. cbn [fold_left]. rewrite IH.
    rewrite (summary_step_add (summary_add acc _)), (summary_step_add (fold_left _ _ _)).
    apply summary_add_assoc.
Qed.

(** X16. The summary of two views put one after the other is the field-wise
    sum of their summaries: no item is counted by its position or by what
    precedes it. *)
Theorem calculateSummary_app l l' :
  calculateSummary (l ++ l')%list = summary_add (calculateSummary l) (calculateSummary l').
Proof.
  unfold calculateSummary at 1. rewrite fold_left_app.
  fold (calculateSummary l). apply fold_summary_step.
Qed.

Lemma calculateSummary_cons obj l :
  calculateSummary (obj :: l)
  = summary_add (summary_step (mkSummary 0 0 0 0 0) obj) (calculateSummary l).
Proof.
  unfold calculateSummary at 1. cbn [fold_left]. apply fold_summary_step.
Qed.

(** X17. The summary does not depend on the order of the view: the sort of
    [refreshEventList] has no influence on it. *)
Theorem calculateSummary_Permutation l l' :
  l ≡ₚ l' -> calculateSummary l = calculateSummary l'.
Proof.
  induction 1 as [|x l l' _ IH|x y l|l l' l'' _ IH1 _ IH2].
  - reflexivity.
  - rewrite !calculateSummary_cons. now rewrite IH.
  - rewrite !calculateSummary_cons, <- !summary_add_assoc.
    f_equal. apply summary_add_comm.
  - now rewrite IH1.
Qed.

Lemma calculateSummary_Permutation_witness :
  [task 2 true; reminder; task 3 false] ≡ₚ [reminder; task 3 false; task 2 true] /\
  calculateSummary [task 2 true; reminder; task 3 false]
  = calculateSummary [reminder; task 3 false; task 2 true].
Proof.
  assert (H : [task 2 true; reminder; task 3 false]
              ≡ₚ [reminder; task 3 false; task 2 true]).
  { change ([task 2 true] ++ [reminder; task 3 false]
            ≡ₚ [reminder; task 3 false] ++ [task 2 true])%list.
    apply Permutation_app_comm. }
  split; [exact H|].
  exact (calculateSummary_Permutation _ _ H).
Defined.

Lemma summary_step_tasks acc obj :
  known_type obj ->
  0 <= finishedTasks acc <= totalTasks acc ->
  0 <= totalEvents acc ->
  totalXP acc <= 750 * totalTasks acc ->
  let r := summary_step acc obj in
  0 <= finishedTasks r <= totalTasks r /\ 0 <= totalEvents r /\
  totalXP r <= 750 * totalTasks r /\
  totalTasks r + totalEvents r <= totalTasks acc + totalEvents acc + 1.
Proof.
  intros Hk Hf He Hx. cbv zeta. rewrite (summary_step_known acc obj Hk).
  unfold rule_step.
  pose proof (xp_of_difficulty_nonneg (CalendarEvent.difficulty obj)) as H0.
  assert (H750 : xp_of_difficulty (CalendarEvent.difficulty obj) <= 750).
  { unfold xp_of_difficulty.
    destruct (CalendarEvent.difficulty obj) as [| | |[|z]|]; try lia.
    destruct z as [|p|p]; try lia.
    destruct p as [[p|p|]|[p|p|]|]; lia. }
  destruct Hk as [Ht|[Ht|Ht]]; rewrite Ht;
    try destruct (is_finished obj);
    cbn [earnedXP totalXP finishedTasks totalTasks totalEvents]; lia.
Qed.

(** X18. On a view of tasks, events and reminders only, the tasks finished are
    among the tasks counted, tasks and events together are no more than
    the items of the view, and the XP available is at most 750 for each
    task. *)
Theorem calculateSummary_tasks_bound l :
  Forall known_type l ->
  let s := calculateSummary l in
  0 <= finishedTasks s <= totalTasks s /\
  0 <= totalEvents s /\
  totalTasks s + totalEvents s <= Z.of_nat (length l) /\
  earnedXP s <= totalXP s <= 750 * totalTasks s.
Proof.
  intros Hl. cbv zeta.
  enough (H : 0 <= finishedTasks (calculateSummary l) <= totalTasks (calculateSummary l) /\
              0 <= totalEvents (calculateSummary l) /\
              totalXP (calculateSummary l) <= 750 * totalTasks (calculateSummary l) /\
              totalTasks (calculateSummary l) + totalEvents (calculateSummary l)
              <= Z.of_nat (length l)).
  { destruct H as (H1 & H2 & H3 & H4). repeat split; try lia.
    clear. induction l as [|obj l IH] using rev_ind; [cbn; lia|].
    rewrite calculateSummary_snoc. now apply summary_step_earned_le_total. }
  induction l as [|obj l IH] using rev_ind; [cbn; lia|].
  apply Forall_app in Hl as [Hl Hobj]. apply Forall_cons in Hobj as [Hobj _].
  specialize (IH Hl). destruct IH as (H1 & H2 & H3 & H4).
  rewrite calculateSummary_snoc, length_app. cbn [length].
  pose proof (summary_step_tasks (calculateSummary l) obj Hobj H1 H2 H3) as Hs.
  cbv zeta in Hs. lia.
Qed.

Lemma calculateSummary_tasks_bound_witness :
  Forall known_type [task 2 true; reminder; task 3 false] /\
  let s := calculateSummary [task 2 true; reminder; task 3 false] in
  0 <= finishedTasks s <= totalTasks s /\
  0 <= totalEvents s /\
  totalTasks s + totalEvents s <= Z.of_nat (length [task 2 true; reminder; task 3 false]) /\
  earnedXP s <= totalXP s <= 750 * totalTasks s.
Proof.
  assert (H : Forall known_type [task 2 true; reminder; task 3 false]).
  { apply Forall_cons; split; [left; reflexivity|].
    apply Forall_cons; split; [right; right; reflexivity|].
    apply Forall_cons; split; [left; reflexivity|]. apply Forall_nil_2. }
  split; [exact H|].
  exact (calculateSummary_tasks_bound _ H).
Defined.

End SummaryAlgebra.

Section ClassesJsDay.

Import SpecRules.

Lemma xp_switch d (p : Z) :
  (if strict_eqb d (VNum (Num 1)) then (150, p + 150)
   else if strict_eqb d (VNum (Num 2)) then (400, p + 400)
   else if strict_eqb d (VNum (Num 3)) then (750, p + 750)
   else (0, p))
  = (xp_of_difficulty d, p + xp_of_difficulty d).
Proof.
  destruct (strict_eqb d (VNum (Num 1))) eqn:H1;
    [apply strict_eqb_int in H1; subst d; reflexivity|].
  destruct (strict_eqb d (VNum (Num 2))) eqn:H2;
    [apply strict_eqb_int in H2; subst d; reflexivity|].
  destruct (strict_eqb d (VNum (Num 3))) eqn:H3;
    [apply strict_eqb_int in H3; subst d; reflexivity|].
  assert (Hm : xp_of_difficulty d = 0).
  { destruct d as [| | |[|z]|]; try reflexivity. cbn [strict_eqb] in H1, H2, H3.
    apply Z.eqb_neq in H1, H2, H3. unfold xp_of_difficulty.
    destruct z as [|q|q]; try reflexivity.
    destruct q as [[q|q|]|[q|q|]|]; try reflexivity; lia. }
  rewrite Hm. f_equal. lia.
Qed.

Lemma finished_switch obj :
  strict_eqb (CalendarEvent.finished obj) (VBool true) = is_finished obj.
Proof.
  unfold is_finished. destruct (CalendarEvent.finished obj) as [| |[|]|[|z]|]; reflexivity.
Qed.

Lemma classes_snoc l obj :
  let s := ClassesJs.calculateSummary l in
  let xp := xp_of_difficulty (CalendarEvent.difficulty obj) in
  ClassesJs.calculateSummary (l ++ [obj])%list
  = if is_finished obj
    then ClassesJs.mkSummary (ClassesJs.earnedXP s + xp) (ClassesJs.totalXP s + xp)
           (ClassesJs.finishedTasks s + 1) (ClassesJs.totalTasks s + 1)
    else ClassesJs.mkSummary (ClassesJs.earnedXP s) (ClassesJs.totalXP s + xp)
           (ClassesJs.finishedTasks s) (ClassesJs.totalTasks s + 1).
Proof.
  cbv zeta. unfold ClassesJs.calculateSummary at 1.
  rewrite fold_left_app, length_app. cbn [fold_left length].
  unfold ClassesJs.calculateSummary.
  destruct (fold_left ClassesJs.summary_step l (0, 0, 0)) as [[e p] f].
  cbn [ClassesJs.earnedXP ClassesJs.totalXP ClassesJs.finishedTasks ClassesJs.totalTasks].
  unfold ClassesJs.summary_step. rewrite xp_switch, finished_switch.
  destruct (is_finished obj); f_equal; lia.
Qed.

Lemma new_snoc l obj :
  let s := CalendarDay.calculateSummary l in
  let xp := xp_of_difficulty (CalendarEvent.difficulty obj) in
  CalendarDay.calculateSummary (l ++ [obj])%list
  = if strict_eqb (CalendarEvent.type obj) (VStr "event") then
      CalendarDay.mkSummary (CalendarDay.earnedXP s) (CalendarDay.totalXP s)
        (CalendarDay.finishedTasks s) (CalendarDay.totalTasks s)
        (CalendarDay.totalEvents s + 1)
    else if strict_eqb (CalendarEvent.type obj) (VStr "reminder") then s
    else
      CalendarDay.mkSummary
        (CalendarDay.earnedXP s + if is_finished obj then xp else 0)
        (CalendarDay.totalXP s + xp)
        (CalendarDay.finishedTasks s + if is_finished obj then 1 else 0)
        (CalendarDay.totalTasks s
         + if strict_eqb (CalendarEvent.type obj) (VStr "task") then 1 else 0)
        (CalendarDay.totalEvents s).
Proof.
  cbv zeta. rewrite calculateSummary_snoc.
  destruct (CalendarDay.calculateSummary l) as [e t f tt te].
  unfold CalendarDay.summary_step.
  cbn [CalendarDay.earnedXP CalendarDay.totalXP CalendarDay.finishedTasks
       CalendarDay.totalTasks CalendarDay.totalEvents].
  destruct (strict_eqb (CalendarEvent.type obj) (VStr "event")); [reflexivity|].
  destruct (strict_eqb (CalendarEvent.type obj) (VStr "reminder")); [reflexivity|].
  rewrite xp_switch, finished_switch.
  destruct (is_finished obj), (strict_eqb (CalendarEvent.type obj) (VStr "task"));
    f_equal; lia.
Qed.

(** X19. The two versions of [calculateSummary] on the same view. The one of
    [classes.js] counts every item as a task and gives XP for items of
    every type, so each of its four figures is at least the figure of the
    later version; its own figures satisfy earned <= total XP and
    finished <= total tasks = the number of items. On a view of tasks only
    the two versions agree. *)
Theorem calculateSummary_versions l :
  let old := ClassesJs.calculateSummary l in
  let new := CalendarDay.calculateSummary l in
  ClassesJs.totalTasks old = Z.of_nat (length l) /\
  0 <= ClassesJs.finishedTasks old <= ClassesJs.totalTasks old /\
  0 <= ClassesJs.earnedXP old <= ClassesJs.totalXP old /\
  CalendarDay.earnedXP new <= ClassesJs.earnedXP old /\
  CalendarDay.totalXP new <= ClassesJs.totalXP old /\
  CalendarDay.finishedTasks new <= ClassesJs.finishedTasks old /\
  CalendarDay.totalTasks new <= ClassesJs.totalTasks old /\
  (Forall (fun obj => CalendarEvent.type obj = VStr "task") l ->
   CalendarDay.earnedXP new = ClassesJs.earnedXP old /\
   CalendarDay.totalXP new = ClassesJs.totalXP old /\
   CalendarDay.finishedTasks new = ClassesJs.finishedTasks old /\
   CalendarDay.totalTasks new = ClassesJs.totalTasks old /\
   CalendarDay.totalEvents new = 0).
Proof.
  cbv zeta. induction l as [|obj l IH] using rev_ind.
  - cbn. repeat split; try lia. 
  - destruct IH as (H1 & H2 & H3 & H4 & H5 & H6 & H7 & H8).
    rewrite classes_snoc, new_snoc, length_app. cbn [length]. cbv zeta.
    pose proof (xp_of_difficulty_nonneg (CalendarEvent.difficulty obj)) as Hxp.
    split; [|split; [|split; [|split; [|split; [|split; [|split]]]]]].
    8:{ intros Hall. apply Forall_app in Hall as [Hall Hobj].
        apply Forall_cons in Hobj as [Hobj _]. specialize (H8 Hall).
        rewrite Hobj. cbn [strict_eqb String.eqb Ascii.eqb Bool.eqb].
        destruct (is_finished obj);
          cbn [CalendarDay.earnedXP CalendarDay.totalXP CalendarDay.finishedTasks
               CalendarDay.totalTasks CalendarDay.totalEvents ClassesJs.earnedXP
               ClassesJs.totalXP ClassesJs.finishedTasks ClassesJs.totalTasks]; lia. }
    all: destruct (is_finished obj),
           (strict_eqb (CalendarEvent.type obj) (VStr "event")),
           (strict_eqb (CalendarEvent.type obj) (VStr "reminder")),
           (strict_eqb (CalendarEvent.type obj) (VStr "task"));
      cbn [CalendarDay.earnedXP CalendarDay.totalXP CalendarDay.finishedTasks
           CalendarDay.totalTasks CalendarDay.totalEvents ClassesJs.earnedXP
           ClassesJs.totalXP ClassesJs.finishedTasks ClassesJs.totalTasks]; lia.
Qed.

End ClassesJsDay.

(** ** Refreshing again, and sequences of updates *)

Section RefreshAgain.

Import CalendarDay.

(** X20. Refreshing a day that was refreshed, with the collection as it was,
    gives it the same view in another new array: the array of the first
    refresh is left as it was, and the day no longer refers to it. *)
Theorem refreshEventList_again g (h : store) this events :
  h !! g = Some events ->
  exists h1 day1 h2 day2 v,
    refreshEventList g h this = Some (h1, day1) /\
    refreshEventList g h1 day1 = Some (h2, day2) /\
    view h1 day1 = Some v /\
    view h2 day2 = Some v /\
    view h2 day1 = Some v /\
    eventList day2 <> eventList day1 /\
    date day2 = date this.
Proof.
  intros Hg.
  set (v := sorted_by compare_startTime (List.filter (matches this) events)).
  set (m1 := fresh (dom h)).
  set (h1 := <[m1 := v]> h).
  set (m2 := fresh (dom h1)).
  assert (Hm1 : m1 <> g) by (apply fresh_not_allocated; now exists events).
  assert (Hg1 : h1 !! g = Some events) by (unfold h1; now rewrite lookup_insert_ne).
  assert (Hm2 : m2 <> m1).
  { apply fresh_not_allocated. exists v. unfold h1. apply lookup_insert_eq. }
  exists h1, (mk (date this) (Some m1)), (<[m2 := v]> h1), (mk (date this) (Some m2)), v.
  split; [apply (refreshEventList_eq g h this events Hg)|].
  split; [apply (refreshEventList_eq g h1 (mk (date this) (Some m1)) events Hg1)|].
  unfold view. cbn [eventList date mbind option_bind].
  split; [unfold h1; apply lookup_insert_eq|].
  split; [apply lookup_insert_eq|].
  split; [rewrite lookup_insert_ne by congruence; unfold h1; apply lookup_insert_eq|].
  split; [congruence|reflexivity].
Qed.

Lemma refreshEventList_again_witness :
  sample_store !! 1%positive = Some sample_collection /\
  exists h1 day1 h2 day2 v,
    refreshEventList 1%positive sample_store new_year = Some (h1, day1) /\
    refreshEventList 1%positive h1 day1 = Some (h2, day2) /\
    view h1 day1 = Some v /\
    view h2 day2 = Some v /\
    view h2 day1 = Some v /\
    eventList day2 <> eventList day1 /\
    date day2 = date new_year.
Proof.
  assert (H : sample_store !! 1%positive = Some sample_collection) by reflexivity.
  split; [exact H|].
  exact (refreshEventList_again 1%positive sample_store new_year sample_collection H).
Defined.

(** X21. The constructors of the two versions of the class, called in the
    same state, make the same new array the view of the day; the one of
    [classes.js] fills it with the events of the date key of the day in
    the order of the collection, the later one with the same events in
    ascending order of the hour, events of equal hour in the order of the
    collection. Neither touches the arrays there were. The start times of
    the events concerned begin with an hour. *)
Theorem constructor_versions g (h : store) dateString events :
  h !! g = Some events ->
  (forall obj, obj ∈ events -> same_key (mk dateString None) obj ->
     is_Some (hour_prefix (CalendarEvent.startTime obj))) ->
  let matching := filter (same_key (mk dateString None)) events in
  exists l v,
    h !! l = None /\
    ClassesJs.constructor g h dateString
    = Some (<[l := matching]> h, mk dateString (Some l)) /\
    constructor g h dateString = Some (<[l := v]> h, mk dateString (Some l)) /\
    v ≡ₚ matching /\
    StronglySorted hour_ordered v /\
    forall k, filter (fun obj => hour_prefix (CalendarEvent.startTime obj) = Some k) v
              = filter (fun obj => hour_prefix (CalendarEvent.startTime obj) = Some k)
                  matching.
Proof.
  intros Hg Hhours. cbv zeta.
  destruct (sorted_matching_spec (mk dateString None) events Hhours) as (Hp & Hs & Hst).
  exists (fresh (dom h)),
    (sorted_by compare_startTime (List.filter (matches (mk dateString None)) events)).
  split; [apply not_elem_of_dom, is_fresh|]. split.
  - unfold ClassesJs.constructor, ClassesJs.refreshEventList. cbv zeta.
    rewrite Hg. cbn [mbind option_bind]. unfold alloc. cbn [mbind option_bind].
    do 3 f_equal.
    rewrite (List_filter_filter (matches (mk dateString None))
               (same_date (mk dateString None)) events)
      by (intros; apply matches_same_date).
    apply list_filter_iff. intros obj. apply same_date_same_key.
  - split; [apply (constructor_eq g h dateString events Hg)|].
    split; [exact Hp|]. split; [exact Hs|exact Hst].
Qed.

Lemma constructor_versions_witness :
  sample_store !! 1%positive = Some sample_collection /\
  (forall obj, obj ∈ sample_collection -> same_key (mk "01-01-2024" None) obj ->
     is_Some (hour_prefix (CalendarEvent.startTime obj))) /\
  let matching := filter (same_key (mk "01-01-2024" None)) sample_collection in
  exists l v,
    sample_store !! l = None /\
    ClassesJs.constructor 1%positive sample_store "01-01-2024"
    = Some (<[l := matching]> sample_store, mk "01-01-2024" (Some l)) /\
    constructor 1%positive sample_store "01-01-2024"
    = Some (<[l := v]> sample_store, mk "01-01-2024" (Some l)) /\
    v ≡ₚ matching /\
    StronglySorted hour_ordered v /\
    forall k, filter (fun obj => hour_prefix (CalendarEvent.startTime obj) = Some k) v
              = filter (fun obj => hour_prefix (CalendarEvent.startTime obj) = Some k)
                  matching.
Proof.
  assert (H : sample_store !! 1%positive = Some sample_collection) by reflexivity.
  split; [exact H|]. split; [exact sample_collection_hour_prefix|].
  exact (constructor_versions 1%positive sample_store "01-01-2024" sample_collection H
           sample_collection_hour_prefix).
Defined.

End RefreshAgain.

Section Updates.

Import CalendarEvent.

Lemma updateEventInfo_all_snoc this payloads eventData :
  updateEventInfo_all this (payloads ++ [eventData])%list
  = this_after (updateEventInfo (updateEventInfo_all this payloads) eventData).
Proof. unfold updateEventInfo_all. now rewrite fold_left_app. Qed.

(** X22. Whatever payloads an event is updated with, one after the other, it
    keeps the [id] and the [difficulty] it was made with, and its seven
    other fields are those of the last payload: no update leaves a trace
    once another has followed. *)
Theorem updateEventInfo_last_payload this payloads eventData :
  let final := updateEventInfo_all this (payloads ++ [eventData])%list in
  id final = id this /\
  difficulty final = difficulty this /\
  final = mk (id this) (name eventData) (description eventData) (date eventData)
             (startTime eventData) (endTime eventData) (type eventData)
             (difficulty this) (finished eventData) /\
  final = this_after (updateEventInfo this eventData).
Proof.
  cbv zeta. rewrite updateEventInfo_all_snoc.
  assert (Hkept : id (updateEventInfo_all this payloads) = id this /\
                  difficulty (updateEventInfo_all this payloads) = difficulty this).
  { induction payloads as [|p payloads IH] using rev_ind; [split; reflexivity|].
    rewrite updateEventInfo_all_snoc. exact IH. }
  remember (updateEventInfo_all this payloads) as e eqn:He. clear He.
  destruct Hkept as [Hid Hdiff]. destruct e, this.
  cbn [id difficulty] in Hid, Hdiff. subst. repeat split.
Qed.

End Updates.

(** ** Event previews *)

Section Previews.

Lemma find_prefix date (l : list DayCell) (n : nat) :
  match fold_left
          (fun dayDiv i =>
             match l !! i with
             | Some node =>
                 if bool_decide (dataset_date (day_div node) = Some date)
                 then Some i else dayDiv
             | None => dayDiv
             end)
          (seq 0 n) None with
  | Some i =>
      (i < n)%nat /\ (exists c, l !! i = Some c /\ has_date date c) /\
      forall j c, (i < j < n)%nat -> l !! j = Some c -> ~ has_date date c
  | None => forall j c, (j < n)%nat -> l !! j = Some c -> ~ has_date date c
  end.
Proof.
  induction n as [|n IH].
  - cbn. intros j c Hj. lia.
  - rewrite seq_S, fold_left_app. cbn [fold_left Nat.add].
    destruct (l !! n) as [node|] eqn:Hn.
    + case_bool_decide as Hd.
      * split; [lia|]. split; [now exists node|]. intros j c Hj. lia.
      * destruct (fold_left _ (seq 0 n) None) as [i|].
        -- destruct IH as (Hi & Hex & Hlater). split; [lia|]. split; [assumption|].
           intros j c Hj Hc. destruct (decide (j = n)) as [->|Hne].
           ++ rewrite Hn in Hc. injection Hc as <-. exact Hd.
           ++ apply (Hlater j c); [lia|assumption].
        -- intros j c Hj Hc. destruct (decide (j = n)) as [->|Hne].
           ++ rewrite Hn in Hc. injection Hc as <-. exact Hd.
           ++ apply (IH j c); [lia|assumption].
    + destruct (fold_left _ (seq 0 n) None) as [i|].
      * destruct IH as (Hi & Hex & Hlater). split; [lia|]. split; [assumption|].
        intros j c Hj Hc. destruct (decide (j = n)) as [->|Hne]; [congruence|].
        apply (Hlater j c); [lia|assumption].
      * intros j c Hj Hc. destruct (decide (j = n)) as [->|Hne]; [congruence|].
        apply (IH j c); [lia|assumption].
Qed.

(** The loop finds the last child that carries the date. *)
Lemma findDayDiv_last date (container : list DayCell) i cell :
  container !! i = Some cell -> has_date date cell ->
  (forall j c, (i < j)%nat -> container !! j = Some c -> ~ has_date date c) ->
  findDayDiv date container = Some i.
Proof.
  intros Hi Hd Hlater. unfold findDayDiv.
  pose proof (find_prefix date container (length container)) as H.
  apply lookup_lt_Some in Hi as Hlt.
  destruct (fold_left _ _ None) as [i'|].
  - destruct H as (Hi' & (c & Hc & Hdc) & Hl). f_equal.
    destruct (Nat.lt_trichotomy i i') as [Hlt'|[->|Hgt]]; [|reflexivity|].
    + exfalso. apply (Hlater i' c); assumption.
    + exfalso. apply (Hl i cell); [lia|assumption|assumption].
  - exfalso. apply (H i cell); assumption.
Qed.

Lemma findDayDiv_none date (container : list DayCell) :
  Forall (fun cell => ~ has_date date cell) container ->
  findDayDiv date container = None.
Proof.
  intros Hall. unfold findDayDiv.
  pose proof (find_prefix date container (length container)) as H.
  destruct (fold_left _ _ None) as [i|]; [|reflexivity].
  destruct H as (_ & (c & Hc & Hdc) & _). exfalso.
  rewrite Forall_forall in Hall. apply (Hall c); [|assumption].
  now apply list_elem_of_lookup_2 in Hc.
Qed.

Lemma newPreview_ok obj : type_token_ok obj -> newPreview obj = Some (preview_of obj).
Proof.
  unfold type_token_ok, newPreview, preview_of. intros Hok. cbv zeta.
  cbn [label_classList textContent preview_classList preview_label preview_id].
  unfold classList_add_token. rewrite Hok.
  change (valid_token "event_preview_name") with true.
  change (valid_token "event_preview") with true.
  cbn [mbind option_bind]. unfold classList_add.
  change (bool_decide ("event_preview_name" ∈ @nil string)) with false.
  change (bool_decide ("event_preview" ∈ @nil string)) with false.
  cbn [app]. case_bool_decide as Hin; [|reflexivity].
  exfalso. apply list_elem_of_singleton in Hin. discriminate Hin.
Qed.

Lemma newPreview_throws obj : ~ type_token_ok obj -> newPreview obj = None.
Proof.
  unfold type_token_ok, newPreview. intros Hbad. cbv zeta.
  cbn [label_classList textContent preview_classList preview_label preview_id].
  unfold classList_add_token.
  change (valid_token "event_preview_name") with true. cbn [mbind option_bind].
  destruct (valid_token _); [contradiction|reflexivity].
Qed.

Lemma with_previews_snoc cell events obj :
  appendChild (preview_of obj) (with_previews cell events)
  = with_previews cell (events ++ [obj]).
Proof.
  unfold appendChild, with_previews. cbn [day_div previews].
  now rewrite fmap_app, app_assoc.
Qed.

Lemma with_previews_nil cell : with_previews cell [] = cell.
Proof. destruct cell. unfold with_previews. cbn. now rewrite app_nil_r. Qed.

(** The previews of a view without a bad type are appended to the day
    div, one after the other. *)
Lemma appendPreviews_ok i events (container : list DayCell) cell done :
  Forall type_token_ok events ->
  container !! i = Some (with_previews cell done) ->
  appendPreviews i events container
  = Returned (<[i := with_previews cell (done ++ events)]> container) None.
Proof.
  intros Hok. revert container done.
  induction Hok as [|obj events Hobj _ IH]; intros container done Hi.
  - cbn [appendPreviews]. rewrite app_nil_r. now rewrite list_insert_id.
  - cbn [appendPreviews]. rewrite (newPreview_ok obj Hobj).
    rewrite (IH _ (done ++ [obj])%list).
    + rewrite <- app_assoc. cbn [app]. f_equal.
      apply list_eq. intros j. destruct (decide (j = i)) as [->|Hne].
      * apply lookup_lt_Some in Hi.
        rewrite !list_lookup_insert_eq by (rewrite ?length_alter; assumption).
        reflexivity.
      * now rewrite !list_lookup_insert_ne, list_lookup_alter_ne by congruence.
    + rewrite list_lookup_alter_eq, Hi. cbn [fmap option_fmap option_map].
      now rewrite with_previews_snoc.
Qed.

(** The loop stops at the first event whose type makes no token, with the
    previews of the events before it appended. *)
Lemma appendPreviews_throws i good bad rest (container : list DayCell) cell done :
  Forall type_token_ok good -> ~ type_token_ok bad ->
  container !! i = Some (with_previews cell done) ->
  appendPreviews i (good ++ bad :: rest) container
  = Threw (<[i := with_previews cell (done ++ good)]> container).
Proof.
  intros Hok Hbad. revert container done.
  induction Hok as [|obj events Hobj _ IH]; intros container done Hi.
  - cbn [app appendPreviews]. rewrite (newPreview_throws bad Hbad), app_nil_r.
    now rewrite list_insert_id.
  - cbn [app appendPreviews]. rewrite (newPreview_ok obj Hobj).
    rewrite (IH _ (done ++ [obj])%list).
    + rewrite <- app_assoc. cbn [app]. f_equal.
      apply list_eq. intros j. destruct (decide (j = i)) as [->|Hne].
      * apply lookup_lt_Some in Hi.
        rewrite !list_lookup_insert_eq by (rewrite ?length_alter; assumption).
        reflexivity.
      * now rewrite !list_lookup_insert_ne, list_lookup_alter_ne by congruence.
    + rewrite list_lookup_alter_eq, Hi. cbn [fmap option_fmap option_map].
      now rewrite with_previews_snoc.
Qed.

(** X23. When no child of the container carries the date of the day,
    [renderEventPreview] changes nothing, warns on the console and
    returns; it does so before it looks at the events of the day, so also
    for a day whose [eventList] is no array. *)
Theorem renderEventPreview_no_day_div (h : store) this (container : list DayCell) :
  Forall (fun cell => ~ has_date (CalendarDay.date this) cell) container ->
  renderEventPreview h this container
  = Returned container
      (Some ("No applicable div was found for CalendarDay " ++ CalendarDay.date this ++ ".")).
Proof.
  intros Hall. unfold renderEventPreview.
  now rewrite (findDayDiv_none _ _ Hall).
Qed.

(** X24. When several children carry the date of the day, the previews go to
    the last of them: it gets one preview for each event of the view, in
    the order of the view, after the previews it had; the other children
    are as they were, and there is no warning. The types of the events
    make class tokens. *)
Theorem renderEventPreview_last_day_div (h : store) this (container : list DayCell)
    i cell events :
  container !! i = Some cell ->
  has_date (CalendarDay.date this) cell ->
  (forall j c, (i < j)%nat -> container !! j = Some c ->
               ~ has_date (CalendarDay.date this) c) ->
  CalendarDay.view h this = Some events ->
  Forall type_token_ok events ->
  renderEventPreview h this container
  = Returned (<[i := mkDayCell (day_div cell) (previews cell ++ (preview_of <$> events))]>
                container) None.
Proof.
  intros Hi Hd Hlater Hview Hok. unfold renderEventPreview.
  rewrite (findDayDiv_last _ _ i cell Hi Hd Hlater), Hview.
  rewrite <- (with_previews_nil cell) in Hi.
  now rewrite (appendPreviews_ok i events container cell [] Hok Hi).
Qed.

(** X25. An event whose type has white space in its text makes
    [renderEventPreview] throw: the previews of the events before it are
    in the day div, those of the events after it are not, and so is the
    preview of the event itself. A day whose [eventList] is no array
    makes it throw with nothing changed. *)
Theorem renderEventPreview_throws (h : store) this (container : list DayCell)
    i cell good bad rest :
  container !! i = Some cell ->
  has_date (CalendarDay.date this) cell ->
  (forall j c, (i < j)%nat -> container !! j = Some c ->
               ~ has_date (CalendarDay.date this) c) ->
  Forall type_token_ok good ->
  ~ type_token_ok bad ->
  (CalendarDay.view h this = Some (good ++ bad :: rest)%list ->
   renderEventPreview h this container
   = Threw (<[i := mkDayCell (day_div cell) (previews cell ++ (preview_of <$> good))]>
              container)) /\
  (CalendarDay.view h this = None -> renderEventPreview h this container = Threw container).
Proof.
  intros Hi Hd Hlater Hok Hbad. unfold renderEventPreview.
  rewrite (findDayDiv_last _ _ i cell Hi Hd Hlater).
  split; intros Hview; rewrite Hview; [|reflexivity].
  rewrite <- (with_previews_nil cell) in Hi.
  now rewrite (appendPreviews_throws i good bad rest container cell [] Hok Hbad Hi).
Qed.

Lemma alter_add_class_lookup token k (l : list DayDiv) j div :
  alter (add_class token) k l !! j = Some div ->
  exists raw, l !! j = Some raw /\ dayNumber div = dayNumber raw /\
    dataset_date div = dataset_date raw /\
    forall c, c ∈ classList raw -> c ∈ classList div.
Proof.
  intros Hj. destruct (decide (j = k)) as [->|Hne].
  - rewrite list_lookup_alter_eq in Hj.
    destruct (l !! k) as [raw|]; [|discriminate].
    cbn [fmap option_fmap option_map] in Hj. apply (inj Some) in Hj. subst div.
    exists raw. split; [reflexivity|]. apply add_class_fields.
  - rewrite list_lookup_alter_ne in Hj by congruence. exists div. auto.
Qed.

Lemma lookup_alter_add_class token k (l : list DayDiv) j raw :
  l !! j = Some raw ->
  exists div, alter (add_class token) k l !! j = Some div /\
    dayNumber div = dayNumber raw /\ dataset_date div = dataset_date raw /\
    forall c, c ∈ classList raw -> c ∈ classList div.
Proof.
  intros Hj. destruct (decide (j = k)) as [->|Hne].
  - rewrite list_lookup_alter_eq, Hj. cbn [fmap option_fmap option_map].
    eexists. split; [reflexivity|]. apply add_class_fields.
  - rewrite list_lookup_alter_ne by congruence. exists raw. auto.
Qed.

(** The last cell with a date string that one cell among those appended
    for the current month carries, and no cell appended after it. *)
Lemma findDayDiv_in_grid (previous : list DayDiv) (fc fn : Z -> DayDiv)
    (days count : Z) (date : string) (d : Z) (k : nat) :
  1 <= d <= days ->
  dataset_date (fc d) = Some date ->
  (forall d', 1 <= d' <= days -> d' <> d -> dataset_date (fc d') <> Some date) ->
  (forall m, 1 <= m <= count -> dataset_date (fn m) <> Some date) ->
  let cells := ((previous ++ ((fun i : Z => fc (i + 1)) <$> seqZ 0 days))
                ++ ((fun i : Z => fn (i + 1)) <$> seqZ 0 count))%list in
  let i0 := (length previous + Z.to_nat (d - 1))%nat in
  findDayDiv date (day_cells (alter (add_class "today") k cells)) = Some i0 /\
  exists div,
    alter (add_class "today") k cells !! i0 = Some div /\
    dayNumber div = dayNumber (fc d) /\ dataset_date div = Some date /\
    forall c, c ∈ classList (fc d) -> c ∈ classList div.
Proof.
  intros Hd Hdate Hcur Hnxt cells i0.
  assert (Lc : length ((fun i : Z => fc (i + 1)) <$> seqZ 0 days) = Z.to_nat days)
    by now rewrite length_fmap, length_seqZ.
  assert (Hraw : cells !! i0 = Some (fc d)).
  { unfold cells, i0. rewrite lookup_app_l, lookup_app_r by (rewrite ?length_app; lia).
    rewrite list_lookup_fmap.
    replace (length previous + Z.to_nat (d - 1) - length previous)%nat
      with (Z.to_nat (d - 1)) by lia.
    rewrite (lookup_seqZ_lt 0 days (Z.to_nat (d - 1))) by lia.
    cbn [fmap option_fmap option_map]. do 2 f_equal. lia. }
  destruct (lookup_alter_add_class "today" k _ i0 _ Hraw)
    as (div & Hdiv & Hnum & Hdd & Hcls).
  split; [|exists div; split; [exact Hdiv|split; [exact Hnum|split; [congruence|exact Hcls]]]].
  apply (findDayDiv_last _ _ i0 (mkDayCell div [])).
  - unfold day_cells. rewrite list_lookup_fmap, Hdiv. reflexivity.
  - unfold has_date. cbn [day_div]. congruence.
  - intros j c Hj Hc Hhas. unfold day_cells in Hc. rewrite list_lookup_fmap in Hc.
    destruct (alter _ k _ !! j) as [dj|] eqn:Hdj; [|discriminate].
    cbn [fmap option_fmap option_map] in Hc. apply (inj Some) in Hc. subst c.
    unfold has_date in Hhas. cbn [day_div] in Hhas.
    destruct (alter_add_class_lookup "today" k _ j dj Hdj) as (raw & Hr & _ & Hrd & _).
    rewrite Hrd in Hhas. clear Hdj Hrd Hdiv Hraw.
    unfold cells in Hr. unfold i0 in Hj.
    destruct (decide (j < length previous + Z.to_nat days)%nat) as [Hlt|Hge].
    + rewrite lookup_app_l, lookup_app_r in Hr by (rewrite ?length_app; lia).
      rewrite list_lookup_fmap in Hr.
      rewrite (lookup_seqZ_lt 0 days (j - length previous)) in Hr by lia.
      cbn [fmap option_fmap option_map] in Hr. apply (inj Some) in Hr. subst raw.
      apply (Hcur (0 + Z.of_nat (j - length previous) + 1)); [lia|lia|assumption].
    + rewrite lookup_app_r in Hr by (rewrite length_app; lia).
      rewrite list_lookup_fmap in Hr.
      destruct (seqZ 0 count !! _) as [m|] eqn:Hm; [|discriminate].
      apply lookup_seqZ in Hm as [-> Hm].
      cbn [fmap option_fmap option_map] in Hr. apply (inj Some) in Hr. subst raw.
      apply (Hnxt (0 + Z.of_nat (j - length (previous
                     ++ ((fun i : Z => fc (i + 1)) <$> seqZ 0 days))%list) + 1));
        [lia|assumption].
Qed.

(** X26. In the grid [initCalendar] builds, the day div [renderEventPreview]
    finds for the date string of day [d] of the month of the reference
    date is the cell of that day among the "current" cells, cell number
    index + d - 1: the leading cells that carry the same date string,
    which there are when the clock gives them the month of the reference
    date, come before it. The global [daysInCurrentMonth] is a month
    length that reaches [d], and the global [nextMonth] a date of another
    month. *)
Theorem initCalendar_day_div now g t tn d :
  1 <= d <= daysInCurrentMonth g ->
  daysInCurrentMonth g <= 31 ->
  nextMonth g = DateAt tn ->
  ~ (YearFromTime tn = YearFromTime t /\ MonthFromTime tn = MonthFromTime t) ->
  let idx := index (getFirstWeekDayInMonth (DateAt t)) in
  let date := getDateString (Num d) (Num (MonthFromTime t + 1)) (Num (YearFromTime t)) in
  exists grid div,
    initCalendar now g (DateAt t) [] = Some grid /\
    findDayDiv date (day_cells grid) = Some (Z.to_nat (idx + d - 1)) /\
    grid !! Z.to_nat (idx + d - 1) = Some div /\
    "current" ∈ classList div /\ dayNumber div = d /\ dataset_date div = Some date.
Proof.
  intros Hd Hdays Hnext Hother. cbv zeta. unfold initCalendar.
  destruct (createCalendarGrid_cells now g t (maxGridItems (DateAt t)))
    as (n & _ & _ & Hgrid).
  cbv zeta in Hgrid. rewrite Hnext in Hgrid.
  pose proof (index_range (DateAt t)) as Hidx.
  pose proof (DateFromTime_range t) as Hdt.
  pose proof (MonthFromTime_range t) as Hmt.
  pose proof (MonthFromTime_range tn) as Hmn.
  assert (Hcap : maxGridItems (DateAt t)
            = (if 5 <=? index (getFirstWeekDayInMonth (DateAt t)) then 42 else 35))
    by reflexivity.
  assert (Hcap' : index (getFirstWeekDayInMonth (DateAt t)) + daysInCurrentMonth g
                  <= maxGridItems (DateAt t) <= 42 /\
                  DateFromTime t + index (getFirstWeekDayInMonth (DateAt t)) - 1
                  < maxGridItems (DateAt t)).
  { rewrite Hcap. destruct (Z.leb_spec 5 (index (getFirstWeekDayInMonth (DateAt t)))); lia. }
  clear Hcap.
  match type of Hgrid with
  | _ = if _ <? Z.of_nat (length ?cells) then _ else _ =>
      assert (Hcells : Z.of_nat (length cells) = maxGridItems (DateAt t))
  end.
  { rewrite !length_app, !length_fmap, !length_seqZ. lia. }
  rewrite Hgrid, Hcells. clear Hgrid Hcells.
  destruct (Z.ltb_spec (DateFromTime t + index (getFirstWeekDayInMonth (DateAt t)) - 1)
              (maxGridItems (DateAt t))) as [_|Hge]; [|lia].
  match goal with
  | |- exists grid div, Some (alter _ ?k ((?previous ++ _) ++ (_ <$> seqZ 0 ?count))%list) = _ /\ _ =>
      destruct (findDayDiv_in_grid previous
                  (fun day => newDayDiv "current" day (DateAt t))
                  (fun day => newDayDiv "next" day (DateAt tn))
                  (daysInCurrentMonth g) count
                  (getDateString (Num d) (Num (MonthFromTime t + 1)) (Num (YearFromTime t)))
                  d k Hd)
        as (Hfind & div & Hdiv & Hnum & Hdate & Hcls);
      [ | | |
        assert (Lp : length previous
                     = Z.to_nat (index (getFirstWeekDayInMonth (DateAt t))))
          by now rewrite length_fmap, length_seqZ ]
  end.
  - reflexivity.
  - intros d' Hd' Hne Heq.
    destruct (newDayDiv_fields "current" d' (DateAt t)) as [_ Gdate].
    cbn [getMonth getFullYear num_add] in Gdate.
    rewrite Gdate in Heq. apply (inj Some) in Heq.
    apply getDateString_injective in Heq; lia.
  - intros m Hm Heq.
    destruct (newDayDiv_fields "next" m (DateAt tn)) as [_ Gdate].
    cbn [getMonth getFullYear num_add] in Gdate.
    rewrite Gdate in Heq. apply (inj Some) in Heq.
    apply getDateString_injective in Heq; [|lia..].
    apply Hother. lia.
  - cbv zeta in Hfind, Hdiv. rewrite Lp in Hfind, Hdiv.
    replace (Z.to_nat (index (getFirstWeekDayInMonth (DateAt t))) + Z.to_nat (d - 1))%nat
      with (Z.to_nat (index (getFirstWeekDayInMonth (DateAt t)) + d - 1))
      in Hfind, Hdiv by lia.
    eexists _, div. split; [reflexivity|]. split; [exact Hfind|]. split; [exact Hdiv|].
    split; [|split; assumption].
    apply Hcls. rewrite newDayDiv_current. apply elem_of_cons; right.
    apply elem_of_cons; left. reflexivity.
Qed.

(** Three children, none of 5 January 2024. *)
Lemma renderEventPreview_no_day_div_witness :
  Forall (fun cell => ~ has_date (CalendarDay.date (CalendarDay.mk "05-01-2024" None)) cell)
    sample_cells /\
  renderEventPreview sample_day_store (CalendarDay.mk "05-01-2024" None) sample_cells
  = Returned sample_cells
      (Some ("No applicable div was found for CalendarDay "
             ++ CalendarDay.date (CalendarDay.mk "05-01-2024" None) ++ ".")).
Proof.
  assert (H : Forall (fun cell =>
                ~ has_date (CalendarDay.date (CalendarDay.mk "05-01-2024" None)) cell)
                sample_cells).
  { repeat (apply Forall_cons; split; [discriminate|]). apply Forall_nil_2. }
  split; [exact H|].
  exact (renderEventPreview_no_day_div sample_day_store
           (CalendarDay.mk "05-01-2024" None) sample_cells H).
Defined.

Lemma sample_cells_later j c :
  (1 < j)%nat -> sample_cells !! j = Some c -> ~ has_date (CalendarDay.date sample_day) c.
Proof.
  intros Hj Hc. destruct j as [|[|[|j]]]; try lia; [|discriminate Hc].
  injection Hc as <-. discriminate.
Qed.

(** The view of 1 January 2024, a task and a reminder, goes to the second
    child. *)
Lemma renderEventPreview_last_day_div_witness :
  sample_cells !! 1%nat
  = Some (mkDayCell (mkDayDiv ["monthView_day"; "current"] 1 (Some "01-01-2024")) []) /\
  CalendarDay.view sample_day_store sample_day = Some [task 2 true; reminder] /\
  Forall type_token_ok [task 2 true; reminder] /\
  renderEventPreview sample_day_store sample_day sample_cells
  = Returned
      (<[1%nat := mkDayCell (mkDayDiv ["monthView_day"; "current"] 1 (Some "01-01-2024"))
                    ([] ++ (preview_of <$> [task 2 true; reminder]))]> sample_cells) None.
Proof.
  assert (H1 : sample_cells !! 1%nat
               = Some (mkDayCell (mkDayDiv ["monthView_day"; "current"] 1
                                    (Some "01-01-2024")) [])) by reflexivity.
  assert (H2 : has_date (CalendarDay.date sample_day)
                 (mkDayCell (mkDayDiv ["monthView_day"; "current"] 1 (Some "01-01-2024")) []))
    by reflexivity.
  assert (H4 : CalendarDay.view sample_day_store sample_day = Some [task 2 true; reminder])
    by reflexivity.
  assert (H5 : Forall type_token_ok [task 2 true; reminder]).
  { repeat (apply Forall_cons; split; [reflexivity|]). apply Forall_nil_2. }
  split; [exact H1|]. split; [exact H4|]. split; [exact H5|].
  exact (renderEventPreview_last_day_div sample_day_store sample_day sample_cells 1 _ _
           H1 H2 sample_cells_later H4 H5).
Defined.

(** A view whose second event has the type "my task". *)
Lemma renderEventPreview_throws_witness :
  sample_cells !! 1%nat
  = Some (mkDayCell (mkDayDiv ["monthView_day"; "current"] 1 (Some "01-01-2024")) []) /\
  Forall type_token_ok [task 2 true] /\
  ~ type_token_ok spaced_task /\
  (CalendarDay.view (<[2%positive := [task 2 true; spaced_task; reminder]]> sample_store)
     sample_day = Some ([task 2 true] ++ spaced_task :: [reminder])%list ->
   renderEventPreview (<[2%positive := [task 2 true; spaced_task; reminder]]> sample_store)
     sample_day sample_cells
   = Threw
       (<[1%nat := mkDayCell (mkDayDiv ["monthView_day"; "current"] 1 (Some "01-01-2024"))
                     ([] ++ (preview_of <$> [task 2 true]))]> sample_cells)) /\
  (CalendarDay.view (<[2%positive := [task 2 true; spaced_task; reminder]]> sample_store)
     sample_day = None ->
   renderEventPreview (<[2%positive := [task 2 true; spaced_task; reminder]]> sample_store)
     sample_day sample_cells
   = Threw sample_cells).
Proof.
  assert (H1 : sample_cells !! 1%nat
               = Some (mkDayCell (mkDayDiv ["monthView_day"; "current"] 1
                                    (Some "01-01-2024")) [])) by reflexivity.
  assert (H2 : has_date (CalendarDay.date sample_day)
                 (mkDayCell (mkDayDiv ["monthView_day"; "current"] 1 (Some "01-01-2024")) []))
    by reflexivity.
  assert (H4 : Forall type_token_ok [task 2 true]).
  { repeat (apply Forall_cons; split; [reflexivity|]). apply Forall_nil_2. }
  assert (H5 : ~ type_token_ok spaced_task) by (vm_compute; discriminate).
  split; [exact H1|]. split; [exact H4|]. split; [exact H5|].
  exact (renderEventPreview_throws
           (<[2%positive := [task 2 true; spaced_task; reminder]]> sample_store)
           sample_day sample_cells 1 _ [task 2 true] spaced_task [reminder]
           H1 H2 sample_cells_later H4 H5).
Defined.

(** Day 31 of May 2024 in the grid built on 31 May 2024, where two leading
    cells carry the date strings of 30 and 31 May. *)
Lemma initCalendar_day_div_witness :
  1 <= 31 <= daysInCurrentMonth globals_may2024 /\
  daysInCurrentMonth globals_may2024 <= 31 /\
  nextMonth globals_may2024 = DateAt (MakeDate (MakeDay 2024 5 1) 0) /\
  ~ (YearFromTime (MakeDate (MakeDay 2024 5 1) 0) = YearFromTime may31_2024 /\
     MonthFromTime (MakeDate (MakeDay 2024 5 1) 0) = MonthFromTime may31_2024) /\
  exists grid div,
    initCalendar may31_2024 globals_may2024 (DateAt may31_2024) [] = Some grid /\
    findDayDiv (getDateString (Num 31) (Num (MonthFromTime may31_2024 + 1))
                  (Num (YearFromTime may31_2024))) (day_cells grid)
    = Some (Z.to_nat (index (getFirstWeekDayInMonth (DateAt may31_2024)) + 31 - 1)) /\
    grid !! Z.to_nat (index (getFirstWeekDayInMonth (DateAt may31_2024)) + 31 - 1)
    = Some div /\
    "current" ∈ classList div /\ dayNumber div = 31 /\
    dataset_date div
    = Some (getDateString (Num 31) (Num (MonthFromTime may31_2024 + 1))
              (Num (YearFromTime may31_2024))).
Proof.
  assert (H1 : 1 <= 31 <= daysInCurrentMonth globals_may2024)
    by (vm_compute; split; discriminate).
  assert (H2 : daysInCurrentMonth globals_may2024 <= 31) by (vm_compute; discriminate).
  assert (H3 : nextMonth globals_may2024 = DateAt (MakeDate (MakeDay 2024 5 1) 0))
    by reflexivity.
  assert (H4 : ~ (YearFromTime (MakeDate (MakeDay 2024 5 1) 0) = YearFromTime may31_2024 /\
                  MonthFromTime (MakeDate (MakeDay 2024 5 1) 0) = MonthFromTime may31_2024))
    by (vm_compute; intros [_ H]; discriminate H).
  split; [exact H1|]. split; [exact H2|]. split; [exact H3|]. split; [exact H4|].
  exact (initCalendar_day_div may31_2024 globals_may2024 may31_2024
           (MakeDate (MakeDay 2024 5 1) 0) 31 H1 H2 H3 H4).
Defined.

End Previews.
